(** * Document QA: a model of [documentQA.py]

    The program is a retrieval-augmented question-answering tool.  Its own
    logic is the orchestration in class [ChatWithFile] (query expansion,
    multi-query retrieval, fusion, synthesis, conversation history), the
    metadata simplification of [store_in_chroma] and the upload handler
    [upload_and_handle_file].  Language models, retrieval chains, the JSON
    decoder and the builtin [str] are collaborators of the program: they
    appear here as interfaces, and every theorem holds for all of their
    implementations. *)

From Stdlib Require Import ZArith Ascii String List Sorted SpecFloat DecimalString.
From stdpp Require Import gmap strings list.

Local Open Scope Z_scope.

Set Warnings "-register-all".

(** ** Python values

    The values that [json.loads] produces and that document metadata
    holds: [None], booleans, integers, floats (IEEE binary64, carried as
    [spec_float]), strings, lists and dictionaries with string keys.
    A dictionary keeps its insertion order. *)

Inductive PyValue : Type :=
| PNone
| PBool (b : bool)
| PInt (z : Z)
| PFloat (f : spec_float)
| PStr (s : string)
| PList (items : list PyValue)
| PDict (entries : list (string * PyValue)).

(** ** Exceptions *)

Inductive Exn : Type :=
| AttributeError (obj attr : string)
| TypeError (msg : string)
| KeyError (key : string)
| ValueError (msg : string)
| JSONDecodeError (msg : string)
| FileNotFoundError (path : string)
| NotADirectoryError (path : string)
| IsADirectoryError (path : string)
| RecursionError (msg : string)
| RemoteError (msg : string).

(** [JSONDecodeError] is a subclass of [ValueError]: the clause
    [except (ValueError, json.JSONDecodeError)] catches exactly these. *)
Definition is_ValueError (e : Exn) : bool :=
  match e with
  | ValueError _ | JSONDecodeError _ => true
  | _ => false
  end.

(** The outcome of a call: a value, or an exception that propagates. *)
Inductive Outcome (A : Type) : Type :=
| Returned (a : A)
| Raised (e : Exn).
Arguments Returned {A} a.
Arguments Raised {A} e.

(** ** The builtins the program relies on *)

Class Builtins : Type := {
  (** [json.loads]: the decoded value, or the exception it raises. *)
  json_loads : string -> Outcome PyValue;
  (** [str(value)]: the printed form of a value. *)
  py_str : PyValue -> string
}.

(** ** String methods

    A Python [str] is modelled as a [string].  The two characters the
    program searches for are ASCII, so searching and slicing by position
    agree on code points and on code units. *)

(** [s.find(c)] for a one-character [c]: the first position, or [-1]. *)
Fixpoint find_from (c : ascii) (s : string) (i : Z) : Z :=
  match s with
  | EmptyString => -1
  | String a t => if Ascii.eqb a c then i else find_from c t (i + 1)
  end.

Definition find (s : string) (c : ascii) : Z := find_from c s 0.

(** [s.rfind(c)] for a one-character [c]: the last position, or [-1]. *)
Fixpoint rfind_from (c : ascii) (s : string) (i last : Z) : Z :=
  match s with
  | EmptyString => last
  | String a t => rfind_from c t (i + 1) (if Ascii.eqb a c then i else last)
  end.

Definition rfind (s : string) (c : ascii) : Z := rfind_from c s 0 (-1).

(** A slice bound as Python normalises it: a negative bound counts from
    the end, and the result is clamped to [0 .. len]. *)
Definition slice_bound (len i : Z) : Z :=
  let j := if i <? 0 then i + len else i in
  if j <? 0 then 0 else if len <? j then len else j.

(** [s[start:stop]]. *)
Definition slice (s : string) (start stop : Z) : string :=
  let len := Z.of_nat (String.length s) in
  let lo := slice_bound len start in
  let hi := slice_bound len stop in
  if lo <? hi then substring (Z.to_nat lo) (Z.to_nat (hi - lo)) s else "".

(** [c in s] for a one-character [c]. *)
Fixpoint occurs (c : ascii) (s : string) : bool :=
  match s with
  | EmptyString => false
  | String a t => Ascii.eqb a c || occurs c t
  end.

(** [s.endswith(suffix)]. *)
Definition endswith (s suffix : string) : bool :=
  let n := String.length s in
  let m := String.length suffix in
  (m <=? n)%nat && String.eqb (substring (n - m) m s) suffix.

(** [s.upper()] on ASCII letters; other characters are kept. *)
Definition upper_ascii (a : ascii) : ascii :=
  let n := nat_of_ascii a in
  if ((97 <=? n) && (n <=? 122))%nat then ascii_of_nat (n - 32) else a.

Fixpoint upper (s : string) : string :=
  match s with
  | EmptyString => EmptyString
  | String a t => String (upper_ascii a) (upper t)
  end.

(** [str(n)] for an integer. *)
Definition str_of_int (z : Z) : string := NilZero.string_of_int (Z.to_int z).

(** ** Operations on Python values *)

(** Iteration, as [for q in value] performs it: the items of a list, the
    keys of a dictionary, the characters of a string; any other value is
    not iterable. *)
Fixpoint chars (s : string) : list PyValue :=
  match s with
  | EmptyString => []
  | String a t => PStr (String a EmptyString) :: chars t
  end.

Definition py_iter (v : PyValue) : Outcome (list PyValue) :=
  match v with
  | PList items => Returned items
  | PDict entries => Returned (map (fun e => PStr (fst e)) entries)
  | PStr s => Returned (chars s)
  | _ => Raised (TypeError "object is not iterable")
  end.

(** [d[key]] on the entries of a dictionary. *)
Fixpoint dict_get (entries : list (string * PyValue)) (key : string)
  : option PyValue :=
  match entries with
  | [] => None
  | (k, v) :: rest => if String.eqb k key then Some v else dict_get rest key
  end.

(** [value[key]] for a string [key]: only a dictionary that holds the key
    answers; a missing key is a [KeyError], and subscripting any other
    value with a string is a [TypeError]. *)
Definition py_getitem (v : PyValue) (key : string) : Outcome PyValue :=
  match v with
  | PDict entries =>
      match dict_get entries key with
      | Some x => Returned x
      | None => Raised (KeyError key)
      end
  | PStr _ => Raised (TypeError "string indices must be integers")
  | PList _ => Raised (TypeError "list indices must be integers or slices, not str")
  | _ => Raised (TypeError "object is not subscriptable")
  end.

(** [d[key] = x]: an existing key keeps its position, a new key goes last. *)
Fixpoint dict_set (entries : list (string * PyValue)) (key : string) (x : PyValue)
  : list (string * PyValue) :=
  match entries with
  | [] => [(key, x)]
  | (k, v) :: rest =>
      if String.eqb k key then (k, x) :: rest else (k, v) :: dict_set rest key x
  end.

(** [isinstance(value, (list, dict))]. *)
Definition is_list_or_dict (v : PyValue) : bool :=
  match v with
  | PList _ | PDict _ => true
  | _ => false
  end.

(** [isinstance(value, str)]. *)
Definition is_str (v : PyValue) : bool :=
  match v with
  | PStr _ => true
  | _ => false
  end.

(** Lists and dictionaries are unhashable: using one as a dictionary key
    raises [TypeError]. *)
Definition hashable (v : PyValue) : bool := negb (is_list_or_dict v).

(** Equality of dictionary keys.  Booleans, integers and floats compare by
    numeric value ([True == 1 == 1.0]); a float equals an integer when it
    is finite and denotes exactly that integer.  A dictionary finds a key
    that is the very object it stored, so NaN, which the decoder hands out
    as one object, is found again although it is not equal to itself. *)
Definition float_eq_int (f : spec_float) (z : Z) : bool :=
  match f with
  | S754_zero _ => z =? 0
  | S754_finite sign m e =>
      let v := if sign then Z.neg m else Z.pos m in
      if 0 <=? e then z =? v * 2 ^ e
      else (v mod 2 ^ (- e) =? 0) && (z =? v / 2 ^ (- e))
  | _ => false
  end.

Definition int_of_bool (b : bool) : Z := if b then 1 else 0.

Definition float_key_eqb (x y : spec_float) : bool :=
  match x, y with
  | S754_nan, S754_nan => true
  | _, _ => SFeqb x y
  end.

Definition key_eqb (a b : PyValue) : bool :=
  match a, b with
  | PNone, PNone => true
  | PStr x, PStr y => String.eqb x y
  | PBool x, PBool y => int_of_bool x =? int_of_bool y
  | PBool x, PInt y => int_of_bool x =? y
  | PInt x, PBool y => x =? int_of_bool y
  | PInt x, PInt y => x =? y
  | PFloat x, PFloat y => float_key_eqb x y
  | PFloat x, PInt y => float_eq_int x y
  | PInt x, PFloat y => float_eq_int y x
  | PFloat x, PBool y => float_eq_int x (int_of_bool y)
  | PBool x, PFloat y => float_eq_int y (int_of_bool x)
  | _, _ => false
  end.

(** ** A monad for calls that read and write a state and may raise *)

Definition M (S A : Type) : Type := S -> Outcome A * S.

Definition ret {S A : Type} (a : A) : M S A := fun s => (Returned a, s).

Definition raise {S A : Type} (e : Exn) : M S A := fun s => (Raised e, s).

Definition bind {S A B : Type} (m : M S A) (k : A -> M S B) : M S B :=
  fun s =>
    match m s with
    | (Returned a, s') => k a s'
    | (Raised e, s') => (Raised e, s')
    end.

(** A pure computation that may raise. *)
Definition lift {S A : Type} (o : Outcome A) : M S A := fun s => (o, s).

Definition modify {S : Type} (f : S -> S) : M S unit := fun s => (Returned tt, f s).

Declare Scope py_scope.
Delimit Scope py_scope with py.
Notation "x <- m ;; k" := (bind m (fun x => k))
  (at level 100, m at next level, right associativity) : py_scope.
Notation "m ;;; k" := (bind m (fun _ => k))
  (at level 100, right associativity) : py_scope.
Local Open Scope py_scope.

(** A list comprehension [[f(x) for x in items]] whose body may raise. *)
Fixpoint comprehension {A B : Type} (f : A -> Outcome B) (items : list A)
  : Outcome (list B) :=
  match items with
  | [] => Returned []
  | x :: rest =>
      match f x with
      | Raised e => Raised e
      | Returned y =>
          match comprehension f rest with
          | Raised e => Raised e
          | Returned ys => Returned (y :: ys)
          end
      end
  end.

(** ** Sorting

    [sorted(items, key=..., reverse=True)]: a stable sort by descending
    key; items with equal keys keep their order. *)
Section Sorted.
Context {A : Type} (key : A -> Z).

Fixpoint insert_desc (x : A) (l : list A) : list A :=
  match l with
  | [] => [x]
  | y :: t => if key y <? key x then x :: y :: t else y :: insert_desc x t
  end.

Definition sorted_reverse (items : list A) : list A :=
  fold_left (fun acc x => insert_desc x acc) items [].

End Sorted.

(** ** Conversation turns: classes [Message], [HumanMessage], [AIMessage] *)

Inductive Message : Type :=
| HumanMessage (content : string)
| AIMessage (content : string).

(** ** Results of retrieval and fusion *)

(** An entry of [all_results]: [{'query': ..., 'answer': ...}]. *)
Record QAResult : Type := { query : PyValue; answer : string }.

(** A value of [fused_scores]: [{"doc": result, "score": n}]. *)
Record Fused : Type := { doc : QAResult; score : Z }.

(** An entry of [scored_results]: [{'score': ..., **res['doc']}]. *)
Record Scored : Type := { s_score : Z; s_query : PyValue; s_answer : string }.

(** The dictionary [chat] returns: [{'answer': final_answer}]. *)
Record TopResult : Type := { top_answer : string }.

(** What a language model's [invoke] may hand back, by the three shapes
    [generate_related_queries] tells apart: an object with a [content]
    attribute, a dictionary with the key ['content'], or anything else
    (with its truth value and its [str()] form). *)
Inductive Reply : Type :=
| ReplyMessage (content : string)
| ReplyDict (content : string)
| ReplyOther (truthy : bool) (text : string).

Definition reply_truthy (r : Reply) : bool :=
  match r with
  | ReplyMessage _ | ReplyDict _ => true
  | ReplyOther t _ => t
  end.

(** [response.content]. *)
Definition reply_content (r : Reply) : Outcome string :=
  match r with
  | ReplyMessage c => Returned c
  | ReplyDict _ => Raised (AttributeError "dict" "content")
  | ReplyOther _ _ => Raised (AttributeError "object" "content")
  end.

(** ** What the page shows: the calls made on [st] *)

Inductive Shown : Type :=
| ShowText (s : string)
| ShowValue (v : PyValue)
| ShowReply (r : Reply)
| ShowScored (l : list Scored).

Inductive UIEvent : Type :=
| st_title (text : string)
| st_file_uploader (label : string) (types : list string)
| st_write (args : list Shown)
| st_error (text : string)
| st_success (text : string)
| st_button (label : string)
    (on_click : gmap string PyValue -> gmap string PyValue).

Definition is_st_error (e : UIEvent) : bool :=
  match e with
  | st_error _ => true
  | _ => false
  end.

(** ** Fusion: [ChatWithFile.reciprocal_rank_fusion]

    [fused_scores] is a dictionary keyed by the query of each result; it
    is kept as the list of its items in insertion order, which is the
    order [fused_scores.values()] yields. *)

(** [doc_id in fused_scores]. *)
Fixpoint fused_has (fused_scores : list (PyValue * Fused)) (doc_id : PyValue)
  : bool :=
  match fused_scores with
  | [] => false
  | (k, _) :: rest => key_eqb k doc_id || fused_has rest doc_id
  end.

(** [fused_scores[doc_id]["score"] += 1]. *)
Fixpoint fused_bump (fused_scores : list (PyValue * Fused)) (doc_id : PyValue)
  : list (PyValue * Fused) :=
  match fused_scores with
  | [] => []
  | (k, v) :: rest =>
      if key_eqb k doc_id
      then (k, {| doc := doc v; score := score v + 1 |}) :: rest
      else (k, v) :: fused_bump rest doc_id
  end.

(** One round of the loop over [all_results]. *)
Definition fuse_one (fused_scores : list (PyValue * Fused)) (result : QAResult)
  : Outcome (list (PyValue * Fused)) :=
  let doc_id := query result in
  if hashable doc_id then
    let fused_scores :=
      if fused_has fused_scores doc_id then fused_scores
      else fused_scores ++ [(doc_id, {| doc := result; score := 0 |})] in
    Returned (fused_bump fused_scores doc_id)
  else Raised (TypeError "unhashable type").

Fixpoint fuse_all (all_results : list QAResult)
  (fused_scores : list (PyValue * Fused)) : Outcome (list (PyValue * Fused)) :=
  match all_results with
  | [] => Returned fused_scores
  | result :: rest =>
      match fuse_one fused_scores result with
      | Returned fused_scores => fuse_all rest fused_scores
      | Raised e => Raised e
      end
  end.

(** The parameter [k] (60 by default) is never read. *)
Definition reciprocal_rank_fusion (all_results : list QAResult) (k : Z)
  : Outcome (list Fused) :=
  match fuse_all all_results [] with
  | Returned fused_scores => Returned (sorted_reverse score (map snd fused_scores))
  | Raised e => Raised e
  end.

(** ** The session: class [ChatWithFile]

    [World] is the state of everything behind the network: the language
    models, the vector index and the memory the retrieval chains share.
    A remote call reads it, may change it, and may raise. *)
Section Model.
Context {World : Type} {B : Builtins}.

(** A chat model: [ChatOpenAI] or [ChatAnthropic]. *)
Record LLM : Type := {
  invoke : string -> World -> Outcome Reply * World
}.

(** A [ConversationalRetrievalChain].  Its response is a dictionary with
    the key ['answer']; [None] stands for a response that is falsy. *)
Record Chain : Type := {
  chain_invoke : PyValue -> World -> Outcome (option string) * World
}.

(** The constructors [setup_conversation_retrieval_chain] calls. *)
Record Providers : Type := {
  ChatOpenAI : string -> LLM;
  ChatAnthropic : string -> LLM;
  (** [ConversationalRetrievalChain.from_llm(llm, retriever, memory=...)] *)
  from_llm : LLM -> Chain
}.

(** The instance.  [__init__] binds the two keys and, through
    [setup_conversation_retrieval_chain], [llm] and [llm_anthropic] on every
    path.  The chains are bound under a condition only, so they live in a
    table of attribute names: reading a name that was never bound raises
    [AttributeError]. *)
Record ChatWithFile : Type := {
  openai_api_key : option string;
  anthropic_api_key : option string;
  llm : option LLM;
  llm_anthropic : option LLM;
  chains : gmap string Chain
}.

(** What a call of [chat] reads and writes besides the bindings of the
    instance: the remote world, what the page displays, and the list
    [self.conversation_history] ([chat] rebinds no attribute; this list is
    the one part of the instance it mutates). *)
Record Session : Type := {
  world : World;
  display : list UIEvent;
  conversation_history : list Message
}.

(** [st.<call>(...)]: the page gets one more element. *)
Definition st (e : UIEvent) : M Session unit :=
  modify (fun s => {| world := world s;
                      display := display s ++ [e];
                      conversation_history := conversation_history s |}).

(** [self.conversation_history.append(m)]. *)
Definition history_append (m : Message) : M Session unit :=
  modify (fun s => {| world := world s;
                      display := display s;
                      conversation_history := conversation_history s ++ [m] |}).

(** A remote call. *)
Definition remote {A : Type} (f : World -> Outcome A * World) : M Session A :=
  fun s =>
    let '(o, w) := f (world s) in
    (o, {| world := w; display := display s;
           conversation_history := conversation_history s |}).

(** [self.<name>] for a chain. *)
Definition getattr (self : ChatWithFile) (name : string) : M Session Chain :=
  match chains self !! name with
  | Some c => ret c
  | None => raise (AttributeError "ChatWithFile" name)
  end.

(** [model.invoke(prompt)] where [model] is [self.llm]: on [None] the
    attribute [invoke] does not exist. *)
Definition llm_invoke (model : option LLM) (prompt : string) : M Session Reply :=
  match model with
  | Some m => remote (invoke m prompt)
  | None => raise (AttributeError "NoneType" "invoke")
  end.

(** A key read from the environment is truthy when it is set and not
    empty. *)
Definition key_truthy (key : option string) : option string :=
  match key with
  | Some k => if String.eqb k "" then None else Some k
  | None => None
  end.

(** [setup_conversation_retrieval_chain], from the two keys [__init__]
    read. *)
Definition setup_conversation_retrieval_chain (P : Providers)
  (openai_api_key anthropic_api_key : option string) : ChatWithFile :=
  let llm :=
    match key_truthy openai_api_key with
    | Some k => Some (ChatOpenAI P k)
    | None => None
    end in
  let llm_anthropic :=
    match key_truthy anthropic_api_key with
    | Some k => Some (ChatAnthropic P k)
    | None => None
    end in
  let chains : gmap string Chain := ∅ in
  let chains :=
    match llm with
    | Some m => <["qa" := from_llm P m]> chains
    | None => chains
    end in
  let chains :=
    match llm_anthropic with
    | Some m => <["anthropic_qa" := from_llm P m]> chains
    | None => chains
    end in
  {| openai_api_key := openai_api_key;
     anthropic_api_key := anthropic_api_key;
     llm := llm;
     llm_anthropic := llm_anthropic;
     chains := chains |}.

(** *** Query expansion: [generate_related_queries] *)

Definition related_queries_prompt (original_query : string) : string :=
  "In light of the original inquiry: '" +:+ original_query +:+
  "', let's delve deeper and broaden our exploration. Please construct a JSON array containing four distinct but interconnected search queries. Each query should reinterpret the original prompt's essence, introducing new dimensions or perspectives to investigate. Aim for a blend of complexity and specificity in your rephrasings, ensuring each query unveils different facets of the original question. This approach is intended to encapsulate a more comprehensive understanding and generate the most insightful answers possible. Only respond with the JSON array itself.".

(** The text between the first opening and the last closing bracket, as
    the [try] block cuts it out. *)
Definition json_part (generated_text : string) : string :=
  let json_start := find generated_text "[" in
  let json_end := rfind generated_text "]" + 1 in
  slice generated_text json_start json_end.

(** The [try ... except (ValueError, json.JSONDecodeError)] block. *)
Definition parse_related_queries (generated_text : string) : Outcome PyValue :=
  match json_loads (json_part generated_text) with
  | Returned related_queries => Returned related_queries
  | Raised e => if is_ValueError e then Returned (PList []) else Raised e
  end.

Definition generate_related_queries (self : ChatWithFile) (original_query : string)
  : M Session PyValue :=
  let prompt := related_queries_prompt original_query in
  response <- llm_invoke (llm self) prompt ;;
  generated_text <-
    match response with
    | ReplyMessage content => ret content
    | ReplyDict content => ret content
    | ReplyOther _ text => st (st_error "Unexpected response format.") ;;; ret text
    end ;;
  lift (parse_related_queries generated_text).

(** *** Synthesis prompt: [create_synthesis_prompt] *)

Definition newline : string := String (ascii_of_nat 10) EmptyString.

(** The lines [Answer i (Score: s): a], numbered from [idx + 1]. *)
Fixpoint answer_lines (idx : Z) (sorted_results : list Scored) : string :=
  match sorted_results with
  | [] => ""
  | result :: rest =>
      "Answer " +:+ str_of_int (idx + 1) +:+ " (Score: " +:+
      str_of_int (s_score result) +:+ "): " +:+ s_answer result +:+
      newline +:+ newline +:+ answer_lines (idx + 1) rest
  end.

Definition create_synthesis_prompt (original_question : string)
  (all_results : list Scored) : M Session string :=
  let sorted_results := sorted_reverse s_score all_results in
  st (st_write [ShowText "Sorted Results"; ShowScored sorted_results]) ;;;
  let prompt :=
    "Based on the user's original question: '" +:+ original_question +:+
    "', here are the answers to the original and related questions, ordered by their relevance (with RRF scores). Please synthesize a comprehensive answer focusing on answering the original question using all the information provided below:" +:+
    newline +:+ newline in
  let prompt := prompt +:+ answer_lines 0 sorted_results in
  let prompt := prompt +:+
    "Given the above answers, especially considering those with higher scores, please provide the best possible composite answer to the user's original question." in
  ret prompt.

(** *** [chat] *)

(** The body of the loop up to the response (lines 111 to 116): which
    chain answers depends on which model is set. *)
Definition ask (self : ChatWithFile) (query_text : PyValue)
  : M Session (option string) :=
  match llm self with
  | Some _ =>
      qa <- getattr self "qa" ;;
      remote (chain_invoke qa query_text)
  | None =>
      match llm_anthropic self with
      | Some _ =>
          qa_anthropic <- getattr self "qa_anthropic" ;;
          remote (chain_invoke qa_anthropic query_text)
      | None => ret None
      end
  end.

(** The loop over [queries]; [all_results] is the list built so far. *)
Fixpoint retrieve (self : ChatWithFile) (queries : list PyValue)
  (all_results : list QAResult) : M Session (list QAResult) :=
  match queries with
  | [] => ret all_results
  | query_text :: rest =>
      response <- ask self query_text ;;
      all_results <-
        match response with
        | Some response_answer =>
            st (st_write [ShowText "Query:"; ShowValue query_text]) ;;;
            st (st_write [ShowText "Response:"; ShowText response_answer]) ;;;
            ret (all_results ++ [{| query := query_text; answer := response_answer |}])
        | None =>
            st (st_write [ShowText "No response received for:"; ShowValue query_text]) ;;;
            ret all_results
        end ;;
      retrieve self rest all_results
  end.

(** Lines 102 to 124: expansion, then one retrieval per query. *)
Definition gather (self : ChatWithFile) (question : string)
  : M Session (list QAResult) :=
  related_queries_dicts <- generate_related_queries self question ;;
  related_queries <-
    lift (match py_iter related_queries_dicts with
          | Returned items => comprehension (fun q => py_getitem q "query") items
          | Raised e => Raised e
          end) ;;
  let queries := PStr question :: related_queries in
  retrieve self queries [].

(** Lines 127 to 150: fusion, synthesis, and the two history entries. *)
Definition synthesize (self : ChatWithFile) (question : string)
  (all_results : list QAResult) : M Session TopResult :=
  match all_results with
  | _ :: _ =>
      reranked_results <- lift (reciprocal_rank_fusion all_results 60) ;;
      let scored_results :=
        map (fun res => {| s_score := score res;
                           s_query := query (doc res);
                           s_answer := answer (doc res) |}) reranked_results in
      synthesis_prompt <- create_synthesis_prompt question scored_results ;;
      synthesized_response <- llm_invoke (llm self) synthesis_prompt ;;
      final_answer <-
        (if reply_truthy synthesized_response then
           st (st_write [ShowReply synthesized_response]) ;;;
           lift (reply_content synthesized_response)
         else ret "Unable to synthesize a response.") ;;
      history_append (HumanMessage question) ;;;
      history_append (AIMessage final_answer) ;;;
      ret {| top_answer := final_answer |}
  | [] =>
      history_append (HumanMessage question) ;;;
      history_append (AIMessage "No answer available.") ;;;
      ret {| top_answer := "No results were available to synthesize a response." |}
  end.

Definition chat (self : ChatWithFile) (question : string) : M Session TopResult :=
  all_results <- gather self question ;;
  synthesize self question all_results.

(** The calls of one session, in order.  An exception ends the call that
    raised it, not the session: the next question is served by the same
    instance. *)
Fixpoint chats (self : ChatWithFile) (questions : list string) (s : Session)
  : list (Outcome TopResult) * Session :=
  match questions with
  | [] => ([], s)
  | question :: rest =>
      let '(o, s1) := chat self question s in
      let '(os, s2) := chats self rest s1 in
      (o :: os, s2)
  end.

(** How many of the calls returned. *)
Definition completed {A : Type} (outcomes : list (Outcome A)) : nat :=
  length (List.filter (fun o => match o with Returned _ => true | Raised _ => false end)
                 outcomes).

(** *** Metadata simplification: [store_in_chroma]

    A document has a text and metadata; [simplify_metadata] touches the
    metadata only when it is a dictionary. *)
Record Document : Type := { page_content : string; metadata : PyValue }.

(** The loop [for key, value in doc.metadata.items()], over the items as
    they stood when the loop began; each assignment goes to the
    dictionary being built. *)
Fixpoint simplify_items (items : list (string * PyValue))
  (metadata : list (string * PyValue)) : list (string * PyValue) :=
  match items with
  | [] => metadata
  | (key, value) :: rest =>
      let metadata :=
        if is_list_or_dict value then dict_set metadata key (PStr (py_str value))
        else metadata in
      simplify_items rest metadata
  end.

Definition simplify_metadata (d : Document) : Document :=
  match metadata d with
  | PDict entries =>
      {| page_content := page_content d;
         metadata := PDict (simplify_items entries entries) |}
  | _ => d
  end.

(** [self.docs = [simplify_metadata(doc) for doc in self.docs]]. *)
Definition simplify_docs (docs : list Document) : list Document :=
  map simplify_metadata docs.

End Model.

(** ** The upload page: [upload_and_handle_file]

    The handler works on the session state of the page, on the files and
    directories of the working directory, and on what the page displays. *)

Record UploadedFile : Type := {
  name : string;
  getvalue : list Byte.byte
}.

Record Desk : Type := {
  session_state : gmap string PyValue;
  dirs : gset string;
  files : gmap string (list Byte.byte);
  shown : list UIEvent
}.

(** [st.<call>(...)] on the upload page. *)
Definition show (e : UIEvent) : M Desk unit :=
  modify (fun d => {| session_state := session_state d; dirs := dirs d;
                      files := files d; shown := shown d ++ [e] |}).

(** [st.session_state[key] = value]. *)
Definition session_set (key : string) (value : PyValue) : M Desk unit :=
  modify (fun d => {| session_state := <[key := value]> (session_state d);
                      dirs := dirs d; files := files d; shown := shown d |}).

(** [os.path.join(a, b)] on a POSIX system: an absolute [b] replaces [a]. *)
Definition os_path_join (a b : string) : string :=
  match b with
  | String "/" _ => b
  | _ => if String.eqb a "" || endswith a "/" then a +:+ b else a +:+ "/" +:+ b
  end.

(** [s.rstrip('/')]. *)
Fixpoint rstrip_slash (s : string) : string :=
  match s with
  | EmptyString => EmptyString
  | String a t =>
      match rstrip_slash t with
      | EmptyString => if Ascii.eqb a "/" then EmptyString else String a EmptyString
      | t' => String a t'
      end
  end.

(** [os.path.dirname(p)]. *)
Definition os_path_dirname (p : string) : string :=
  let head := slice p 0 (rfind p "/" + 1) in
  match rstrip_slash head with
  | EmptyString => head
  | stripped => stripped
  end.

(** [os.path.exists(p)]. *)
Definition os_path_exists (p : string) : M Desk bool :=
  fun d => (Returned (bool_decide (p ∈ dirs d) || bool_decide (is_Some (files d !! p))), d).

(** [os.makedirs(p)] for a path of one component. *)
Definition os_makedirs (p : string) : M Desk unit :=
  modify (fun d => {| session_state := session_state d; dirs := {[p]} ∪ dirs d;
                      files := files d; shown := shown d |}).

(** The directories on the way to [p], outermost first: what
    [os.path.dirname] gives when applied again and again, up to the
    working directory or the root, which always exist. *)
Fixpoint ancestors_from (fuel : nat) (p : string) (inner : list string)
  : list string :=
  match fuel with
  | O => inner
  | S fuel =>
      let parent := os_path_dirname p in
      if String.eqb parent "" || String.eqb parent "/" || String.eqb parent p
      then inner
      else ancestors_from fuel parent (parent :: inner)
  end.

Definition ancestors (p : string) : list string :=
  ancestors_from (String.length p) p [].

(** The first place of [way] that is no directory stops the walk to [p]:
    a regular file there is [NotADirectoryError], nothing there is
    [FileNotFoundError]. *)
Fixpoint blocked (p : string) (way : list string) (d : Desk) : option Exn :=
  match way with
  | [] => None
  | dir :: rest =>
      if bool_decide (dir ∈ dirs d) then blocked p rest d
      else if bool_decide (is_Some (files d !! dir)) then Some (NotADirectoryError p)
      else Some (FileNotFoundError p)
  end.

(** [with open(p, "wb") as f: f.write(data)]: the file is created or
    replaced.  Every directory on the way must be one, and [p] itself
    must not be a directory.  A path is taken as it is spelled: the model
    is for a path that ends in a file name and has no component [.] or
    [..], as [temp/<name>] is for an upload whose name has no such
    part. *)
Definition write_file (p : string) (data : list Byte.byte) : M Desk unit :=
  fun d =>
    if String.eqb p "" then (Raised (FileNotFoundError p), d)
    else
      match blocked p (ancestors p) d with
      | Some e => (Raised e, d)
      | None =>
          if bool_decide (p ∈ dirs d) then (Raised (IsADirectoryError p), d)
          else (Returned tt, {| session_state := session_state d; dirs := dirs d;
                                files := <[p := data]> (files d); shown := shown d |})
      end.

(** The [if]/[elif] chain on the file name; [None] is the fallback. *)
Definition file_type_of (file_name : string) : option string :=
  if endswith file_name ".csv" then Some "csv"
  else if endswith file_name ".pdf" then Some "pdf"
  else if endswith file_name ".txt" then Some "txt"
  else if endswith file_name ".pptx" then Some "pptx"
  else if endswith file_name ".docx" then Some "docx"
  else if endswith file_name ".xlsx" then Some "xlsx"
  else None.

(** [uploaded_file] is what [st.file_uploader] returned: a file, or [None]
    while nothing has been chosen. *)
Definition upload_and_handle_file (uploaded_file : option UploadedFile)
  : M Desk unit :=
  show (st_title "Document QA - Chat with Document Data") ;;;
  show (st_file_uploader "Choose a XLSX, PPTX, DOCX, PDF, CSV, or TXT file"
          ["xlsx"; "pptx"; "docx"; "pdf"; "csv"; "txt"]) ;;;
  match uploaded_file with
  | Some f =>
      match file_type_of (name f) with
      | Some file_type =>
          let csv_pdf_txt_path := os_path_join "temp" (name f) in
          temp_exists <- os_path_exists "temp" ;;
          (if temp_exists then ret tt else os_makedirs "temp") ;;;
          write_file csv_pdf_txt_path (getvalue f) ;;;
          session_set "file_path" (PStr csv_pdf_txt_path) ;;;
          session_set "file_type" (PStr file_type) ;;;
          show (st_success (upper file_type +:+ " file uploaded successfully.")) ;;;
          show (st_button "Proceed to Chat" (fun state => <["page" := PInt 2]> state))
      | None =>
          show (st_error "Unsupported file type. Please upload a XLSX, PPTX, DOCX, PDF, CSV, or TXT file.")
      end
  | None => ret tt
  end.

Arguments LLM World : clear implicits.
Arguments Chain World : clear implicits.
Arguments Providers World : clear implicits.
Arguments ChatWithFile World : clear implicits.
Arguments Session World : clear implicits.

(** The queries of [all_results] are pairwise distinct as dictionary keys. *)
Fixpoint distinct_queries (all_results : list QAResult) : Prop :=
  match all_results with
  | [] => True
  | r :: rest =>
      Forall (fun r' => key_eqb (query r) (query r') = false) rest
      /\ distinct_queries rest
  end.

(** A result on its own in its bucket: counted once. *)
Definition once (r : QAResult) : Fused := {| doc := r; score := 1 |}.

(** A computation that leaves the conversation history as it found it,
    whether it returns or raises. *)
Definition keeps_history {World A : Type} (m : M (Session World) A) : Prop :=
  forall s, conversation_history (snd (m s)) = conversation_history s.

(** A computation that, when it returns, has appended the human turn for
    [question] and then one AI turn, and when it raises has left the
    history alone. *)
Definition appends_turn {World : Type} (question : string)
  (m : M (Session World) TopResult) : Prop :=
  forall s,
    match m s with
    | (Returned _, s') =>
        exists final_answer,
          conversation_history s'
          = conversation_history s ++ [HumanMessage question; AIMessage final_answer]
    | (Raised _, s') => conversation_history s' = conversation_history s
    end.

(** The text [generate_related_queries] reads off a reply. *)
Definition reply_text (r : Reply) : string :=
  match r with
  | ReplyMessage content | ReplyDict content => content
  | ReplyOther _ text => text
  end.

(** What it displays on the way: an error for an unexpected reply only. *)
Definition reply_complaint (r : Reply) : list UIEvent :=
  match r with
  | ReplyOther _ _ => [st_error "Unexpected response format."]
  | _ => []
  end.

(** A parsed element that [q['query']] accepts: a dictionary with that key. *)
Definition has_query (q : PyValue) : Prop :=
  exists entries v, q = PDict entries /\ dict_get entries "query" = Some v.

(** The file extensions the upload handler accepts. *)
Definition supported_suffixes : list string :=
  [".csv"; ".pdf"; ".txt"; ".pptx"; ".docx"; ".xlsx"].

(** [history] alternates human and AI turns and starts with a human turn. *)
Fixpoint alternates (history : list Message) : bool :=
  match history with
  | [] => true
  | HumanMessage _ :: AIMessage _ :: rest => alternates rest
  | _ => false
  end.

(** Every value of the metadata of [d] is a string. *)
Definition string_valued (d : Document) : bool :=
  match metadata d with
  | PDict entries => forallb (fun e => is_str (snd e)) entries
  | _ => false
  end.

(** No value of the metadata of [d] is a list or a dictionary. *)
Definition scalar_valued (d : Document) : bool :=
  match metadata d with
  | PDict entries => forallb (fun e => negb (is_list_or_dict (snd e))) entries
  | _ => false
  end.

(** What [simplify_metadata] does to one value. *)
Definition simplify_value {B : Builtins} (value : PyValue) : PyValue :=
  if is_list_or_dict value then PStr (py_str value) else value.

(** ** A scripted world

    An instance of every interface, to run the model on concrete inputs:
    the world counts the remote calls made so far, the models and chains
    answer from a script, and the decoder knows the two documents the
    scripted model writes. *)

Definition dq : string := String (ascii_of_nat 34) EmptyString.

Definition queries_as_objects : string :=
  "[{" +:+ dq +:+ "query" +:+ dq +:+ ": " +:+ dq +:+ "France capital city" +:+ dq +:+ "}]".

Definition queries_as_strings : string :=
  "[" +:+ dq +:+ "France capital city" +:+ dq +:+ ", " +:+ dq +:+ "Paris" +:+ dq +:+ "]".

Definition scripted_json_loads (s : string) : Outcome PyValue :=
  if String.eqb s queries_as_objects then
    Returned (PList [PDict [("query", PStr "France capital city")]])
  else if String.eqb s queries_as_strings then
    Returned (PList [PStr "France capital city"; PStr "Paris"])
  else Raised (JSONDecodeError "Expecting value").

(** A printer for values without floats and without characters that need
    escaping. *)
Fixpoint scripted_str (v : PyValue) : string :=
  match v with
  | PNone => "None"
  | PBool b => if b then "True" else "False"
  | PInt z => str_of_int z
  | PFloat _ => "nan"
  | PStr s => "'" +:+ s +:+ "'"
  | PList items => "[" +:+ String.concat ", " (map scripted_str items) +:+ "]"
  | PDict entries =>
      "{" +:+ String.concat ", "
                (map (fun e => "'" +:+ fst e +:+ "': " +:+ scripted_str (snd e)) entries)
      +:+ "}"
  end.

Definition scripted : Builtins :=
  {| json_loads := scripted_json_loads; py_str := scripted_str |}.

Definition scripted_llm (reply : string -> Reply) : LLM nat :=
  {| invoke := fun prompt calls => (Returned (reply prompt), S calls) |}.

Definition scripted_chain (respond : PyValue -> option string) : Chain nat :=
  {| chain_invoke := fun query_text calls => (Returned (respond query_text), S calls) |}.

Definition scripted_providers (reply : string -> Reply)
  (respond : PyValue -> option string) : Providers nat :=
  {| ChatOpenAI := fun _ => scripted_llm reply;
     ChatAnthropic := fun _ => scripted_llm reply;
     from_llm := fun _ => scripted_chain respond |}.

(** The scripted model: asked for related queries it wraps [expansion] in
    a sentence; asked for a synthesis it answers [Paris.]. *)
Definition scripted_reply (expansion : string) (prompt : string) : Reply :=
  if String.prefix "In light of" prompt
  then ReplyMessage ("Here are the queries: " +:+ expansion +:+ " I hope they help.")
  else ReplyMessage "Paris.".

(** The scripted chain knows the capital of France and nothing else. *)
Definition scripted_respond (query_text : PyValue) : option string :=
  match query_text with
  | PStr q =>
      if String.eqb q "What is the capital of France?" then Some "Paris"
      else if String.eqb q "France capital city" then Some "It is Paris"
      else None
  | _ => None
  end.

(** Three sessions with the OpenAI key only: the model of the first adds
    no related query, that of the second writes them as objects with the
    key [query], that of the third as plain strings. *)
Definition plain_session : ChatWithFile nat :=
  setup_conversation_retrieval_chain
    (scripted_providers (scripted_reply "none this time.") scripted_respond)
    (Some "sk-test") None.

Definition expanding_session : ChatWithFile nat :=
  setup_conversation_retrieval_chain
    (scripted_providers (scripted_reply queries_as_objects) scripted_respond)
    (Some "sk-test") None.

Definition string_session : ChatWithFile nat :=
  setup_conversation_retrieval_chain
    (scripted_providers (scripted_reply queries_as_strings) scripted_respond)
    (Some "sk-test") None.

(** A session with the Anthropic key only. *)
Definition anthropic_session : ChatWithFile nat :=
  setup_conversation_retrieval_chain
    (scripted_providers (scripted_reply queries_as_objects) scripted_respond)
    None (Some "sk-ant-test").

Definition capital_question : string := "What is the capital of France?".

Definition two_results : list QAResult :=
  [ {| query := PStr capital_question; answer := "Paris" |};
    {| query := PStr "France capital city"; answer := "It is Paris" |} ].

(** The same with the related query asked twice. *)
Definition repeated_results : list QAResult :=
  two_results ++ [ {| query := PStr "France capital city"; answer := "Paris, again" |} ].

Definition pdf_file : UploadedFile := {| name := "report.pdf"; getvalue := [] |}.

Definition page_doc : Document :=
  {| page_content := "The capital of France is Paris.";
     metadata := PDict [("page", PInt 3); ("languages", PList [PStr "eng"])] |}.

Definition png_file : UploadedFile := {| name := "photo.png"; getvalue := [] |}.

Definition fresh : Session nat :=
  {| world := 0%nat; display := []; conversation_history := [] |}.

Definition empty_desk : Desk :=
  {| session_state := ∅; dirs := ∅; files := ∅; shown := [] |}.

(** ** Further notions for the properties of fusion *)

(** How many of [all_results] carry the query [q]. *)
Definition asked (q : PyValue) (all_results : list QAResult) : nat :=
  length (List.filter (fun r => key_eqb (query r) q) all_results).

(** The first of [all_results] that carries the query [q]. *)
Definition first_asked (q : PyValue) (all_results : list QAResult)
  : option QAResult :=
  List.find (fun r => key_eqb (query r) q) all_results.

(** The scores of the entries, added up. *)
Definition total_score (entries : list Fused) : Z :=
  fold_right (fun e acc => score e + acc) 0 entries.

(** What the dictionary holds after the results [done]: for each entry,
    its key is the query of its document, which is the first result with
    that query, and its score is the number of results with that query;
    the keys are distinct strings, and every query seen has its entry. *)
Definition fused_for (done : list QAResult) (fused_scores : list (PyValue * Fused))
  : Prop :=
  Forall (fun e => is_str (fst e) = true
                   /\ fst e = query (doc (snd e))
                   /\ first_asked (fst e) done = Some (doc (snd e))
                   /\ score (snd e) = Z.of_nat (asked (fst e) done)) fused_scores
  /\ NoDup (map fst fused_scores)
  /\ Forall (fun d => In (query d) (map fst fused_scores)) done.

(** ** Further notions for the properties of [chat] *)

(** A computation that, when it returns, has appended the human turn for
    [question] and then an AI turn that holds the very answer it
    returns, and when it raises has left the history alone. *)
Definition records_answer {World : Type} (question : string)
  (m : M (Session World) TopResult) : Prop :=
  forall s,
    match m s with
    | (Returned r, s') =>
        conversation_history s'
        = conversation_history s ++ [HumanMessage question; AIMessage (top_answer r)]
    | (Raised _, s') => conversation_history s' = conversation_history s
    end.

(** ** Ingestion: [ChatWithFile.load_file] and [ChatWithFile.__init__] *)

(** The loader [load_file] constructs, by its class and arguments. *)
Inductive Loader : Type :=
| CSVLoader (file_path : PyValue)
| PyMuPDFLoader (file_path : PyValue)
| TextLoader (file_path : PyValue)
| UnstructuredPowerPointLoader (file_path : PyValue)
| Docx2txtLoader (file_path : PyValue)
| UnstructuredExcelLoader (file_path : PyValue) (mode : string).

(** [value == 'text']: only a string equals a string. *)
Definition eq_str (value : PyValue) (text : string) : bool :=
  match value with
  | PStr s => String.eqb s text
  | _ => false
  end.

(** The [if]/[elif] chain of [load_file]; with [None] no branch was taken
    and [self.loader] is not bound. *)
Definition pick_loader (file_path file_type : PyValue) : option Loader :=
  if eq_str file_type "csv" then Some (CSVLoader file_path)
  else if eq_str file_type "pdf" then Some (PyMuPDFLoader file_path)
  else if eq_str file_type "txt" then Some (TextLoader file_path)
  else if eq_str file_type "pptx" then Some (UnstructuredPowerPointLoader file_path)
  else if eq_str file_type "docx" then Some (Docx2txtLoader file_path)
  else if eq_str file_type "xlsx" then Some (UnstructuredExcelLoader file_path "elements")
  else None.

(** Truth value of a Python value. *)
Definition py_truthy (v : PyValue) : bool :=
  match v with
  | PNone => false
  | PBool b => b
  | PInt z => negb (z =? 0)
  | PFloat (S754_zero _) => false
  | PFloat _ => true
  | PStr s => negb (String.eqb s "")
  | PList items => match items with [] => false | _ => true end
  | PDict entries => match entries with [] => false | _ => true end
  end.

Section Pages.
Context {World VectorDB : Type} {B : Builtins}.

(** What the program finds around it: the environment variables, the
    open file descriptors, and the libraries that read, split and index a
    document.  Constructing a loader and calling its [load_and_split] is
    one step, so is building the chunker and calling [split_documents],
    and so is [Chroma.from_documents] with [persist]; [providers] gives
    the model and chain constructors for the index built, with the
    memory [setup_conversation_memory] creates. *)
Record Platform : Type := {
  getenv : string -> option string;
  fd_open : Z -> bool;
  load_and_split : Loader -> World -> Outcome (list Document) * World;
  split_documents : list Document -> World -> Outcome (list Document) * World;
  chroma_from_documents : list Document -> World -> Outcome VectorDB * World;
  providers : VectorDB -> Providers World
}.

(** [load_file]: the pages of the document. *)
Definition load_file (F : Platform) (file_path file_type : PyValue)
  : M (Session World) (list Document) :=
  match pick_loader file_path file_type with
  | Some loader => remote (load_and_split F loader)
  | None => raise (AttributeError "ChatWithFile" "loader")
  end.

(** [split_into_chunks]. *)
Definition split_into_chunks (F : Platform) (pages : list Document)
  : M (Session World) (list Document) :=
  remote (split_documents F pages).

(** [store_in_chroma]: the index gets the documents with simplified
    metadata. *)
Definition store_in_chroma (F : Platform) (docs : list Document)
  : M (Session World) VectorDB :=
  let docs := simplify_docs docs in
  remote (chroma_from_documents F docs).

(** [self.conversation_history = []]. *)
Definition history_reset : M (Session World) unit :=
  modify (fun s => {| world := world s;
                      display := display s;
                      conversation_history := [] |}).

(** [ChatWithFile(file_path=..., file_type=...)]. *)
Definition init (F : Platform) (file_path file_type : PyValue)
  : M (Session World) (ChatWithFile World) :=
  let openai_api_key := getenv F "OPENAI_API_KEY" in
  let anthropic_api_key := getenv F "ANTHROPIC_API_KEY" in
  history_reset ;;;
  pages <- load_file F file_path file_type ;;
  docs <- split_into_chunks F pages ;;
  vectordb <- store_in_chroma F docs ;;
  ret (setup_conversation_retrieval_chain (providers F vectordb)
         openai_api_key anthropic_api_key).

(** ** The chat page: [chat_interface], and the script *)

(** What the chat page shows: what the upload page and [chat] can show,
    and the calls of its own. *)
Inductive Element : Type :=
| shown_by (e : UIEvent)
| st_markdown (text : string)
| st_text_input (label : string)
| st_send (label : string)
| st_spinner (text : string).

(** The state of the application between two runs of the script.  The
    session state of the page is that of [desk], but for the key
    [chat_instance], which holds an object and is kept apart; the
    conversation history of that instance, the world and what [chat]
    displays are in [session]. *)
Record App : Type := {
  desk : Desk;
  chat_instance : option (ChatWithFile World);
  session : Session World;
  rendered : list Element
}.

Definition render (e : Element) : M App unit :=
  modify (fun a => {| desk := desk a; chat_instance := chat_instance a;
                      session := session a; rendered := rendered a ++ [e] |}).

(** A step of the upload page's state, and a step of a chat session. *)
Definition on_desk {A : Type} (m : M Desk A) : M App A :=
  fun a =>
    let '(o, d) := m (desk a) in
    (o, {| desk := d; chat_instance := chat_instance a;
           session := session a; rendered := rendered a |}).

Definition on_session {A : Type} (m : M (Session World) A) : M App A :=
  fun a =>
    let '(o, s) := m (session a) in
    (o, {| desk := desk a; chat_instance := chat_instance a;
           session := s; rendered := rendered a |}).

(** [st.session_state.get(key)]. *)
Definition session_get (key : string) : M Desk PyValue :=
  fun d => (Returned (default PNone (session_state d !! key)), d).

(** [os.path.exists(value)]: a string is a path, an integer (or a
    boolean) a file descriptor, anything else is rejected. *)
Definition os_path_exists_value (F : Platform) (value : PyValue) : M Desk bool :=
  match value with
  | PStr p => os_path_exists p
  | PInt z => ret (fd_open F z)
  | PBool b => ret (fd_open F (int_of_bool b))
  | _ => raise (TypeError "stat: path should be string, bytes, os.PathLike or integer")
  end.

(** [st.session_state['chat_instance'] = instance]. *)
Definition store_instance (instance : ChatWithFile World) : M App unit :=
  modify (fun a => {| desk := desk a; chat_instance := Some instance;
                      session := session a; rendered := rendered a |}).

(** One line of the displayed history.  Line 278 tests the message
    against the class [HumanMessage] of the run that displays it.
    Streamlit executes the script anew for every run, its class
    statements included, and the messages of an instance are made with
    the classes of the run that built it; [this_run] tells whether that
    is the run displaying them.  A human turn of an instance kept from an
    earlier run is no instance of this run's [HumanMessage], and gets the
    other prefix. *)
Definition history_line (this_run : bool) (message : Message) : Element :=
  match message with
  | HumanMessage content =>
      st_markdown ((if this_run then "*You:* " else "*AI:* ") +:+ content)
  | AIMessage content => st_markdown ("*AI:* " +:+ content)
  end.

Fixpoint render_all (elements : list Element) : M App unit :=
  match elements with
  | [] => ret tt
  | e :: rest => render e ;;; render_all rest
  end.

(** Lines 263 to 279 of [chat_interface]: the question, the answer and
    the history.  [user_input] is what [st.text_input] returned and
    [send] what [st.button("Send")] returns when it is reached;
    [this_run] tells whether [instance] was built in this run.  The
    dictionary [chat] returns is never empty, so the branch for a falsy
    [top_result] is not taken. *)
Definition ask_and_show (instance : ChatWithFile World) (this_run : bool)
  (user_input : string) (send : bool) : M App unit :=
  render (st_text_input "Ask a question about the document data:") ;;;
  if negb (String.eqb user_input "") then
    render (st_send "Send") ;;;
    if send then
      render (st_spinner "Thinking...") ;;;
      top_result <- on_session (chat instance user_input) ;;
      render (st_markdown "**Top Answer:**") ;;;
      render (st_markdown ("> " +:+ top_answer top_result)) ;;;
      render (st_markdown "**Chat History:**") ;;;
      history <- (fun a => (Returned (conversation_history (session a)), a)) ;;
      render_all (map (history_line this_run) history)
    else ret tt
  else ret tt.

(** [chat_interface].  With the instance goes whether this run built it
    or found it in the session state. *)
Definition chat_interface (F : Platform) (user_input : string) (send : bool)
  : M App unit :=
  render (shown_by (st_title "Document QA - Chat with Document Data")) ;;;
  file_path <- on_desk (session_get "file_path") ;;
  file_type <- on_desk (session_get "file_type") ;;
  missing <-
    (if py_truthy file_path
     then found <- on_desk (os_path_exists_value F file_path) ;; ret (negb found)
     else ret true) ;;
  if missing : bool then
    render (shown_by (st_error "File missing. Please go back and upload a file."))
  else
    stored <- (fun a => (Returned (chat_instance a), a)) ;;
    found <-
      match stored with
      | Some instance => ret (instance, false)
      | None =>
          instance <- on_session (init F file_path file_type) ;;
          store_instance instance ;;;
          ret (instance, true)
      end ;;
    ask_and_show (fst found) (snd found) user_input send.

(** The script: the page defaults to 1; page 1 is the upload page, page
    2 the chat page.  [uploaded_file], [user_input] and [send] are what
    the widgets of the page return in this run. *)
Definition main (F : Platform) (uploaded_file : option UploadedFile)
  (user_input : string) (send : bool) : M App unit :=
  has_page <- on_desk (fun d => (Returned (bool_decide (is_Some (session_state d !! "page"))), d)) ;;
  (if has_page : bool then ret tt else on_desk (session_set "page" (PInt 1))) ;;;
  page <- on_desk (session_get "page") ;;
  if key_eqb page (PInt 1) then on_desk (upload_and_handle_file uploaded_file)
  else if key_eqb page (PInt 2) then chat_interface F user_input send
  else ret tt.


End Pages.

Arguments Platform World VectorDB : clear implicits.
Arguments App World : clear implicits.

(** ** Notions for the properties of ingestion and of the pages *)

(** The path a loader was given. *)
Definition loader_file_path (loader : Loader) : PyValue :=
  match loader with
  | CSVLoader p | PyMuPDFLoader p | TextLoader p
  | UnstructuredPowerPointLoader p | Docx2txtLoader p
  | UnstructuredExcelLoader p _ => p
  end.

(** The file types [load_file] knows. *)
Definition loadable_types : list string :=
  ["csv"; "pdf"; "txt"; "pptx"; "docx"; "xlsx"].

(** The session state names, under [file_path], the path [p] of something
    that is on disk. *)
Definition file_present (p : string) (d : Desk) : Prop :=
  session_state d !! "file_path" = Some (PStr p)
  /\ p <> ""
  /\ (p ∈ dirs d \/ is_Some (files d !! p)).

(** The session state names no path, or one with nothing on disk. *)
Definition file_missing (d : Desk) : Prop :=
  py_truthy (default PNone (session_state d !! "file_path")) = false
  \/ exists p, session_state d !! "file_path" = Some (PStr p)
               /\ (p ∉ dirs d) /\ files d !! p = None.

(** The application [a] with [elements] added to what the chat page
    shows. *)
Definition adding {World : Type} (a : App World) (elements : list Element)
  : App World :=
  {| desk := desk a; chat_instance := chat_instance a;
     session := session a; rendered := rendered a ++ elements |}.

(** What the chat page shows before it asks anything. *)
Definition chat_page_head (user_input : string) : list Element :=
  [ shown_by (st_title "Document QA - Chat with Document Data");
    st_text_input "Ask a question about the document data:" ]
  ++ (if String.eqb user_input "" then [] else [st_send "Send"]).

(** A computation of the application that leaves the upload page's
    state (session state, directories, files, display) as it found it,
    only adds to what the chat page shows, and neither replaces nor drops
    an instance that is there. *)
Definition page_step {World A : Type} (m : M (App World) A) : Prop :=
  forall a,
    desk (snd (m a)) = desk a
    /\ (exists elements, rendered (snd (m a)) = rendered a ++ elements)
    /\ (forall instance, chat_instance a = Some instance ->
                         chat_instance (snd (m a)) = Some instance).

(** The script run once for each of [inputs], what the widgets return in
    that run.  The session state outlives a run, also one that an
    exception ended. *)
Fixpoint runs {World VectorDB : Type} {B : Builtins} (F : Platform World VectorDB)
  (inputs : list (option UploadedFile * string * bool)) (a : App World)
  : App World :=
  match inputs with
  | [] => a
  | (uploaded_file, user_input, send) :: rest =>
      runs F rest (snd (main F uploaded_file user_input send a))
  end.

(** The scored results [chat] hands to [create_synthesis_prompt]. *)
Definition scored_of (reranked_results : list Fused) : list Scored :=
  map (fun res => {| s_score := score res;
                     s_query := query (doc res);
                     s_answer := answer (doc res) |}) reranked_results.

(** ** A scripted platform *)

(** The key of OpenAI is set; every document has the one page
    [page_doc], the chunker keeps the pages, and the index built is
    identified by the number of its documents. *)
Definition scripted_platform : Platform nat nat :=
  {| getenv := fun key => if String.eqb key "OPENAI_API_KEY" then Some "sk-test" else None;
     fd_open := fun _ => false;
     load_and_split := fun _ calls => (Returned [page_doc], S calls);
     split_documents := fun pages calls => (Returned pages, S calls);
     chroma_from_documents := fun docs calls => (Returned (length docs), S calls);
     providers := fun _ =>
       scripted_providers (scripted_reply "none this time.") scripted_respond |}.

(** The state [report.pdf] was uploaded to, with the chat page chosen. *)
Definition uploaded_desk : Desk :=
  {| session_state :=
       <["page" := PInt 2]>
         (<["file_type" := PStr "pdf"]>
            (<["file_path" := PStr "temp/report.pdf"]> ∅));
     dirs := {["temp"]};
     files := <["temp/report.pdf" := []]> ∅;
     shown := [] |}.

(** Nothing has happened yet. *)
Definition new_app : App nat :=
  {| desk := empty_desk; chat_instance := None; session := fresh; rendered := [] |}.

(** The first run of the chat page after the upload, and a later one. *)
Definition first_visit : App nat :=
  {| desk := uploaded_desk; chat_instance := None; session := fresh; rendered := [] |}.

Definition later_visit : App nat :=
  {| desk := uploaded_desk; chat_instance := Some plain_session;
     session := fresh; rendered := [] |}.

(** ** Further scripted inputs *)

(** A decoder that gives up on every text with an exception that is no
    [ValueError], as [json.loads] does with [RecursionError] on a text
    nested too deep. *)
Definition giving_up : Builtins :=
  {| json_loads := fun _ => Raised (RecursionError "maximum recursion depth exceeded");
     py_str := scripted_str |}.

(** Related queries of which the second lacks the key [query], and a
    decoder that knows them. *)
Definition queries_with_stray : string :=
  "[{" +:+ dq +:+ "query" +:+ dq +:+ ": " +:+ dq +:+ "France capital city" +:+ dq +:+ "}, {"
  +:+ dq +:+ "q" +:+ dq +:+ ": " +:+ dq +:+ "Paris" +:+ dq +:+ "}]".

Definition stray : Builtins :=
  {| json_loads := fun s =>
       if String.eqb s queries_with_stray then
         Returned (PList [ PDict [("query", PStr "France capital city")];
                           PDict [("q", PStr "Paris")] ])
       else scripted_json_loads s;
     py_str := scripted_str |}.

Definition stray_session : ChatWithFile nat :=
  setup_conversation_retrieval_chain
    (scripted_providers (scripted_reply queries_with_stray) scripted_respond)
    (Some "sk-test") None.

(** A model that is out of reach, and a session with it. *)
Definition failing_llm : LLM nat :=
  {| invoke := fun _ calls => (Raised (ValueError "rate limit reached"), S calls) |}.

Definition failing_session : ChatWithFile nat :=
  setup_conversation_retrieval_chain
    {| ChatOpenAI := fun _ => failing_llm;
       ChatAnthropic := fun _ => failing_llm;
       from_llm := fun _ => scripted_chain scripted_respond |}
    (Some "sk-test") None.

(** A second upload. *)
Definition csv_file : UploadedFile :=
  {| name := "table.csv"; getvalue := [Byte.x61; Byte.x2c; Byte.x62] |}.

(** A platform where nothing can be reached and no key is set. *)
Definition offline_platform : Platform nat nat :=
  {| getenv := fun _ => None;
     fd_open := fun _ => false;
     load_and_split := fun _ calls => (Raised (RemoteError "offline"), calls);
     split_documents := fun _ calls => (Raised (RemoteError "offline"), calls);
     chroma_from_documents := fun _ calls => (Raised (RemoteError "offline"), calls);
     providers := fun _ =>
       scripted_providers (scripted_reply "none this time.") scripted_respond |}.

(** A later run of the chat page with the instance whose model writes the
    related queries as plain strings. *)
Definition string_visit : App nat :=
  {| desk := uploaded_desk; chat_instance := Some string_session;
     session := fresh; rendered := [] |}.

(** ** Scripted inputs for the limits of the expansion and of the order *)

(** An array nested [depth] deep: [depth] opening brackets, then as many
    closing ones. *)
Fixpoint brackets (bracket : string) (depth : nat) : string :=
  match depth with
  | O => ""
  | S depth => bracket +:+ brackets bracket depth
  end.

Definition nested (depth : nat) : string :=
  brackets "[" depth +:+ brackets "]" depth.

(** How many opening brackets [s] begins with. *)
Fixpoint opening (s : string) : nat :=
  match s with
  | String "[" rest => S (opening rest)
  | _ => O
  end.

(** A decoder that, as [json.loads] does, gives up with [RecursionError]
    on arrays nested deeper than the recursion limit allows, 1000 here,
    and is [scripted_json_loads] on every other text. *)
Definition limited : Builtins :=
  {| json_loads := fun s =>
       if (1000 <? opening s)%nat then
         Raised (RecursionError
                   "maximum recursion depth exceeded while decoding a JSON array from a unicode string")
       else scripted_json_loads s;
     py_str := scripted_str |}.

(** A session whose model answers with an array nested 1001 deep. *)
Definition nesting_session : ChatWithFile nat :=
  setup_conversation_retrieval_chain
    (scripted_providers (scripted_reply (nested 1001)) scripted_respond)
    (Some "sk-test") None.






(** * Properties *)

(** ** Strings: searching and slicing *)

#[local] Arguments String.append !_ _ / : simpl nomatch.

Lemma length_append (a b : string) :
  String.length (a +:+ b) = (String.length a + String.length b)%nat.
Proof. induction a as [|c a IH]; simpl; [reflexivity | now rewrite IH]. Qed.

Lemma append_assoc (a b c : string) : (a +:+ b) +:+ c = a +:+ (b +:+ c).
Proof. induction a as [|x a IH]; simpl; [reflexivity | now rewrite IH]. Qed.

Lemma find_from_absent (c : ascii) (s : string) (i : Z) :
  occurs c s = false -> find_from c s i = -1.
Proof.
  revert i; induction s as [|a t IH]; simpl; intros i Hs; [reflexivity|].
  apply orb_false_iff in Hs as [Ha Ht]. rewrite Ha. now apply IH.
Qed.

Lemma find_from_first (c : ascii) (pre rest : string) (i : Z) :
  occurs c pre = false ->
  find_from c (pre +:+ String c rest) i = i + Z.of_nat (String.length pre).
Proof.
  revert i; induction pre as [|a t IH]; simpl; intros i Hpre.
  - rewrite Ascii.eqb_refl. lia.
  - apply orb_false_iff in Hpre as [Ha Ht]. rewrite Ha, IH by assumption. lia.
Qed.

Lemma rfind_from_absent (c : ascii) (s : string) (i last : Z) :
  occurs c s = false -> rfind_from c s i last = last.
Proof.
  revert i last; induction s as [|a t IH]; simpl; intros i last Hs; [reflexivity|].
  apply orb_false_iff in Hs as [Ha Ht]. rewrite Ha. now apply IH.
Qed.

Lemma rfind_from_last (c : ascii) (pre post : string) (i last : Z) :
  occurs c post = false ->
  rfind_from c (pre +:+ String c post) i last = i + Z.of_nat (String.length pre).
Proof.
  intros Hpost. revert i last; induction pre as [|a t IH]; simpl; intros i last.
  - rewrite Ascii.eqb_refl, rfind_from_absent by assumption. lia.
  - rewrite IH. lia.
Qed.

Lemma substring_prefix (mid post : string) :
  substring 0 (String.length mid) (mid +:+ post) = mid.
Proof.
  induction mid as [|a t IH]; simpl.
  - now destruct post.
  - now rewrite IH.
Qed.

Lemma substring_middle (pre mid post : string) :
  substring (String.length pre) (String.length mid) (pre +:+ mid +:+ post) = mid.
Proof.
  induction pre as [|a t IH]; simpl; [apply substring_prefix | exact IH].
Qed.

Lemma slice_bound_inside (len i : Z) : 0 <= i <= len -> slice_bound len i = i.
Proof.
  intros Hi. unfold slice_bound.
  destruct (Z.ltb_spec i 0); [lia|].
  destruct (Z.ltb_spec i 0); [lia|].
  destruct (Z.ltb_spec len i); lia.
Qed.

(** The bound [-1] is the last position. *)
Lemma slice_bound_last (len : Z) : 0 < len -> slice_bound len (-1) = len - 1.
Proof.
  intros Hlen. unfold slice_bound. change (-1 <? 0) with true. cbv iota.
  destruct (Z.ltb_spec (-1 + len) 0); [lia|].
  destruct (Z.ltb_spec len (-1 + len)); lia.
Qed.

(** A slice with bounds inside the string is the substring between them. *)
Lemma slice_middle (pre mid post : string) :
  mid <> "" ->
  slice (pre +:+ mid +:+ post)
        (Z.of_nat (String.length pre))
        (Z.of_nat (String.length pre) + Z.of_nat (String.length mid)) = mid.
Proof.
  intros Hmid. unfold slice.
  assert (0 < String.length mid)%nat by (destruct mid; simpl; [congruence | lia]).
  rewrite !length_append, !slice_bound_inside by lia.
  destruct (Z.ltb_spec (Z.of_nat (String.length pre))
              (Z.of_nat (String.length pre) + Z.of_nat (String.length mid))); [|lia].
  rewrite Nat2Z.id.
  replace (Z.to_nat _) with (String.length mid) by lia.
  apply substring_middle.
Qed.

(** ** Sorting *)

Section SortedFacts.
Context {A : Type} (key : A -> Z).

Lemma insert_desc_last (x : A) (l : list A) :
  Forall (fun y => key x <= key y) l -> insert_desc key x l = l ++ [x].
Proof.
  induction 1 as [|y t Hy Ht IH]; simpl; [reflexivity|].
  destruct (Z.ltb_spec (key y) (key x)); [lia | now rewrite IH].
Qed.

(** Items that come in descending order, below everything kept so far,
    are appended one after the other. *)
Lemma fold_insert_desc (l acc : list A) :
  Forall (fun x => Forall (fun y => key x <= key y) acc) l ->
  StronglySorted (fun a b => key b <= key a) l ->
  fold_left (fun acc x => insert_desc key x acc) l acc = acc ++ l.
Proof.
  revert acc; induction l as [|x t IH]; simpl; intros acc Hacc Hsorted.
  - now rewrite app_nil_r.
  - inversion Hacc as [|? ? Hx Ht]; subst.
    inversion Hsorted as [|? ? Hsorted' Hle]; subst.
    rewrite insert_desc_last by assumption.
    rewrite IH; [now rewrite <- app_assoc | | assumption].
    rewrite Forall_forall in *. intros z Hz.
    apply Forall_app. split; [now apply Ht|].
    constructor; [now apply Hle | constructor].
Qed.

(** A list already in descending order of its keys is left as it is. *)
Lemma sorted_reverse_sorted (l : list A) :
  StronglySorted (fun a b => key b <= key a) l -> sorted_reverse key l = l.
Proof.
  intros Hsorted. unfold sorted_reverse.
  rewrite fold_insert_desc; [reflexivity | | assumption].
  apply Forall_forall. intros; constructor.
Qed.


(** The sort is a sort: a permutation of its input, in descending order
    of the keys, and stable (items with the same key keep their order). *)
Lemma insert_desc_perm (x : A) (l : list A) : Permutation (insert_desc key x l) (x :: l).
Proof.
  induction l as [|y t IH]; simpl; [reflexivity|].
  destruct (key y <? key x); [reflexivity|].
  rewrite IH. apply perm_swap.
Qed.

Lemma sorted_reverse_perm (l : list A) : Permutation (sorted_reverse key l) l.
Proof.
  unfold sorted_reverse.
  enough (Hgen : forall acc,
             Permutation (fold_left (fun acc x => insert_desc key x acc) l acc) (acc ++ l))
    by apply (Hgen []).
  induction l as [|x t IH]; simpl; intros acc.
  - now rewrite app_nil_r.
  - rewrite IH, insert_desc_perm. simpl. apply Permutation_middle.
Qed.

Lemma insert_desc_sorted (x : A) (l : list A) :
  StronglySorted (fun a b => key b <= key a) l ->
  StronglySorted (fun a b => key b <= key a) (insert_desc key x l).
Proof.
  induction 1 as [|y t Hsorted IH Hy]; simpl; [repeat constructor|].
  destruct (Z.ltb_spec (key y) (key x)).
  - constructor; [now constructor|].
    constructor; [lia|]. eapply Forall_impl; [exact Hy|]. simpl. intros; lia.
  - constructor; [assumption|].
    assert (Hperm := insert_desc_perm x t).
    eapply Permutation_Forall; [symmetry; exact Hperm|].
    constructor; [lia | assumption].
Qed.

Lemma sorted_reverse_descending (l : list A) :
  StronglySorted (fun a b => key b <= key a) (sorted_reverse key l).
Proof.
  unfold sorted_reverse.
  enough (Hgen : forall acc,
             StronglySorted (fun a b => key b <= key a) acc ->
             StronglySorted (fun a b => key b <= key a)
               (fold_left (fun acc x => insert_desc key x acc) l acc))
    by (apply Hgen; constructor).
  induction l as [|x t IH]; simpl; intros acc Hacc; [assumption|].
  now apply IH, insert_desc_sorted.
Qed.

Lemma filter_none (c : Z) (l : list A) :
  Forall (fun y => key y <> c) l -> List.filter (fun y => key y =? c) l = [].
Proof.
  induction 1 as [|y t Hy _ IH]; simpl; [reflexivity|].
  now destruct (Z.eqb_spec (key y) c).
Qed.

Lemma insert_desc_stable (c : Z) (x : A) (l : list A) :
  StronglySorted (fun a b => key b <= key a) l ->
  List.filter (fun y => key y =? c) (insert_desc key x l)
  = List.filter (fun y => key y =? c) l ++ (if key x =? c then [x] else []).
Proof.
  induction 1 as [|y t Hsorted IH Hy]; simpl; [now destruct (key x =? c)|].
  destruct (Z.ltb_spec (key y) (key x)); simpl.
  - destruct (Z.eqb_spec (key x) c) as [Hx|Hx].
    + assert (Hnone : List.filter (fun y => key y =? c) (y :: t) = []).
      { apply filter_none. constructor; [lia|].
        eapply Forall_impl; [exact Hy|]. simpl. intros; lia. }
      simpl in Hnone. now rewrite Hnone.
    + now rewrite app_nil_r.
  - rewrite IH. now destruct (key y =? c).
Qed.

Lemma sorted_reverse_stable (c : Z) (l : list A) :
  List.filter (fun y => key y =? c) (sorted_reverse key l)
  = List.filter (fun y => key y =? c) l.
Proof.
  unfold sorted_reverse.
  enough (Hgen : forall acc,
             StronglySorted (fun a b => key b <= key a) acc ->
             List.filter (fun y => key y =? c)
               (fold_left (fun acc x => insert_desc key x acc) l acc)
             = List.filter (fun y => key y =? c) acc
                 ++ List.filter (fun y => key y =? c) l)
    by (apply (Hgen []); constructor).
  induction l as [|x t IH]; simpl; intros acc Hacc; [now rewrite app_nil_r|].
  rewrite IH by now apply insert_desc_sorted.
  rewrite insert_desc_stable by assumption.
  rewrite <- app_assoc. now destruct (key x =? c).
Qed.

End SortedFacts.

(** ** Dictionary keys *)

Lemma float_key_eqb_refl (x : spec_float) : float_key_eqb x x = true.
Proof.
  destruct x as [s|s| |s m e]; try reflexivity.
  - now destruct s.
  - unfold float_key_eqb, SFeqb, SFcompare.
    destruct s; rewrite Z.compare_refl;
      change (Pos.compare_cont Eq m m) with (m ?= m)%positive;
      now rewrite Pos.compare_refl.
Qed.

(** A hashable value used as a key is found again. *)
Lemma key_eqb_refl (v : PyValue) : hashable v = true -> key_eqb v v = true.
Proof.
  destruct v; simpl; try discriminate; intros _;
    auto using Z.eqb_refl, String.eqb_refl, float_key_eqb_refl.
Qed.

(** On strings, key equality is equality. *)
Lemma key_eqb_str (a b : string) : key_eqb (PStr a) (PStr b) = false <-> a <> b.
Proof. apply String.eqb_neq. Qed.

(** Distinct strings are distinct keys. *)
Lemma distinct_queries_str (all_results : list QAResult) :
  Forall (fun r => is_str (query r) = true) all_results ->
  NoDup (map query all_results) ->
  distinct_queries all_results.
Proof.
  induction all_results as [|r rest IH]; simpl; intros Hstr Hnodup; [exact I|].
  inversion Hstr as [|? ? Hr Hrest]; subst.
  apply NoDup_cons in Hnodup as [Hnotin Hnodup].
  split; [|now apply IH].
  apply Forall_forall. intros r' Hr'.
  assert (Hs' : is_str (query r') = true)
    by (rewrite Forall_forall in Hrest; now apply Hrest).
  destruct (query r) as [| | | |a| |] eqn:Ea; try discriminate.
  destruct (query r') as [| | | |b| |] eqn:Eb; try discriminate.
  apply key_eqb_str. intros ->. apply Hnotin.
  rewrite <- Eb. apply list_elem_of_In, in_map, list_elem_of_In, Hr'.
Qed.

(** ** Fusion *)






(** ** The monad *)

Lemma bind_returned {S A B : Type} (m : M S A) (k : A -> M S B) (s s' : S) (a : A) :
  m s = (Returned a, s') -> bind m k s = k a s'.
Proof. intros Hm. unfold bind. now rewrite Hm. Qed.

Lemma bind_raised {S A B : Type} (m : M S A) (k : A -> M S B) (s s' : S) (e : Exn) :
  m s = (Raised e, s') -> bind m k s = (Raised e, s').
Proof. intros Hm. unfold bind. now rewrite Hm. Qed.

(** A comprehension returns exactly when its body returns on every item. *)
Lemma comprehension_returned {A B : Type} (f : A -> Outcome B)
  (items : list A) (ys : list B) :
  comprehension f items = Returned ys <-> Forall2 (fun x y => f x = Returned y) items ys.
Proof.
  revert ys; induction items as [|x rest IH]; simpl; intros ys.
  - split; [intros [= <-]; constructor | now inversion 1].
  - destruct (f x) as [y|e] eqn:Hx.
    + destruct (comprehension f rest) as [ys'|e] eqn:Hrest.
      * split.
        -- intros [= <-]. constructor; [assumption | now apply IH].
        -- inversion 1 as [|? y0 ? ys0 Hy Hys]; subst.
           apply IH in Hys. congruence.
      * split; [discriminate|].
        inversion 1 as [|? y0 ? ys0 Hy Hys]; subst. apply IH in Hys. discriminate.
    + split; [discriminate|]. inversion 1; congruence.
Qed.

(** It raises what its body raises on the first item. *)
Lemma comprehension_raised_first {A B : Type} (f : A -> Outcome B)
  (x : A) (rest : list A) (e : Exn) :
  f x = Raised e -> comprehension f (x :: rest) = Raised e.
Proof. intros Hx. simpl. now rewrite Hx. Qed.

Lemma py_getitem_returned (q : PyValue) (key : string) (v : PyValue) :
  py_getitem q key = Returned v <->
  exists entries, q = PDict entries /\ dict_get entries key = Some v.
Proof.
  split.
  - destruct q; simpl; try discriminate.
    destruct (dict_get entries key) eqn:Hget; [|discriminate].
    intros [= <-]. eauto.
  - intros (entries & -> & Hget). simpl. now rewrite Hget.
Qed.

(** The comprehension [[q['query'] for q in items]] returns only if every
    item is a dictionary that holds the key. *)
Lemma queries_extracted (items related : list PyValue) :
  comprehension (fun q => py_getitem q "query") items = Returned related ->
  Forall has_query items.
Proof.
  intros Hcomp. apply comprehension_returned in Hcomp.
  induction Hcomp as [|q v items' related' Hq _ IH]; [constructor|].
  constructor; [|exact IH].
  apply py_getitem_returned in Hq as (entries & -> & Hget).
  now exists entries, v.
Qed.

(** ** Conversation history *)

Section HistoryFacts.
Context {World : Type} {B : Builtins}.
Implicit Types (self : ChatWithFile World) (s : Session World).

Lemma keeps_ret {A : Type} (a : A) : keeps_history (World:=World) (ret a).
Proof. now intros s. Qed.

Lemma keeps_raise {A : Type} (e : Exn) : keeps_history (World:=World) (A:=A) (raise e).
Proof. now intros s. Qed.

Lemma keeps_lift {A : Type} (o : Outcome A) : keeps_history (World:=World) (lift o).
Proof. now intros s. Qed.

Lemma keeps_bind {A C : Type} (m : M (Session World) A) (k : A -> M (Session World) C) :
  keeps_history m -> (forall a, keeps_history (k a)) -> keeps_history (bind m k).
Proof.
  intros Hm Hk s. unfold bind. specialize (Hm s).
  destruct (m s) as [[a|e] s1]; simpl in *; [|assumption].
  now rewrite Hk.
Qed.

Lemma keeps_st (e : UIEvent) : keeps_history (World:=World) (st e).
Proof. now intros s. Qed.

Lemma keeps_remote {A : Type} (f : World -> Outcome A * World) :
  keeps_history (remote f).
Proof. intros s. unfold remote. now destruct (f (world s)). Qed.

Lemma keeps_getattr self (attr : string) : keeps_history (getattr self attr).
Proof. unfold getattr. destruct (chains self !! attr); [apply keeps_ret | apply keeps_raise]. Qed.

Lemma keeps_llm_invoke (model : option (LLM World)) (prompt : string) :
  keeps_history (llm_invoke model prompt).
Proof. destruct model; [apply keeps_remote | apply keeps_raise]. Qed.

Create HintDb history.
#[local] Hint Resolve keeps_ret keeps_raise keeps_lift keeps_st keeps_remote
  keeps_getattr keeps_llm_invoke : history.

(** Solves [keeps_history] goals on computations built with [bind]. *)
Ltac keeps :=
  repeat first
    [ apply keeps_bind; [|intros ?]
    | solve [auto with history]
    | match goal with
      | |- keeps_history (match ?x with _ => _ end) => destruct x
      | |- keeps_history (if ?b then _ else _) => destruct b
      end ].

Lemma keeps_generate_related_queries self (original_query : string) :
  keeps_history (generate_related_queries self original_query).
Proof. unfold generate_related_queries. keeps. Qed.

Lemma keeps_ask self (query_text : PyValue) : keeps_history (ask self query_text).
Proof. unfold ask. keeps. Qed.

Lemma keeps_retrieve self (queries : list PyValue) (all_results : list QAResult) :
  keeps_history (retrieve self queries all_results).
Proof.
  revert all_results; induction queries as [|q rest IH]; simpl; intros all_results.
  - apply keeps_ret.
  - apply keeps_bind; [apply keeps_ask | intros response].
    apply keeps_bind; [keeps | intros; apply IH].
Qed.

Lemma keeps_gather self (question : string) : keeps_history (gather self question).
Proof.
  unfold gather.
  apply keeps_bind; [apply keeps_generate_related_queries | intros dicts].
  apply keeps_bind; [apply keeps_lift | intros; apply keeps_retrieve].
Qed.

Lemma keeps_create_synthesis_prompt (original_question : string)
  (all_results : list Scored) :
  keeps_history (World:=World) (create_synthesis_prompt original_question all_results).
Proof. unfold create_synthesis_prompt. keeps. Qed.

Lemma appends_bind {A : Type} (question : string) (m : M (Session World) A)
  (k : A -> M (Session World) TopResult) :
  keeps_history m -> (forall a, appends_turn question (k a)) ->
  appends_turn question (bind m k).
Proof.
  intros Hm Hk s. unfold bind. specialize (Hm s).
  destruct (m s) as [[a|e] s1]; simpl in *; [|assumption].
  specialize (Hk a s1). destruct (k a s1) as [[r|e] s2]; now rewrite <- Hm.
Qed.

(** The two appends that end both branches of [chat]. *)
Lemma appends_turn_end (question final_answer : string) (r : TopResult) :
  appends_turn (World:=World) question
    (history_append (HumanMessage question) ;;;
     history_append (AIMessage final_answer) ;;;
     ret r).
Proof. intros s. simpl. exists final_answer. now rewrite <- app_assoc. Qed.

Lemma synthesize_appends self (question : string) (all_results : list QAResult) :
  appends_turn question (synthesize self question all_results).
Proof.
  unfold synthesize. destruct all_results as [|r rest]; [apply appends_turn_end|].
  apply appends_bind; [apply keeps_lift | intros reranked].
  apply appends_bind; [apply keeps_create_synthesis_prompt | intros prompt].
  apply appends_bind; [apply keeps_llm_invoke | intros response].
  apply appends_bind; [keeps | intros final_answer].
  apply appends_turn_end.
Qed.

Lemma chat_appends self (question : string) : appends_turn question (chat self question).
Proof.
  unfold chat. apply appends_bind; [apply keeps_gather | intros; apply synthesize_appends].
Qed.

End HistoryFacts.

Lemma alternates_app_both (t h : list Message) :
  (alternates h = true -> alternates (h ++ t) = alternates t)
  /\ (forall m, alternates (m :: h) = true -> alternates (m :: h ++ t) = alternates t).
Proof.
  induction h as [|x h [IH1 IH2]].
  - split; [reflexivity|]. intros [c|c]; discriminate.
  - split; [apply IH2|].
    intros [c|c]; [|discriminate]. destruct x as [d|d]; [discriminate|].
    simpl. exact IH1.
Qed.

(** Appending to an alternating history: only the appended part matters. *)
Lemma alternates_app (h t : list Message) :
  alternates h = true -> alternates (h ++ t) = alternates t.
Proof. apply alternates_app_both. Qed.

Section SessionFacts.
Context {World : Type} {B : Builtins}.
Implicit Types (self : ChatWithFile World) (s : Session World).

(** Over any sequence of calls the history grows by two alternating
    entries per call that returned, and by nothing else. *)
Lemma chats_history self (questions : list string) s :
  alternates (conversation_history s) = true ->
  exists tail,
    conversation_history (snd (chats self questions s)) = conversation_history s ++ tail
    /\ length tail = (2 * completed (fst (chats self questions s)))%nat
    /\ alternates (conversation_history (snd (chats self questions s))) = true.
Proof.
  revert s; induction questions as [|question rest IH]; cbn [chats]; intros s Halt.
  - exists []. now rewrite app_nil_r.
  - pose proof (chat_appends self question s) as Hcall.
    destruct (chat self question s) as [o s1].
    assert (Halt1 : alternates (conversation_history s1) = true).
    { destruct o as [r|e]; [|now rewrite Hcall].
      destruct Hcall as [a ->]. now rewrite alternates_app. }
    destruct (IH s1 Halt1) as (tail & Htail & Hlen & Halt2).
    destruct (chats self rest s1) as [os s2]. cbn [fst snd] in *.
    destruct o as [r|e].
    + destruct Hcall as [a Hcall].
      exists ([HumanMessage question; AIMessage a] ++ tail).
      split; [now rewrite Htail, Hcall, <- app_assoc|].
      split; [|exact Halt2].
      unfold completed in *. simpl. lia.
    + exists tail. split; [now rewrite Htail, Hcall|]. split; assumption.
Qed.

End SessionFacts.

(** ** The claims about [chat] *)

Section ChatClaims.
Context {World : Type} {B : Builtins}.
Implicit Types (self : ChatWithFile World) (s : Session World).
Implicit Types (P : Providers World).

(** Without [self.llm] no call of [chat] gets past the query expansion,
    whatever else is configured. *)
Lemma chat_needs_llm self (question : string) s :
  llm self = None ->
  chat self question s = (Raised (AttributeError "NoneType" "invoke"), s).
Proof.
  intros Hllm.
  unfold chat, gather, generate_related_queries, bind, llm_invoke.
  now rewrite Hllm.
Qed.

(** The rest of [chat] does provide for a session without a model: the
    loop records no response for any query, and the branch for no results
    returns the fallback answer and appends the two turns. *)
Lemma retrieve_without_backend self (queries : list PyValue)
  (all_results : list QAResult) s :
  llm self = None -> llm_anthropic self = None ->
  exists s',
    retrieve self queries all_results s = (Returned all_results, s')
    /\ conversation_history s' = conversation_history s.
Proof.
  intros Hllm Hanthropic.
  revert s; induction queries as [|q rest IH]; cbn [retrieve]; intros s.
  - now exists s.
  - unfold ask. rewrite Hllm, Hanthropic. unfold bind at 1. cbn [ret].
    unfold bind at 1. cbn.
    destruct (IH {| world := world s;
                    display := display s
                               ++ [st_write [ShowText "No response received for:";
                                             ShowValue q]];
                    conversation_history := conversation_history s |})
      as (s' & Hret & Hhist).
    exists s'. split; [exact Hret | exact Hhist].
Qed.

Lemma synthesize_no_results self (question : string) s :
  synthesize self question [] s
  = (Returned {| top_answer := "No results were available to synthesize a response." |},
     {| world := world s;
        display := display s;
        conversation_history :=
          conversation_history s
            ++ [HumanMessage question; AIMessage "No answer available."] |}).
Proof. cbn. now rewrite <- app_assoc. Qed.

(** C1 (what the code does): in a session set up with neither key, [chat]
    does not return the fallback answer.  The query expansion calls
    [self.llm.invoke] while [self.llm] is [None], so the call raises
    [AttributeError] before any retrieval, and the conversation history,
    the page and the world are left as they were. *)
Theorem chat_without_credentials_raises P (question : string) s :
  llm (setup_conversation_retrieval_chain P None None) = None
  /\ llm_anthropic (setup_conversation_retrieval_chain P None None) = None
  /\ chat (setup_conversation_retrieval_chain P None None) question s
     = (Raised (AttributeError "NoneType" "invoke"), s)
  /\ conversation_history
       (snd (chat (setup_conversation_retrieval_chain P None None) question s))
     = conversation_history s.
Proof.
  assert (Hchat := chat_needs_llm (setup_conversation_retrieval_chain P None None)
                     question s eq_refl).
  split; [reflexivity|]. split; [reflexivity|].
  split; [exact Hchat | now rewrite Hchat].
Qed.

(** C3: every call of [chat] that returns has appended the human turn and
    then one AI turn, on the path with results and on the path without,
    and has kept what was there before; a call that raises appends
    nothing.  So after calls of which [N] completed, a history that was
    alternating has grown by exactly [2N] entries and still alternates;
    on a new instance, whose history is empty, its length is [2N]. *)
Theorem history_two_per_completed_call self (questions : list string) s (N : nat) :
  alternates (conversation_history s) = true ->
  completed (fst (chats self questions s)) = N ->
  (forall question all_results,
      appends_turn (World:=World) question (synthesize self question all_results))
  /\ (forall question, appends_turn question (chat self question))
  /\ (exists tail,
        conversation_history (snd (chats self questions s))
        = conversation_history s ++ tail
        /\ length tail = (2 * N)%nat)
  /\ alternates (conversation_history (snd (chats self questions s))) = true
  /\ (conversation_history s = [] ->
      length (conversation_history (snd (chats self questions s))) = (2 * N)%nat).
Proof.
  intros Halt HN.
  destruct (chats_history self questions s Halt) as (tail & Htail & Hlen & Halt').
  rewrite HN in Hlen.
  split; [intros; apply synthesize_appends|].
  split; [intros; apply chat_appends|].
  split; [now exists tail|].
  split; [assumption|].
  intros Hempty. now rewrite Htail, Hempty.
Qed.

(** C4: with the Anthropic key only, [self.llm] is [None] and
    [self.llm_anthropic] is set.  The setup binds the chain under the name
    [anthropic_qa]; the name [qa_anthropic], which the loop of [chat]
    reads, is bound for no configuration of keys.  So the Anthropic branch
    raises [AttributeError] on every query instead of producing a
    response, and [chat] as a whole never returns. *)
Theorem anthropic_chain_never_bound P (openai_key anthropic_key : option string)
  (k : string) (query_text : PyValue) (question : string) s :
  key_truthy openai_key = None ->
  key_truthy anthropic_key = Some k ->
  let self := setup_conversation_retrieval_chain P openai_key anthropic_key in
  llm self = None
  /\ llm_anthropic self = Some (ChatAnthropic P k)
  /\ chains self !! "anthropic_qa" = Some (from_llm P (ChatAnthropic P k))
  /\ (forall key1 key2,
        chains (setup_conversation_retrieval_chain P key1 key2) !! "qa_anthropic" = None)
  /\ ask self query_text s = (Raised (AttributeError "ChatWithFile" "qa_anthropic"), s)
  /\ (forall rest all_results,
        retrieve self (query_text :: rest) all_results s
        = (Raised (AttributeError "ChatWithFile" "qa_anthropic"), s))
  /\ (forall r s', chat self question s <> (Returned r, s')).
Proof.
  intros Hopenai Hanthropic self.
  assert (Hunbound : forall key1 key2,
             chains (setup_conversation_retrieval_chain P key1 key2) !! "qa_anthropic"
             = None).
  { intros key1 key2. unfold setup_conversation_retrieval_chain. simpl.
    destruct (key_truthy key1), (key_truthy key2); simpl;
      repeat (rewrite lookup_insert_ne by discriminate); apply lookup_empty. }
  assert (Hask : ask self query_text s
                 = (Raised (AttributeError "ChatWithFile" "qa_anthropic"), s)).
  { subst self. unfold ask, getattr. rewrite (Hunbound openai_key anthropic_key).
    unfold setup_conversation_retrieval_chain. simpl.
    now rewrite Hopenai, Hanthropic. }
  assert (Hllm : llm self = None).
  { subst self. unfold setup_conversation_retrieval_chain. simpl. now rewrite Hopenai. }
  assert (Hanth : llm_anthropic self = Some (ChatAnthropic P k)).
  { subst self. unfold setup_conversation_retrieval_chain. simpl. now rewrite Hanthropic. }
  assert (Hbound : chains self !! "anthropic_qa" = Some (from_llm P (ChatAnthropic P k))).
  { subst self. unfold setup_conversation_retrieval_chain. simpl.
    rewrite Hopenai, Hanthropic. apply lookup_insert_eq. }
  repeat split; try assumption.
  - intros rest all_results. cbn [retrieve]. now rewrite (bind_raised _ _ _ _ _ Hask).
  - intros r s'. now rewrite (chat_needs_llm self question s Hllm).
Qed.

(** C8: when no query got a response, [chat] returns the answer
    [No results were available to synthesize a response.] while the AI
    turn it appends to the history reads [No answer available.]: the
    answer shown and the history disagree for that turn. *)
Theorem no_results_answer_differs_from_history self (question : string) s s1 :
  gather self question s = (Returned [], s1) ->
  exists r s2,
    chat self question s = (Returned r, s2)
    /\ top_answer r = "No results were available to synthesize a response."
    /\ conversation_history s2
       = conversation_history s
           ++ [HumanMessage question; AIMessage "No answer available."]
    /\ last (conversation_history s2) = Some (AIMessage "No answer available.")
    /\ top_answer r <> "No answer available.".
Proof.
  intros Hgather.
  pose proof (keeps_gather self question s) as Hkeep.
  rewrite Hgather in Hkeep. simpl in Hkeep.
  unfold chat. rewrite (bind_returned _ _ _ _ _ Hgather). simpl.
  eexists _, _. split; [reflexivity|]. simpl.
  rewrite Hkeep, <- app_assoc. simpl.
  repeat split; [|discriminate].
  now rewrite last_app.
Qed.

(** C9: when the query expansion returns a parsed array whose elements
    are plain strings (and there is at least one), [chat] raises
    [TypeError] at [q['query']] and appends nothing to the history.  The
    comprehension returns exactly when every element is a dictionary that
    holds the key [query], so a call of [chat] that returned had only such
    elements. *)
Theorem string_queries_raise_type_error self (question : string) s s1
  (items : list PyValue) :
  generate_related_queries self question s = (Returned (PList items), s1) ->
  (items <> [] -> Forall (fun q => is_str q = true) items ->
     chat self question s = (Raised (TypeError "string indices must be integers"), s1)
     /\ conversation_history s1 = conversation_history s)
  /\ (forall related,
        comprehension (fun q => py_getitem q "query") items = Returned related
        -> Forall has_query items)
  /\ (forall r s2, chat self question s = (Returned r, s2) -> Forall has_query items).
Proof.
  intros Hgen.
  pose proof (queries_extracted items) as Hproceeds.
  split; [|split; [exact Hproceeds|]].
  - intros Hne Hstr.
    pose proof (keeps_generate_related_queries self question s) as Hkeep.
    rewrite Hgen in Hkeep. split; [|exact Hkeep].
    destruct items as [|q rest]; [congruence|].
    inversion Hstr as [|? ? Hq _]; subst.
    destruct q; try discriminate.
    unfold chat, gather.
    erewrite bind_raised; [reflexivity|].
    erewrite bind_returned by exact Hgen.
    erewrite bind_raised; reflexivity.
  - intros r s2 Hchat. unfold chat, gather in Hchat.
    unfold bind at 1 2 in Hchat. rewrite Hgen in Hchat.
    unfold bind at 1 in Hchat. unfold lift at 1 in Hchat. simpl py_iter in Hchat.
    destruct (comprehension (fun q => py_getitem q "query") items) as [related|e] eqn:Hcomp;
      [now apply (Hproceeds related) | discriminate].
Qed.

End ChatClaims.

(** ** Query expansion *)

(** Between the first opening and the last closing bracket. *)
Lemma json_part_between (pre mid post : string) :
  occurs "[" pre = false -> occurs "]" post = false ->
  json_part (pre +:+ "[" +:+ mid +:+ "]" +:+ post) = "[" +:+ mid +:+ "]".
Proof.
  intros Hpre Hpost.
  set (text := pre +:+ "[" +:+ mid +:+ "]" +:+ post).
  set (part := "[" +:+ mid +:+ "]").
  assert (Hfind : find text "[" = Z.of_nat (String.length pre)).
  { unfold find, text. change ("[" +:+ mid +:+ "]" +:+ post)
      with (String "[" (mid +:+ "]" +:+ post)).
    rewrite find_from_first by assumption. lia. }
  assert (Hrfind : rfind text "]" + 1
                   = Z.of_nat (String.length pre) + Z.of_nat (String.length part)).
  { unfold rfind. replace text with ((pre +:+ "[" +:+ mid) +:+ String "]" post)
      by (unfold text; now rewrite !append_assoc).
    rewrite rfind_from_last by assumption.
    unfold part. rewrite !length_append. simpl. lia. }
  unfold json_part. rewrite Hfind, Hrfind.
  replace text with (pre +:+ part +:+ post)
    by (unfold text, part; now rewrite !append_assoc).
  now apply slice_middle.
Qed.

(** With no bracket at all the part is empty. *)
Lemma json_part_no_bracket (text : string) :
  occurs "[" text = false -> occurs "]" text = false -> json_part text = "".
Proof.
  intros Hopen Hclose. unfold json_part, find, rfind.
  rewrite find_from_absent, rfind_from_absent by assumption.
  unfold slice, slice_bound. simpl.
  repeat match goal with
         | |- context [?a <? ?b] => destruct (Z.ltb_spec a b); try lia
         end; reflexivity.
Qed.

Lemma append_empty_r (a : string) : a +:+ "" = a.
Proof. induction a as [|x a IH]; simpl; [reflexivity | now rewrite IH]. Qed.

(** A character that occurs splits the string at its first and at its
    last occurrence. *)
Lemma occurs_split_first (c : ascii) (s : string) :
  occurs c s = true ->
  exists pre rest, s = pre +:+ String c rest /\ occurs c pre = false.
Proof.
  induction s as [|a t IH]; simpl; [discriminate|].
  destruct (Ascii.eqb_spec a c) as [->|Hne]; simpl.
  - intros _. now exists "", t.
  - intros Ht. destruct (IH Ht) as (pre & rest & -> & Hpre).
    exists (String a pre), rest. simpl.
    split; [reflexivity|]. now destruct (Ascii.eqb_spec a c).
Qed.

Lemma occurs_split_last (c : ascii) (s : string) :
  occurs c s = true ->
  exists pre post, s = pre +:+ String c post /\ occurs c post = false.
Proof.
  induction s as [|a t IH]; simpl; [discriminate|].
  destruct (occurs c t) eqn:Ht.
  - intros _. destruct (IH eq_refl) as (pre & post & -> & Hpost).
    now exists (String a pre), post.
  - rewrite orb_false_r. intros Ha. apply Ascii.eqb_eq in Ha as ->.
    now exists "", t.
Qed.

Lemma rfind_from_app_absent (c : ascii) (a b : string) (i last : Z) :
  occurs c b = false -> rfind_from c (a +:+ b) i last = rfind_from c a i last.
Proof.
  intros Hb. revert i last; induction a as [|x a IH]; simpl; intros i last.
  - now apply rfind_from_absent.
  - apply IH.
Qed.

Lemma rfind_from_bounds (c : ascii) (s : string) (i last : Z) :
  last < i ->
  last <= rfind_from c s i last < i + Z.of_nat (String.length s).
Proof.
  revert i last; induction s as [|a t IH]; simpl String.length; simpl rfind_from;
    intros i last Hlast; [lia|].
  destruct (Ascii.eqb a c).
  - specialize (IH (i + 1) i). lia.
  - specialize (IH (i + 1) last). lia.
Qed.

(** When the last position holds the last occurrence, the string ends in
    the character. *)
Lemma rfind_from_at_end (c : ascii) (s : string) (i last : Z) :
  last < i -> s <> "" ->
  rfind_from c s i last = i + Z.of_nat (String.length s) - 1 ->
  exists init, s = init +:+ String c "".
Proof.
  revert i last; induction s as [|a t IH]; [congruence|].
  intros i last Hlast _. simpl rfind_from. simpl String.length.
  destruct t as [|b t'].
  - simpl. destruct (Ascii.eqb_spec a c) as [->|_]; [|lia].
    intros _. now exists "".
  - intros Hend.
    destruct (IH (i + 1) (if Ascii.eqb a c then i else last)) as [init ->].
    + destruct (Ascii.eqb a c); lia.
    + discriminate.
    + rewrite Hend. simpl String.length. lia.
    + now exists (String a init).
Qed.

(** Every case of the cut: the text from the first opening to the last
    closing bracket when the one comes before the other, and otherwise
    the empty string or a lone closing bracket, which no decoder reads as
    a document. *)
Lemma json_part_cases (text : string) :
  (exists pre mid post,
      occurs "[" pre = false /\ occurs "]" post = false
      /\ text = pre +:+ "[" +:+ mid +:+ "]" +:+ post
      /\ json_part text = "[" +:+ mid +:+ "]")
  \/ json_part text = ""
  \/ json_part text = "]".
Proof.
  destruct (occurs "[" text) eqn:Hopen.
  - destruct (occurs_split_first _ _ Hopen) as (pre & rest & -> & Hpre).
    destruct (occurs "]" rest) eqn:Hclose.
    + destruct (occurs_split_last _ _ Hclose) as (mid & post & -> & Hpost).
      left. exists pre, mid, post. repeat split; try assumption.
      now apply json_part_between.
    + right; left. unfold json_part, find, rfind.
      rewrite find_from_first by assumption.
      rewrite rfind_from_app_absent by (simpl; exact Hclose).
      pose proof (rfind_from_bounds "]" pre 0 (-1) ltac:(lia)) as Hbound.
      unfold slice. rewrite length_append. simpl String.length.
      rewrite !slice_bound_inside by lia.
      destruct (Z.ltb_spec (0 + Z.of_nat (String.length pre))
                  (rfind_from "]" pre 0 (-1) + 1)); [lia | reflexivity].
  - unfold json_part, find. rewrite find_from_absent by assumption.
    destruct text as [|a t]; [now right; left|].
    pose proof (rfind_from_bounds "]" (String a t) 0 (-1) ltac:(lia)) as Hbound.
    unfold slice. set (len := Z.of_nat (String.length (String a t))) in *.
    assert (Hlen : 0 < len) by (unfold len; simpl; lia).
    rewrite slice_bound_last by assumption.
    unfold rfind in *. rewrite slice_bound_inside by lia.
    destruct (Z.ltb_spec (len - 1) (rfind_from "]" (String a t) 0 (-1) + 1));
      [|now right; left].
    right; right.
    destruct (rfind_from_at_end "]" (String a t) 0 (-1)) as [init Hinit];
      [lia | discriminate | unfold len in *; lia |].
    replace (rfind_from "]" (String a t) 0 (-1) + 1 - (len - 1)) with 1 by lia.
    unfold len. rewrite Hinit, length_append. simpl String.length.
    replace (Z.to_nat (Z.of_nat (String.length init + 1) - 1)) with (String.length init) by lia.
    pose proof (substring_middle init "]" "") as Hsub.
    simpl in Hsub. exact Hsub.
Qed.

Section ExpansionClaims.
Context {World : Type} {B : Builtins}.
Implicit Types (self : ChatWithFile World) (s : Session World).

(** What [generate_related_queries] does once the model has replied. *)
Lemma generate_related_queries_replied self (model : LLM World)
  (question : string) s (reply : Reply) (w : World) :
  llm self = Some model ->
  invoke model (related_queries_prompt question) (world s) = (Returned reply, w) ->
  generate_related_queries self question s
  = (parse_related_queries (reply_text reply),
     {| world := w;
        display := display s ++ reply_complaint reply;
        conversation_history := conversation_history s |}).
Proof.
  intros Hllm Hinvoke.
  unfold generate_related_queries, llm_invoke, bind, remote.
  rewrite Hllm, Hinvoke.
  destruct reply; simpl; unfold lift; now rewrite ?app_nil_r.
Qed.

(** C5 (as amended): [generate_related_queries] decodes the part of the
    reply text from the first opening bracket to the last closing
    bracket.  When the decoder accepts that part, the value it decoded is
    returned as it is (a list with its elements in order); when the
    decoder rejects it with a [ValueError] ([JSONDecodeError] is one),
    and in particular when the text has no bracket, so that the part is
    empty, the empty list is returned, and the call neither raises nor
    displays anything for the failure.  Any other exception of the
    decoder is not caught: the call raises it.  Whatever the text, the
    part is that bracketed text, or empty, or a lone closing bracket. *)
Theorem related_queries_parsing self (model : LLM World) (question : string) s
  (reply : Reply) (w : World) :
  llm self = Some model ->
  invoke model (related_queries_prompt question) (world s) = (Returned reply, w) ->
  let text := reply_text reply in
  let s' := {| world := w;
               display := display s ++ reply_complaint reply;
               conversation_history := conversation_history s |} in
  (forall pre mid post,
      occurs "[" pre = false -> occurs "]" post = false ->
      text = pre +:+ "[" +:+ mid +:+ "]" +:+ post ->
      json_part text = "[" +:+ mid +:+ "]")
  /\ (forall related,
        json_loads (json_part text) = Returned related ->
        generate_related_queries self question s = (Returned related, s'))
  /\ (forall e,
        json_loads (json_part text) = Raised e -> is_ValueError e = true ->
        generate_related_queries self question s = (Returned (PList []), s'))
  /\ (forall e,
        json_loads (json_part text) = Raised e -> is_ValueError e = false ->
        generate_related_queries self question s = (Raised e, s'))
  /\ (forall e,
        occurs "[" text = false -> occurs "]" text = false ->
        json_loads "" = Raised e -> is_ValueError e = true ->
        json_part text = ""
        /\ generate_related_queries self question s = (Returned (PList []), s'))
  /\ ((exists pre mid post,
         occurs "[" pre = false /\ occurs "]" post = false
         /\ text = pre +:+ "[" +:+ mid +:+ "]" +:+ post
         /\ json_part text = "[" +:+ mid +:+ "]")
      \/ json_part text = "" \/ json_part text = "]").
Proof.
  intros Hllm Hinvoke text s'.
  pose proof (generate_related_queries_replied self model question s reply w
                Hllm Hinvoke) as Hgen.
  fold text in Hgen. fold s' in Hgen. unfold parse_related_queries in Hgen.
  split; [|split; [|split; [|split; [|split]]]].
  - intros pre mid post Hpre Hpost ->. now apply json_part_between.
  - intros related Hloads. now rewrite Hgen, Hloads.
  - intros e Hloads He. now rewrite Hgen, Hloads, He.
  - intros e Hloads He. now rewrite Hgen, Hloads, He.
  - intros e Hopen Hclose Hloads He.
    pose proof (json_part_no_bracket text Hopen Hclose) as Hpart.
    split; [exact Hpart|]. now rewrite Hgen, Hpart, Hloads, He.
  - apply json_part_cases.
Qed.



End ExpansionClaims.

(** ** The claims about fusion *)

(** Where the queries are not distinct the tie is broken: a query asked
    twice has one entry, for its first result, with score 2, and that
    entry moves ahead of the original question. *)
Example fusion_repeated_query :
  reciprocal_rank_fusion repeated_results 60
  = Returned
      [ {| doc := {| query := PStr "France capital city"; answer := "It is Paris" |};
           score := 2 |};
        {| doc := {| query := PStr capital_question; answer := "Paris" |};
           score := 1 |} ].
Proof. reflexivity. Qed.


(** The reranked results are in descending order of their scores, so the
    scored results made of them are. *)
Lemma scored_of_sorted (reranked : list Fused) :
  StronglySorted (fun a b => score b <= score a) reranked ->
  StronglySorted (fun a b => s_score b <= s_score a) (scored_of reranked).
Proof.
  induction 1 as [|res rest Hsorted IH Hall]; simpl; constructor; [exact IH|].
  clear -Hall. induction Hall; simpl; constructor; auto.
Qed.



(** ** The claim about metadata *)

Section MetadataClaims.
Context {B : Builtins}.

Lemma dict_set_fresh (done rest : list (string * PyValue)) (key : string)
  (value x : PyValue) :
  key ∉ map fst done ->
  dict_set (done ++ (key, value) :: rest) key x = done ++ (key, x) :: rest.
Proof.
  induction done as [|[k v] done IH]; simpl; intros Hfresh.
  - now rewrite String.eqb_refl.
  - apply not_elem_of_cons in Hfresh as [Hne Hfresh].
    destruct (String.eqb_spec k key); [congruence | now rewrite IH].
Qed.

(** On a dictionary (no key twice) the loop rewrites each value in place. *)
Lemma simplify_items_map (items done : list (string * PyValue)) :
  NoDup (map fst (done ++ items)) ->
  simplify_items items (done ++ items)
  = done ++ map (fun e => (fst e, simplify_value (snd e))) items.
Proof.
  revert done; induction items as [|[key value] rest IH]; simpl; intros done Hnodup.
  - reflexivity.
  - assert (Hfresh : key ∉ map fst done).
    { rewrite map_app in Hnodup. apply NoDup_app in Hnodup as (_ & Hdisjoint & _).
      intros Hin. apply (Hdisjoint key Hin). simpl. left. }
    unfold simplify_value at 1. simpl.
    destruct (is_list_or_dict value).
    + rewrite dict_set_fresh by assumption.
      change (done ++ (key, PStr (py_str value)) :: rest)
        with (done ++ [(key, PStr (py_str value))] ++ rest).
      rewrite app_assoc, IH, <- app_assoc; [reflexivity|].
      rewrite <- app_assoc. simpl. now rewrite !map_app in *.
    + change (done ++ (key, value) :: rest) with (done ++ [(key, value)] ++ rest).
      rewrite app_assoc, IH, <- app_assoc; [reflexivity|].
      now rewrite <- app_assoc.
Qed.

(** C7 (as amended): after the simplification step the metadata of a
    chunk holds no list and no dictionary.  Every value that was a list
    or a dictionary has been replaced by its string form; every other
    value (a string, a number, a boolean, [None]) is the value it was;
    the keys, their order and the text of the chunk are unchanged. *)
Theorem metadata_simplified_scalar (d : Document) (entries : list (string * PyValue)) :
  metadata d = PDict entries ->
  NoDup (map fst entries) ->
  simplify_metadata d
  = {| page_content := page_content d;
       metadata := PDict (map (fun e => (fst e, simplify_value (snd e))) entries) |}
  /\ scalar_valued (simplify_metadata d) = true
  /\ (forall key value,
        In (key, value) entries -> is_list_or_dict value = true ->
        In (key, PStr (py_str value))
           (match metadata (simplify_metadata d) with
            | PDict entries' => entries'
            | _ => []
            end))
  /\ (forall key value,
        In (key, value) entries -> is_list_or_dict value = false ->
        In (key, value)
           (match metadata (simplify_metadata d) with
            | PDict entries' => entries'
            | _ => []
            end)).
Proof.
  intros Hmeta Hnodup.
  assert (Hsimplified :
            simplify_metadata d
            = {| page_content := page_content d;
                 metadata := PDict (map (fun e => (fst e, simplify_value (snd e)))
                                        entries) |}).
  { unfold simplify_metadata. rewrite Hmeta.
    pose proof (simplify_items_map entries [] Hnodup) as Hmap.
    rewrite !app_nil_l in Hmap. now rewrite Hmap. }
  rewrite Hsimplified. unfold scalar_valued. simpl.
  split; [reflexivity|]. split; [|split].
  - clear. induction entries as [|[k v] rest IH]; simpl; [reflexivity|].
    rewrite IH, andb_true_r. unfold simplify_value.
    now destruct (is_list_or_dict v) eqn:Hv; [|rewrite Hv].
  - intros key value Hin Hcomplex.
    apply (in_map (fun e => (fst e, simplify_value (snd e)))) in Hin.
    simpl in Hin. unfold simplify_value in Hin at 1. now rewrite Hcomplex in Hin.
  - intros key value Hin Hscalar.
    apply (in_map (fun e => (fst e, simplify_value (snd e)))) in Hin.
    simpl in Hin. unfold simplify_value in Hin at 1. now rewrite Hscalar in Hin.
Qed.

End MetadataClaims.

(** ** The claim about uploads *)

(** C6: for an uploaded file whose name ends in none of the six
    supported suffixes, the handler displays the error for an unsupported
    file type, creates no directory and writes no file, and leaves the
    session state, with its keys [file_path], [file_type] and [page], as
    it was. *)
Theorem unsupported_upload_rejected (f : UploadedFile) (d : Desk) :
  Forall (fun suffix => endswith (name f) suffix = false) supported_suffixes ->
  exists d',
    upload_and_handle_file (Some f) d = (Returned tt, d')
    /\ session_state d' = session_state d
    /\ files d' = files d
    /\ dirs d' = dirs d
    /\ shown d'
       = shown d
           ++ [ st_title "Document QA - Chat with Document Data";
                st_file_uploader "Choose a XLSX, PPTX, DOCX, PDF, CSV, or TXT file"
                  ["xlsx"; "pptx"; "docx"; "pdf"; "csv"; "txt"];
                st_error "Unsupported file type. Please upload a XLSX, PPTX, DOCX, PDF, CSV, or TXT file." ]
    /\ Exists (fun e => is_st_error e = true) (shown d').
Proof.
  intros Hsuffix. unfold supported_suffixes in Hsuffix.
  repeat match goal with
         | H : Forall _ (_ :: _) |- _ =>
             let Hhead := fresh "Hhead" in
             apply Forall_cons in H as [Hhead H]
         end.
  assert (Htype : file_type_of (name f) = None).
  { unfold file_type_of.
    repeat match goal with H : endswith _ _ = false |- _ => rewrite H; clear H end.
    reflexivity. }
  unfold upload_and_handle_file. rewrite Htype.
  eexists. split; [reflexivity|]. simpl.
  repeat split; try reflexivity.
  - now rewrite <- !app_assoc.
  - apply Exists_app. right. now constructor.
Qed.

(** A supported file is stored under [temp/] and recorded in the session
    state. *)
Example supported_upload_accepted :
  let d' := snd (upload_and_handle_file (Some pdf_file) empty_desk) in
  session_state d' !! "file_path" = Some (PStr "temp/report.pdf")
  /\ session_state d' !! "file_type" = Some (PStr "pdf")
  /\ files d' !! "temp/report.pdf" = Some []
  /\ forallb (fun e => negb (is_st_error e)) (shown d') = true.
Proof. vm_compute. repeat split. Qed.

(** ** The claims at concrete inputs *)



(** C3 on two calls of a new session: the first takes the path with
    results, the second the path without. *)
Lemma history_two_per_completed_call_witness :
  alternates (conversation_history fresh) = true
  /\ completed (fst (chats (B:=scripted) plain_session [capital_question; "Who?"] fresh))
     = 2%nat
  /\ length (conversation_history
               (snd (chats (B:=scripted) plain_session [capital_question; "Who?"] fresh)))
     = 4%nat
  /\ alternates (conversation_history
                   (snd (chats (B:=scripted) plain_session [capital_question; "Who?"] fresh)))
     = true.
Proof.
  assert (H1 : alternates (conversation_history fresh) = true) by reflexivity.
  assert (H2 : completed (fst (chats (B:=scripted) plain_session
                                 [capital_question; "Who?"] fresh)) = 2%nat)
    by (vm_compute; reflexivity).
  split; [exact H1|]. split; [exact H2|].
  destruct (history_two_per_completed_call (B:=scripted) plain_session
              [capital_question; "Who?"] fresh 2 H1 H2)
    as (_ & _ & _ & Halt & Hlen).
  split; [exact (Hlen eq_refl) | exact Halt].
Defined.

(** C4 on [anthropic_session]. *)
Lemma anthropic_chain_never_bound_witness :
  key_truthy None = None
  /\ key_truthy (Some "sk-ant-test") = Some "sk-ant-test"
  /\ chains anthropic_session !! "qa_anthropic" = None
  /\ ask anthropic_session (PStr capital_question) fresh
     = (Raised (AttributeError "ChatWithFile" "qa_anthropic"), fresh).
Proof.
  assert (H1 : key_truthy None = None) by reflexivity.
  assert (H2 : key_truthy (Some "sk-ant-test") = Some "sk-ant-test") by reflexivity.
  split; [exact H1|]. split; [exact H2|].
  destruct (anthropic_chain_never_bound (B:=scripted)
              (scripted_providers (scripted_reply queries_as_objects) scripted_respond)
              None (Some "sk-ant-test") "sk-ant-test" (PStr capital_question)
              capital_question fresh H1 H2)
    as (_ & _ & _ & Hunbound & Hask & _).
  split; [apply Hunbound | exact Hask].
Defined.

(** C5 (as amended) on a reply that wraps a JSON array in a sentence. *)
Lemma related_queries_parsing_witness :
  llm expanding_session = Some (scripted_llm (scripted_reply queries_as_objects))
  /\ invoke (scripted_llm (scripted_reply queries_as_objects))
       (related_queries_prompt capital_question) (world fresh)
     = (Returned (scripted_reply queries_as_objects
                    (related_queries_prompt capital_question)), 1%nat)
  /\ generate_related_queries (B:=scripted) expanding_session capital_question fresh
     = (Returned (PList [PDict [("query", PStr "France capital city")]]),
        {| world := 1%nat; display := []; conversation_history := [] |}).
Proof.
  assert (H1 : llm expanding_session
               = Some (scripted_llm (scripted_reply queries_as_objects)))
    by reflexivity.
  assert (H2 : invoke (scripted_llm (scripted_reply queries_as_objects))
                 (related_queries_prompt capital_question) (world fresh)
               = (Returned (scripted_reply queries_as_objects
                              (related_queries_prompt capital_question)), 1%nat))
    by reflexivity.
  split; [exact H1|]. split; [exact H2|].
  destruct (related_queries_parsing (B:=scripted) expanding_session _
              capital_question fresh _ _ H1 H2) as (_ & Hparsed & _).
  apply Hparsed. vm_compute. reflexivity.
Defined.

(** C6 on [photo.png]. *)
Lemma unsupported_upload_rejected_witness :
  Forall (fun suffix => endswith (name png_file) suffix = false) supported_suffixes
  /\ exists d',
       upload_and_handle_file (Some png_file) empty_desk = (Returned tt, d')
       /\ session_state d' = session_state empty_desk
       /\ files d' = files empty_desk
       /\ Exists (fun e => is_st_error e = true) (shown d').
Proof.
  assert (H1 : Forall (fun suffix => endswith (name png_file) suffix = false)
                 supported_suffixes) by (repeat constructor).
  split; [exact H1|].
  destruct (unsupported_upload_rejected png_file empty_desk H1)
    as (d' & Hrun & Hstate & Hfiles & _ & _ & Herror).
  exists d'. auto.
Defined.

(** C7 (as amended) on [page_doc]. *)
Lemma metadata_simplified_scalar_witness :
  metadata page_doc = PDict [("page", PInt 3); ("languages", PList [PStr "eng"])]
  /\ NoDup (map fst [("page", PInt 3); ("languages", PList [PStr "eng"])])
  /\ simplify_metadata (B:=scripted) page_doc
     = {| page_content := page_content page_doc;
          metadata := PDict [("page", PInt 3); ("languages", PStr "['eng']")] |}
  /\ scalar_valued (simplify_metadata (B:=scripted) page_doc) = true.
Proof.
  assert (H1 : metadata page_doc
               = PDict [("page", PInt 3); ("languages", PList [PStr "eng"])])
    by reflexivity.
  assert (H2 : NoDup (map fst [("page", PInt 3); ("languages", PList [PStr "eng"])])).
  { simpl. repeat constructor; rewrite ?list_elem_of_In; simpl; intuition discriminate. }
  split; [exact H1|]. split; [exact H2|].
  destruct (metadata_simplified_scalar (B:=scripted) page_doc _ H1 H2)
    as (Hsimplified & Hscalar & _).
  split; [exact Hsimplified | exact Hscalar].
Defined.

(** C8 on a question the chain has no response for. *)
Lemma no_results_answer_differs_from_history_witness :
  gather (B:=scripted) plain_session "Who?" fresh
  = (Returned [], snd (gather (B:=scripted) plain_session "Who?" fresh))
  /\ exists r s2,
       chat (B:=scripted) plain_session "Who?" fresh = (Returned r, s2)
       /\ top_answer r = "No results were available to synthesize a response."
       /\ last (conversation_history s2) = Some (AIMessage "No answer available.").
Proof.
  assert (H1 : gather (B:=scripted) plain_session "Who?" fresh
               = (Returned [], snd (gather (B:=scripted) plain_session "Who?" fresh)))
    by (vm_compute; reflexivity).
  split; [exact H1|].
  destruct (no_results_answer_differs_from_history (B:=scripted) plain_session
              "Who?" fresh _ H1) as (r & s2 & Hchat & Hanswer & _ & Hlast & _).
  exists r, s2. auto.
Defined.

(** C9 on a model that writes its queries as plain strings. *)
Lemma string_queries_raise_type_error_witness :
  generate_related_queries (B:=scripted) string_session capital_question fresh
  = (Returned (PList [PStr "France capital city"; PStr "Paris"]),
     {| world := 1%nat; display := []; conversation_history := [] |})
  /\ [PStr "France capital city"; PStr "Paris"] <> []
  /\ Forall (fun q => is_str q = true) [PStr "France capital city"; PStr "Paris"]
  /\ chat (B:=scripted) string_session capital_question fresh
     = (Raised (TypeError "string indices must be integers"),
        {| world := 1%nat; display := []; conversation_history := [] |}).
Proof.
  assert (H1 : generate_related_queries (B:=scripted) string_session capital_question fresh
               = (Returned (PList [PStr "France capital city"; PStr "Paris"]),
                  {| world := 1%nat; display := []; conversation_history := [] |}))
    by (vm_compute; reflexivity).
  assert (H2 : [PStr "France capital city"; PStr "Paris"] <> []) by discriminate.
  assert (H3 : Forall (fun q => is_str q = true)
                 [PStr "France capital city"; PStr "Paris"]) by (repeat constructor).
  split; [exact H1|]. split; [exact H2|]. split; [exact H3|].
  destruct (string_queries_raise_type_error (B:=scripted) string_session
              capital_question fresh _ _ H1) as (Hraise & _).
  exact (proj1 (Hraise H2 H3)).
Defined.

(** C7 (as stated) fails on a page number: the step leaves the integer
    under [page] as it is, so the metadata is not string-valued, although
    the list under [languages] has become a string. *)
Lemma metadata_keeps_numbers :
  simplify_docs (B:=scripted) [page_doc]
  = [ {| page_content := "The capital of France is Paris.";
         metadata := PDict [("page", PInt 3); ("languages", PStr "['eng']")] |} ]
  /\ ~ Forall (fun d => string_valued d = true) (simplify_docs (B:=scripted) [page_doc]).
Proof.
  split; [reflexivity|].
  intros Hall. inversion Hall as [|d rest Hd _]; subst. discriminate.
Qed.

(** C5 (as stated) fails on a reply nested too deep: the model answers
    with an array of 1001 levels, the decoder gives up with
    [RecursionError], which is no [ValueError], and the call raises it
    instead of returning the empty list. *)
Lemma deep_nesting_is_not_caught :
  reply_text (scripted_reply (nested 1001) (related_queries_prompt capital_question))
  = "Here are the queries: " +:+ nested 1001 +:+ " I hope they help."
  /\ json_part ("Here are the queries: " +:+ nested 1001 +:+ " I hope they help.")
     = nested 1001
  /\ generate_related_queries (B:=limited) nesting_session capital_question fresh
     = (Raised (RecursionError
                  "maximum recursion depth exceeded while decoding a JSON array from a unicode string"),
        {| world := 1%nat; display := []; conversation_history := [] |})
  /\ generate_related_queries (B:=limited) nesting_session capital_question fresh
     <> (Returned (PList []),
         {| world := 1%nat; display := []; conversation_history := [] |}).
Proof.
  split; [reflexivity|].
  split; [vm_compute; reflexivity|].
  assert (Hraised :
            generate_related_queries (B:=limited) nesting_session capital_question fresh
            = (Raised (RecursionError
                         "maximum recursion depth exceeded while decoding a JSON array from a unicode string"),
               {| world := 1%nat; display := []; conversation_history := [] |}))
    by (vm_compute; reflexivity).
  split; [exact Hraised|]. rewrite Hraised. discriminate.
Qed.


(** * Further properties *)

(** ** Fusion on any input *)

Lemma total_score_app (a b : list Fused) :
  total_score (a ++ b) = total_score a + total_score b.
Proof. induction a as [|e a IH]; simpl; [reflexivity | rewrite IH; lia]. Qed.

Lemma total_score_perm (a b : list Fused) :
  Permutation a b -> total_score a = total_score b.
Proof. induction 1; simpl; lia. Qed.

(** Counting a result under a key that is there: the first entry found
    gains one point, and no entry comes or goes. *)
Lemma fused_bump_total (fused_scores : list (PyValue * Fused)) (doc_id : PyValue) :
  fused_has fused_scores doc_id = true ->
  total_score (map snd (fused_bump fused_scores doc_id))
  = total_score (map snd fused_scores) + 1.
Proof.
  induction fused_scores as [|[k v] rest IH]; simpl; [discriminate|].
  destruct (key_eqb k doc_id); simpl; [lia|].
  intros Hhas. rewrite (IH Hhas). lia.
Qed.

Lemma fused_bump_length (fused_scores : list (PyValue * Fused)) (doc_id : PyValue) :
  length (fused_bump fused_scores doc_id) = length fused_scores.
Proof.
  induction fused_scores as [|[k v] rest IH]; simpl; [reflexivity|].
  destruct (key_eqb k doc_id); simpl; [reflexivity | now rewrite IH].
Qed.

Lemma fused_bump_at_least (c : Z) (fused_scores : list (PyValue * Fused))
  (doc_id : PyValue) :
  Forall (fun e => c <= score (snd e)) fused_scores ->
  Forall (fun e => c <= score (snd e)) (fused_bump fused_scores doc_id).
Proof.
  induction 1 as [|[k v] rest Hv Hrest IH]; simpl; [constructor|].
  destruct (key_eqb k doc_id); constructor; simpl in *; try assumption; lia.
Qed.

(** Counting a result under a key that was just added at the end. *)
Lemma fused_bump_new (fused_scores : list (PyValue * Fused)) (doc_id : PyValue)
  (v : Fused) :
  fused_has fused_scores doc_id = false ->
  key_eqb doc_id doc_id = true ->
  fused_bump (fused_scores ++ [(doc_id, v)]) doc_id
  = fused_scores ++ [(doc_id, {| doc := doc v; score := score v + 1 |})].
Proof.
  intros Hfresh Hrefl.
  induction fused_scores as [|[k x] rest IH]; simpl in *.
  - now rewrite Hrefl.
  - apply orb_false_iff in Hfresh as [Hk Hrest]. now rewrite Hk, IH.
Qed.

(** One round, for a hashable query: either the entry of the query gains
    a point, or a new entry with one point goes last. *)
Lemma fuse_one_hashable (fused_scores : list (PyValue * Fused)) (result : QAResult) :
  hashable (query result) = true ->
  fuse_one fused_scores result
  = Returned (if fused_has fused_scores (query result)
              then fused_bump fused_scores (query result)
              else fused_scores ++ [(query result, once result)]).
Proof.
  intros Hhash. unfold fuse_one. rewrite Hhash.
  destruct (fused_has fused_scores (query result)) eqn:Hhas; [reflexivity|].
  now rewrite fused_bump_new by auto using key_eqb_refl.
Qed.

Lemma fuse_all_counts (all_results : list QAResult)
  (fused_scores : list (PyValue * Fused)) :
  Forall (fun r => hashable (query r) = true) all_results ->
  Forall (fun e => 1 <= score (snd e)) fused_scores ->
  exists fused,
    fuse_all all_results fused_scores = Returned fused
    /\ total_score (map snd fused)
       = total_score (map snd fused_scores) + Z.of_nat (length all_results)
    /\ (length fused <= length fused_scores + length all_results)%nat
    /\ Forall (fun e => 1 <= score (snd e)) fused.
Proof.
  intros Hhash. revert fused_scores.
  induction Hhash as [|r rest Hr Hrest IH]; intros fused_scores Hpos.
  - exists fused_scores. simpl. repeat split; [lia | lia | assumption].
  - cbn [fuse_all]. rewrite fuse_one_hashable by assumption.
    destruct (fused_has fused_scores (query r)) eqn:Hhas.
    + destruct (IH (fused_bump fused_scores (query r))) as (fused & Hrun & Htotal & Hlen & Hall).
      { now apply fused_bump_at_least. }
      exists fused. rewrite fused_bump_total in Htotal by assumption.
      rewrite fused_bump_length in Hlen.
      repeat split; [assumption | simpl length; lia | simpl length; lia | assumption].
    + destruct (IH (fused_scores ++ [(query r, once r)])) as (fused & Hrun & Htotal & Hlen & Hall).
      { apply Forall_app. split; [assumption|]. repeat constructor. simpl. lia. }
      exists fused. rewrite map_app, total_score_app in Htotal. rewrite length_app in Hlen.
      simpl in Htotal, Hlen.
      repeat split; [assumption | simpl length; lia | simpl length; lia | assumption].
Qed.

(** X1: whatever the queries, as long as they can be dictionary keys, the
    fusion returns, and it counts every result exactly once: the scores
    add up to the number of results, every entry has at least one point,
    there are at most as many entries as results, and the entries come in
    descending order of their scores. *)
Theorem fusion_counts_every_result (all_results : list QAResult) (k : Z) :
  Forall (fun r => hashable (query r) = true) all_results ->
  exists reranked,
    reciprocal_rank_fusion all_results k = Returned reranked
    /\ total_score reranked = Z.of_nat (length all_results)
    /\ Forall (fun e => 1 <= score e) reranked
    /\ (length reranked <= length all_results)%nat
    /\ StronglySorted (fun a b => score b <= score a) reranked.
Proof.
  intros Hhash.
  destruct (fuse_all_counts all_results [] Hhash) as (fused & Hrun & Htotal & Hlen & Hall);
    [constructor|].
  unfold reciprocal_rank_fusion. rewrite Hrun.
  eexists. split; [reflexivity|].
  pose proof (sorted_reverse_perm score (map snd fused)) as Hperm.
  split; [rewrite (total_score_perm _ _ Hperm); simpl in Htotal; lia|].
  split.
  { eapply Permutation_Forall; [symmetry; exact Hperm|].
    clear -Hall. induction Hall; constructor; auto. }
  split; [rewrite (Permutation_length Hperm), length_map; simpl in Hlen; lia|].
  apply sorted_reverse_descending.
Qed.

(** X2: a query that is a list or a dictionary cannot be a dictionary key:
    the fusion raises [TypeError] as soon as one result carries such a
    query, and it returns whenever none does. *)
Theorem fusion_unhashable_query_raises (all_results : list QAResult) (k : Z) :
  (Exists (fun r => hashable (query r) = false) all_results ->
   reciprocal_rank_fusion all_results k = Raised (TypeError "unhashable type"))
  /\ (Forall (fun r => hashable (query r) = true) all_results ->
      exists reranked, reciprocal_rank_fusion all_results k = Returned reranked).
Proof.
  split.
  - intros Hbad. unfold reciprocal_rank_fusion.
    enough (Hgen : forall fused_scores,
               fuse_all all_results fused_scores = Raised (TypeError "unhashable type"))
      by now rewrite Hgen.
    induction all_results as [|r rest IH]; intros fused_scores; [inversion Hbad|].
    cbn [fuse_all]. destruct (hashable (query r)) eqn:Hr.
    + rewrite fuse_one_hashable by assumption.
      apply IH. apply Exists_cons in Hbad as [Hbad|Hbad]; [congruence | assumption].
    + unfold fuse_one. now rewrite Hr.
  - intros Hhash.
    destruct (fuse_all_counts all_results [] Hhash) as (fused & Hrun & _); [constructor|].
    unfold reciprocal_rank_fusion. rewrite Hrun. eauto.
Qed.

(** ** Fusion of string queries: what each entry holds *)

Lemma key_eqb_str_eq (a b : PyValue) :
  is_str a = true -> is_str b = true -> key_eqb a b = true <-> a = b.
Proof.
  destruct a; try discriminate. destruct b; try discriminate. intros _ _. simpl.
  rewrite String.eqb_eq. split; congruence.
Qed.

Lemma key_eqb_str_sym (a b : PyValue) :
  is_str a = true -> is_str b = true -> key_eqb a b = key_eqb b a.
Proof.
  destruct a; try discriminate. destruct b; try discriminate. intros _ _.
  apply String.eqb_sym.
Qed.

Lemma fused_has_in (fused_scores : list (PyValue * Fused)) (doc_id : PyValue) :
  Forall (fun e => is_str (fst e) = true) fused_scores ->
  is_str doc_id = true ->
  fused_has fused_scores doc_id = true <-> In doc_id (map fst fused_scores).
Proof.
  intros Hkeys Hq. induction Hkeys as [|[k v] rest Hk Hrest IH]; simpl.
  - split; [discriminate | tauto].
  - rewrite orb_true_iff, IH, (key_eqb_str_eq k doc_id) by assumption. tauto.
Qed.

Lemma asked_app (q : PyValue) (done : list QAResult) (r : QAResult) :
  asked q (done ++ [r])
  = (asked q done + if key_eqb (query r) q then 1 else 0)%nat.
Proof.
  unfold asked. rewrite List.filter_app, length_app. simpl.
  now destruct (key_eqb (query r) q).
Qed.

Lemma first_asked_app (q : PyValue) (done : list QAResult) (r : QAResult) :
  first_asked q (done ++ [r])
  = match first_asked q done with
    | Some x => Some x
    | None => if key_eqb (query r) q then Some r else None
    end.
Proof.
  unfold first_asked. induction done as [|d done IH]; simpl.
  - reflexivity.
  - now destruct (key_eqb (query d) q).
Qed.

Lemma never_asked (q : PyValue) (done : list QAResult) :
  Forall (fun d => key_eqb (query d) q = false) done ->
  asked q done = 0%nat /\ first_asked q done = None.
Proof.
  unfold asked, first_asked.
  induction 1 as [|d done Hd _ [IH1 IH2]]; simpl; [now split|].
  now rewrite Hd.
Qed.

(** With distinct string keys, counting a result touches the entry of its
    query and no other. *)
Lemma fused_bump_map (fused_scores : list (PyValue * Fused)) (doc_id : PyValue) :
  Forall (fun e => is_str (fst e) = true) fused_scores ->
  is_str doc_id = true ->
  NoDup (map fst fused_scores) ->
  fused_bump fused_scores doc_id
  = map (fun e => if key_eqb (fst e) doc_id
                  then (fst e, {| doc := doc (snd e); score := score (snd e) + 1 |})
                  else e) fused_scores.
Proof.
  intros Hkeys Hq. induction Hkeys as [|[k v] rest Hk Hrest IH]; simpl; [reflexivity|].
  intros Hnodup. apply NoDup_cons in Hnodup as [Hnotin Hnodup].
  destruct (key_eqb k doc_id) eqn:Hkq; [|now rewrite IH].
  f_equal. apply key_eqb_str_eq in Hkq as ->; [|assumption..].
  clear IH Hnodup. induction Hrest as [|[k' v'] rest Hk' Hrest IH]; simpl; [reflexivity|].
  simpl in *. apply not_elem_of_cons in Hnotin as [Hne Hnotin].
  destruct (key_eqb k' doc_id) eqn:Hk'q.
  - apply key_eqb_str_eq in Hk'q; [congruence | assumption..].
  - f_equal. now apply IH.
Qed.

Lemma fused_for_step (done : list QAResult) (fused_scores : list (PyValue * Fused))
  (r : QAResult) :
  is_str (query r) = true ->
  fused_for done fused_scores ->
  exists fused,
    fuse_one fused_scores r = Returned fused /\ fused_for (done ++ [r]) fused.
Proof.
  intros Hq (Hentries & Hnodup & Hcover).
  assert (Hkeys : Forall (fun e => is_str (fst e) = true) fused_scores)
    by (eapply Forall_impl; [exact Hentries | now intros e (? & _)]).
  assert (Hhash : hashable (query r) = true) by (destruct (query r); now try discriminate).
  rewrite fuse_one_hashable by assumption.
  eexists. split; [reflexivity|].
  assert (Hkept : forall e,
             is_str (fst e) = true
             /\ fst e = query (doc (snd e))
             /\ first_asked (fst e) done = Some (doc (snd e))
             /\ score (snd e) = Z.of_nat (asked (fst e) done) ->
             let e' := if key_eqb (fst e) (query r)
                       then (fst e, {| doc := doc (snd e); score := score (snd e) + 1 |})
                       else e in
             is_str (fst e') = true
             /\ fst e' = query (doc (snd e'))
             /\ first_asked (fst e') (done ++ [r]) = Some (doc (snd e'))
             /\ score (snd e') = Z.of_nat (asked (fst e') (done ++ [r]))).
  { intros [k v] (Hk & Hkv & Hfirst & Hscore). simpl in *.
    destruct (key_eqb k (query r)) eqn:Hkq; simpl;
      rewrite first_asked_app, asked_app, Hfirst, (key_eqb_str_sym (query r) k),
        Hkq by assumption; repeat split; try assumption; lia. }
  destruct (fused_has fused_scores (query r)) eqn:Hhas.
  - rewrite fused_bump_map by assumption.
    split; [|split].
    + apply Forall_map. eapply Forall_impl; [exact Hentries|]. exact Hkept.
    + rewrite map_map.
      erewrite map_ext; [exact Hnodup|].
      intros e. now destruct (key_eqb (fst e) (query r)).
    + rewrite map_map.
      erewrite (map_ext _ fst) by (intros e; now destruct (key_eqb (fst e) (query r))).
      apply Forall_app. split; [assumption|].
      repeat constructor. now apply fused_has_in.
  - assert (Hnotin : ~ In (query r) (map fst fused_scores)).
    { intros Hin. apply fused_has_in in Hin; [congruence | assumption..]. }
    assert (Hnever : Forall (fun d => key_eqb (query d) (query r) = false) done).
    { apply List.Forall_forall. intros d Hd.
      destruct (key_eqb (query d) (query r)) eqn:Hdq; [|reflexivity].
      rewrite List.Forall_forall in Hcover. specialize (Hcover d Hd).
      assert (Hstr : is_str (query d) = true).
      { apply List.in_map_iff in Hcover as (e & He & Hin).
        rewrite List.Forall_forall in Hkeys. rewrite <- He. now apply Hkeys. }
      apply key_eqb_str_eq in Hdq; [|assumption..]. rewrite Hdq in Hcover. tauto. }
    destruct (never_asked _ _ Hnever) as [Hzero Hnone].
    split; [|split].
    + apply Forall_app. split.
      * apply List.Forall_forall. intros e Hin.
        assert (He := proj1 (List.Forall_forall _ _) Hentries e Hin).
        specialize (Hkept e He). simpl in Hkept.
        assert (Hek : key_eqb (fst e) (query r) = false).
        { destruct (key_eqb (fst e) (query r)) eqn:Hek; [|reflexivity].
          destruct He as (Hk & _).
          apply key_eqb_str_eq in Hek; [|assumption..].
          exfalso. apply Hnotin. rewrite <- Hek. now apply in_map. }
        now rewrite Hek in Hkept.
      * repeat constructor; simpl; [assumption|..].
        -- rewrite first_asked_app, Hnone. now rewrite key_eqb_refl.
        -- rewrite asked_app, Hzero. now rewrite key_eqb_refl.
    + rewrite map_app. simpl. apply NoDup_app.
      split; [assumption|]. split; [|repeat constructor; apply not_elem_of_nil].
      intros x Hx Hx'. apply list_elem_of_singleton in Hx' as ->.
      now apply list_elem_of_In in Hx.
    + rewrite map_app. simpl. apply Forall_app. split.
      * eapply Forall_impl; [exact Hcover|]. intros d Hd. apply in_or_app. now left.
      * repeat constructor. apply in_or_app. right. now left.
Qed.

Lemma fused_for_all (rest done : list QAResult) (fused_scores : list (PyValue * Fused)) :
  Forall (fun r => is_str (query r) = true) rest ->
  fused_for done fused_scores ->
  exists fused,
    fuse_all rest fused_scores = Returned fused /\ fused_for (done ++ rest) fused.
Proof.
  intros Hstr. revert done fused_scores.
  induction Hstr as [|r rest Hr Hrest IH]; intros done fused_scores Hfor.
  - exists fused_scores. now rewrite app_nil_r.
  - destruct (fused_for_step done fused_scores r Hr Hfor) as (fused1 & Hone & Hfor1).
    destruct (IH (done ++ [r]) fused1 Hfor1) as (fused & Hall & Hfor2).
    exists fused. cbn [fuse_all]. rewrite Hone.
    split; [exact Hall|]. now rewrite <- app_assoc in Hfor2.
Qed.

(** X3: on results whose queries are strings the fusion groups by query.
    It returns one entry for each distinct query; the entry holds the
    first result with that query, so the answers of later results with
    the same query are not in the output, and its score is the number of
    results with that query. *)
Theorem fusion_groups_by_query (all_results : list QAResult) (k : Z) :
  Forall (fun r => is_str (query r) = true) all_results ->
  exists reranked,
    reciprocal_rank_fusion all_results k = Returned reranked
    /\ Forall (fun e => first_asked (query (doc e)) all_results = Some (doc e)
                        /\ score e = Z.of_nat (asked (query (doc e)) all_results))
              reranked
    /\ NoDup (map (fun e => query (doc e)) reranked)
    /\ Forall (fun r => In (query r) (map (fun e => query (doc e)) reranked))
              all_results.
Proof.
  intros Hstr.
  destruct (fused_for_all all_results [] [] Hstr) as (fused & Hrun & Hentries & Hnodup & Hcover).
  { repeat split; constructor. }
  simpl in *. unfold reciprocal_rank_fusion. rewrite Hrun.
  eexists. split; [reflexivity|].
  pose proof (sorted_reverse_perm score (map snd fused)) as Hperm.
  assert (Hkeys : map (fun e => query (doc e)) (map snd fused) = map fst fused).
  { rewrite map_map. clear -Hentries.
    induction Hentries as [|e rest (_ & He & _) _ IH]; simpl; [reflexivity|].
    now rewrite IH, He. }
  split; [|split].
  - eapply Permutation_Forall; [symmetry; exact Hperm|].
    apply Forall_map. eapply Forall_impl; [exact Hentries|].
    intros e (_ & He & Hfirst & Hscore). rewrite <- He. now split.
  - rewrite (Permutation_map (fun e => query (doc e)) Hperm), Hkeys. exact Hnodup.
  - eapply Forall_impl; [exact Hcover|]. intros r Hin.
    rewrite <- Hkeys in Hin.
    eapply Permutation_in; [|exact Hin].
    symmetry. now apply Permutation_map.
Qed.

(** ** More on [chat] *)

Lemma bind_ext {S A C : Type} (m1 m2 : M S A) (k1 k2 : A -> M S C) (s : S) :
  m1 s = m2 s -> (forall a s', k1 a s' = k2 a s') -> bind m1 k1 s = bind m2 k2 s.
Proof.
  intros Hm Hk. unfold bind. rewrite Hm.
  destruct (m2 s) as [[a|e] s']; [apply Hk | reflexivity].
Qed.

Section MoreChatFacts.
Context {World : Type} {B : Builtins}.
Implicit Types (self : ChatWithFile World) (s : Session World).
Implicit Types (P : Providers World).

Lemma records_bind {A : Type} (question : string) (m : M (Session World) A)
  (k : A -> M (Session World) TopResult) :
  keeps_history m -> (forall a, records_answer question (k a)) ->
  records_answer question (bind m k).
Proof.
  intros Hm Hk s. unfold bind. specialize (Hm s).
  destruct (m s) as [[a|e] s1]; simpl in *; [|assumption].
  specialize (Hk a s1). destruct (k a s1) as [[r|e] s2]; now rewrite <- Hm.
Qed.

(** With at least one result, what [synthesize] appends as the AI turn
    is the answer it returns. *)
Lemma synthesize_records self (question : string) (first : QAResult)
  (rest : list QAResult) :
  records_answer question (synthesize self question (first :: rest)).
Proof.
  unfold synthesize.
  apply records_bind; [apply keeps_lift | intros reranked].
  apply records_bind; [apply keeps_create_synthesis_prompt | intros prompt].
  apply records_bind; [apply keeps_llm_invoke | intros response].
  apply records_bind.
  { destruct (reply_truthy response); [|apply keeps_ret].
    apply keeps_bind; [apply keeps_st | intros; apply keeps_lift]. }
  intros final_answer s. simpl. now rewrite <- app_assoc.
Qed.

(** X4: when at least one query got a response and [chat] returns, the
    AI turn it has appended to the history holds exactly the answer it
    returns (on the path without results the two differ). *)
Theorem results_answer_recorded self (question : string) s s1 s2
  (first : QAResult) (rest : list QAResult) (r : TopResult) :
  gather self question s = (Returned (first :: rest), s1) ->
  chat self question s = (Returned r, s2) ->
  conversation_history s2
  = conversation_history s ++ [HumanMessage question; AIMessage (top_answer r)]
  /\ last (conversation_history s2) = Some (AIMessage (top_answer r)).
Proof.
  intros Hgather Hchat.
  pose proof (keeps_gather self question s) as Hkeep.
  rewrite Hgather in Hkeep. simpl in Hkeep.
  unfold chat in Hchat. rewrite (bind_returned _ _ _ _ _ Hgather) in Hchat.
  pose proof (synthesize_records self question first rest s1) as Hrec.
  rewrite Hchat in Hrec. rewrite Hkeep in Hrec.
  split; [exact Hrec|]. rewrite Hrec.
  change [HumanMessage question; AIMessage (top_answer r)]
    with ([HumanMessage question] ++ [AIMessage (top_answer r)]).
  now rewrite app_assoc, last_snoc.
Qed.

(** [chat] reads the instance through [self.llm] and [self.qa] only, once
    a model is set. *)
Lemma ask_reads_qa self1 self2 (m : LLM World) (q : PyValue) s :
  llm self1 = Some m -> llm self2 = Some m ->
  chains self1 !! "qa" = chains self2 !! "qa" ->
  ask self1 q s = ask self2 q s.
Proof. intros H1 H2 Hqa. unfold ask, getattr. now rewrite H1, H2, Hqa. Qed.

Lemma retrieve_reads_qa self1 self2 (m : LLM World) (queries : list PyValue)
  (all_results : list QAResult) s :
  llm self1 = Some m -> llm self2 = Some m ->
  chains self1 !! "qa" = chains self2 !! "qa" ->
  retrieve self1 queries all_results s = retrieve self2 queries all_results s.
Proof.
  intros H1 H2 Hqa. revert all_results s.
  induction queries as [|q rest IH]; intros all_results s; [reflexivity|].
  cbn [retrieve]. apply bind_ext; [now apply (ask_reads_qa _ _ m)|].
  intros response s'. apply bind_ext; [reflexivity|]. intros; apply IH.
Qed.

Lemma chat_reads_qa self1 self2 (question : string) s :
  llm self1 = llm self2 ->
  chains self1 !! "qa" = chains self2 !! "qa" ->
  chat self1 question s = chat self2 question s.
Proof.
  intros Hllm Hqa. destruct (llm self1) as [m|] eqn:H1.
  - symmetry in Hllm. unfold chat.
    apply bind_ext.
    + unfold gather. apply bind_ext.
      * unfold generate_related_queries. now rewrite H1, Hllm.
      * intros dicts s'. apply bind_ext; [reflexivity|].
        intros related s''. now apply (retrieve_reads_qa _ _ m).
    + intros all_results s'. unfold synthesize. now rewrite H1, Hllm.
  - symmetry in Hllm. now rewrite !chat_needs_llm.
Qed.

(** X5: the Anthropic key has no effect on what [chat] does: with the
    same OpenAI key, two sessions set up with any two Anthropic keys (set
    or not) give the same outcome and the same state for every question.
    Even when both keys are set, only the OpenAI model and its chain are
    used. *)
Theorem anthropic_key_never_matters P (openai_key key1 key2 : option string)
  (question : string) s :
  chat (setup_conversation_retrieval_chain P openai_key key1) question s
  = chat (setup_conversation_retrieval_chain P openai_key key2) question s.
Proof.
  apply chat_reads_qa; [reflexivity|].
  unfold setup_conversation_retrieval_chain. simpl.
  destruct (key_truthy key1), (key_truthy key2); simpl;
    now rewrite ?lookup_insert_ne by discriminate.
Qed.

(** The loop gives at most one result per query, in the order of the
    queries. *)
Lemma retrieve_sublist self (queries : list PyValue) (all_results results : list QAResult)
  s s' :
  retrieve self queries all_results s = (Returned results, s') ->
  exists new, results = all_results ++ new /\ sublist (map query new) queries.
Proof.
  revert all_results s; induction queries as [|q rest IH]; cbn [retrieve];
    intros all_results s Hret.
  - injection Hret as <- _. exists []. split; [now rewrite app_nil_r | constructor].
  - unfold bind at 1 in Hret.
    destruct (ask self q s) as [[[a|]|e] s1]; [| |discriminate]; simpl in Hret.
    + apply IH in Hret as (new & -> & Hsub).
      exists ({| query := q; answer := a |} :: new).
      split; [now rewrite <- app_assoc | now constructor].
    + apply IH in Hret as (new & -> & Hsub).
      exists new. split; [reflexivity | now constructor].
Qed.

(** X6: the results that the loop of [chat] gathers follow the queries:
    their queries form a subsequence of the queries asked, so there is at
    most one result per query asked, the results keep the order of the
    queries, and no result is for a query that was not asked. *)
Theorem results_follow_queries self (queries : list PyValue)
  (results : list QAResult) s s' :
  retrieve self queries [] s = (Returned results, s') ->
  sublist (map query results) queries
  /\ (length results <= length queries)%nat
  /\ Forall (fun r => In (query r) queries) results.
Proof.
  intros Hret. apply retrieve_sublist in Hret as (new & -> & Hsub). simpl.
  split; [exact Hsub|].
  split; [apply sublist_length in Hsub; now rewrite length_map in Hsub|].
  apply List.Forall_forall. intros r Hr.
  apply list_elem_of_In. eapply elem_of_sublist; [|exact Hsub].
  apply list_elem_of_In. now apply in_map.
Qed.

End MoreChatFacts.

(** ** More on the query expansion and the setup *)

(** A comprehension raises what its body raises on the first item it
    fails on. *)
Lemma comprehension_first_error {A C : Type} (f : A -> Outcome C)
  (good : list A) (bad : A) (rest : list A) (e : Exn) :
  Forall (fun x => exists y, f x = Returned y) good ->
  f bad = Raised e ->
  comprehension f (good ++ bad :: rest) = Raised e.
Proof.
  intros Hgood Hbad. induction Hgood as [|x good [y Hx] _ IH]; simpl.
  - now rewrite Hbad.
  - now rewrite Hx, IH.
Qed.

Section MoreExpansionFacts.
Context {World : Type} {B : Builtins}.
Implicit Types (self : ChatWithFile World) (s : Session World).
Implicit Types (P : Providers World).

(** X7: when the decoder rejects the reply of the model, [chat] goes on
    without a related query: the loop asks the original question and
    nothing else, from the state the query expansion left. *)
Theorem failed_expansion_asks_question_only self (model : LLM World)
  (question : string) s (reply : Reply) (w : World) (e : Exn) :
  llm self = Some model ->
  invoke model (related_queries_prompt question) (world s) = (Returned reply, w) ->
  json_loads (json_part (reply_text reply)) = Raised e ->
  is_ValueError e = true ->
  let s' := {| world := w;
               display := display s ++ reply_complaint reply;
               conversation_history := conversation_history s |} in
  gather self question s = retrieve self [PStr question] [] s'
  /\ chat self question s
     = bind (retrieve self [PStr question] []) (synthesize self question) s'.
Proof.
  intros Hllm Hinvoke Hloads He s'.
  pose proof (generate_related_queries_replied self model question s reply w
                Hllm Hinvoke) as Hgen.
  unfold parse_related_queries in Hgen. rewrite Hloads, He in Hgen. fold s' in Hgen.
  assert (Hgather : gather self question s = retrieve self [PStr question] [] s').
  { unfold gather. now rewrite (bind_returned _ _ _ _ _ Hgen). }
  split; [exact Hgather|].
  unfold chat, bind at 1. rewrite Hgather. reflexivity.
Qed.

(** X8: the query expansion catches the decoder's [ValueError] and
    [JSONDecodeError] and nothing else: any other exception of the
    decoder comes out of [generate_related_queries] and out of [chat],
    and the conversation history stays as it was. *)
Theorem decoder_error_propagates self (model : LLM World) (question : string) s
  (reply : Reply) (w : World) (e : Exn) :
  llm self = Some model ->
  invoke model (related_queries_prompt question) (world s) = (Returned reply, w) ->
  json_loads (json_part (reply_text reply)) = Raised e ->
  is_ValueError e = false ->
  let s' := {| world := w;
               display := display s ++ reply_complaint reply;
               conversation_history := conversation_history s |} in
  generate_related_queries self question s = (Raised e, s')
  /\ chat self question s = (Raised e, s')
  /\ conversation_history (snd (chat self question s)) = conversation_history s.
Proof.
  intros Hllm Hinvoke Hloads He s'.
  pose proof (generate_related_queries_replied self model question s reply w
                Hllm Hinvoke) as Hgen.
  unfold parse_related_queries in Hgen. rewrite Hloads, He in Hgen. fold s' in Hgen.
  assert (Hchat : chat self question s = (Raised e, s')).
  { unfold chat, gather.
    erewrite bind_raised; [reflexivity|]. now erewrite bind_raised. }
  split; [exact Hgen|]. split; [exact Hchat|]. now rewrite Hchat.
Qed.

(** X9: the first parsed element that [q['query']] rejects decides how
    [chat] ends: it raises what that element raises ([KeyError] for a
    dictionary without the key, [TypeError] for anything that is not a
    dictionary), whatever comes after it, and appends nothing to the
    history. *)
Theorem first_bad_element_decides self (question : string) s s1
  (good : list PyValue) (bad : PyValue) (rest : list PyValue) (e : Exn) :
  generate_related_queries self question s
  = (Returned (PList (good ++ bad :: rest)), s1) ->
  Forall has_query good ->
  py_getitem bad "query" = Raised e ->
  chat self question s = (Raised e, s1)
  /\ conversation_history s1 = conversation_history s
  /\ (forall entries, bad = PDict entries -> e = KeyError "query")
  /\ (is_list_or_dict bad = false -> exists msg, e = TypeError msg).
Proof.
  intros Hgen Hgood Hbad.
  pose proof (keeps_generate_related_queries self question s) as Hkeep.
  rewrite Hgen in Hkeep.
  assert (Hcomp : comprehension (fun q => py_getitem q "query") (good ++ bad :: rest)
                  = Raised e).
  { apply comprehension_first_error; [|exact Hbad].
    eapply Forall_impl; [exact Hgood|].
    intros q (entries & v & -> & Hget). exists v. simpl. now rewrite Hget. }
  split; [|split; [exact Hkeep|split]].
  - unfold chat, gather.
    erewrite bind_raised; [reflexivity|].
    erewrite bind_returned by exact Hgen.
    erewrite bind_raised; [reflexivity|].
    unfold lift. cbn [py_iter]. now rewrite Hcomp.
  - intros entries ->. simpl in Hbad.
    destruct (dict_get entries "query"); congruence.
  - intros Hscalar. destruct bad; simpl in *; try discriminate;
      injection Hbad as <-; eauto.
Qed.

Lemma key_truthy_none (key : option string) :
  key_truthy key = None <-> key = None \/ key = Some "".
Proof.
  destruct key as [k|]; simpl; [|tauto].
  destruct (String.eqb_spec k "") as [->|Hne].
  - tauto.
  - split; [discriminate|]. intros [?|[= ?]]; congruence.
Qed.

Lemma setup_llm P (openai_key anthropic_key : option string) :
  llm (setup_conversation_retrieval_chain P openai_key anthropic_key)
  = ChatOpenAI P <$> key_truthy openai_key.
Proof. unfold setup_conversation_retrieval_chain. simpl. now destruct (key_truthy openai_key). Qed.

Lemma setup_llm_anthropic P (openai_key anthropic_key : option string) :
  llm_anthropic (setup_conversation_retrieval_chain P openai_key anthropic_key)
  = ChatAnthropic P <$> key_truthy anthropic_key.
Proof.
  unfold setup_conversation_retrieval_chain. simpl.
  now destruct (key_truthy anthropic_key).
Qed.

Lemma setup_chains P (openai_key anthropic_key : option string) (attr : string) :
  chains (setup_conversation_retrieval_chain P openai_key anthropic_key) !! attr
  = if decide (attr = "anthropic_qa")
    then (fun k => from_llm P (ChatAnthropic P k)) <$> key_truthy anthropic_key
    else if decide (attr = "qa")
         then (fun k => from_llm P (ChatOpenAI P k)) <$> key_truthy openai_key
         else None.
Proof.
  unfold setup_conversation_retrieval_chain. simpl.
  destruct (key_truthy openai_key), (key_truthy anthropic_key); simpl;
    repeat case_decide; subst;
    rewrite ?lookup_insert_eq, ?lookup_insert_ne, ?lookup_empty by congruence;
    reflexivity.
Qed.

(** X10: the setup binds [self.qa] exactly when it sets [self.llm], and
    [self.anthropic_qa] exactly when it sets [self.llm_anthropic]; a key
    that is missing or empty sets neither; no other chain attribute is
    bound.  So in a session with an OpenAI model the loop of [chat] never
    meets an unbound attribute: asking a query is invoking that chain. *)
Theorem setup_binds_with_models P (openai_key anthropic_key : option string) :
  let self := setup_conversation_retrieval_chain P openai_key anthropic_key in
  (is_Some (chains self !! "qa") <-> is_Some (llm self))
  /\ (is_Some (chains self !! "anthropic_qa") <-> is_Some (llm_anthropic self))
  /\ (forall attr, is_Some (chains self !! attr) -> attr = "qa" \/ attr = "anthropic_qa")
  /\ (llm self = None <-> openai_key = None \/ openai_key = Some "")
  /\ (llm_anthropic self = None <-> anthropic_key = None \/ anthropic_key = Some "")
  /\ (forall m query_text s,
        llm self = Some m ->
        ask self query_text s = remote (chain_invoke (from_llm P m) query_text) s).
Proof.
  intros self. subst self.
  split; [|split; [|split; [|split; [|split]]]].
  - rewrite setup_chains, setup_llm. simpl. rewrite !fmap_is_Some. tauto.
  - rewrite setup_chains, setup_llm_anthropic. simpl. rewrite !fmap_is_Some. tauto.
  - intros attr. rewrite setup_chains.
    repeat case_decide; [tauto | tauto | intros [? [=]]].
  - rewrite setup_llm, fmap_None. apply key_truthy_none.
  - rewrite setup_llm_anthropic, fmap_None. apply key_truthy_none.
  - intros m q s Hm. unfold ask, getattr. rewrite Hm, setup_chains. simpl.
    rewrite setup_llm in Hm.
    destruct (key_truthy openai_key); simpl in *; [|discriminate].
    now injection Hm as <-.
Qed.

End MoreExpansionFacts.

(** ** More on the upload page *)

#[local] Arguments String.append !_ _ / : simpl nomatch.




(** *** A name has one supported suffix at most *)













(** ** More on the metadata *)

Section MoreMetadataFacts.
Context {B : Builtins}.

Lemma simplify_value_idempotent (value : PyValue) :
  simplify_value (simplify_value value) = simplify_value value.
Proof.
  unfold simplify_value. destruct (is_list_or_dict value) eqn:Hv; simpl; [reflexivity|].
  now rewrite Hv.
Qed.

(** What [simplify_metadata] gives on a dictionary. *)
Lemma simplify_metadata_dict (d : Document) (entries : list (string * PyValue)) :
  metadata d = PDict entries ->
  NoDup (map fst entries) ->
  simplify_metadata d
  = {| page_content := page_content d;
       metadata := PDict (map (fun e => (fst e, simplify_value (snd e))) entries) |}.
Proof.
  intros Hmeta Hnodup. unfold simplify_metadata. rewrite Hmeta.
  pose proof (simplify_items_map entries [] Hnodup) as Hmap.
  rewrite !app_nil_l in Hmap. now rewrite Hmap.
Qed.

(** X14: the simplification step is idempotent: applied to its own
    output it changes nothing, so a document that reaches the step twice
    (two chunks that share one metadata dictionary) comes out as after
    one pass. *)
Theorem simplify_metadata_idempotent (d : Document) :
  (forall entries, metadata d = PDict entries -> NoDup (map fst entries)) ->
  simplify_metadata (simplify_metadata d) = simplify_metadata d.
Proof.
  intros Hdict. destruct (metadata d) as [| | | | | |entries] eqn:Hmeta;
    try (unfold simplify_metadata; rewrite Hmeta; unfold simplify_metadata;
         now rewrite Hmeta).
  rewrite (simplify_metadata_dict d entries Hmeta (Hdict entries eq_refl)).
  erewrite simplify_metadata_dict; [|reflexivity|].
  - simpl. do 2 f_equal. rewrite map_map. apply map_ext.
    intros [k v]. simpl. now rewrite simplify_value_idempotent.
  - rewrite map_map. simpl. now apply Hdict.
Qed.

(** X15: the simplification step keeps the chunks apart from the values
    it rewrites: as many documents come out as went in, in the same
    order, each with its text and with the same metadata keys in the same
    order; a document whose metadata is not a dictionary, or holds no
    list and no dictionary, comes out as it went in. *)
Theorem simplify_docs_keeps_chunks (docs : list Document) :
  Forall (fun d => forall entries, metadata d = PDict entries -> NoDup (map fst entries))
    docs ->
  length (simplify_docs docs) = length docs
  /\ map page_content (simplify_docs docs) = map page_content docs
  /\ Forall2 (fun d d' =>
                forall entries, metadata d = PDict entries ->
                  exists entries', metadata d' = PDict entries'
                                   /\ map fst entries' = map fst entries)
       docs (simplify_docs docs)
  /\ Forall2 (fun d d' =>
                scalar_valued d = true \/ (forall entries, metadata d <> PDict entries)
                -> d' = d)
       docs (simplify_docs docs).
Proof.
  intros Hdicts. unfold simplify_docs.
  split; [apply length_map|].
  split.
  { rewrite map_map. apply map_ext_Forall.
    eapply Forall_impl; [exact Hdicts|]. intros d Hd.
    unfold simplify_metadata. now destruct (metadata d). }
  split.
  - induction Hdicts as [|d rest Hd _ IH]; simpl; constructor; [|exact IH].
    intros entries Hmeta.
    rewrite (simplify_metadata_dict d entries Hmeta (Hd entries Hmeta)). simpl.
    eexists. split; [reflexivity|]. rewrite map_map. reflexivity.
  - induction Hdicts as [|d rest Hd _ IH]; simpl; constructor; [|exact IH].
    intros Hcase. destruct d as [text meta]. simpl in *.
    destruct meta as [| | | | | |entries]; try reflexivity.
    rewrite (simplify_metadata_dict {| page_content := text; metadata := PDict entries |}
               entries eq_refl (Hd entries eq_refl)). simpl.
    do 2 f_equal.
    destruct Hcase as [Hscalar|Hnot]; [|now specialize (Hnot entries)].
    unfold scalar_valued in Hscalar. simpl in Hscalar. clear -Hscalar.
    induction entries as [|[k v] entries IH]; simpl in *; [reflexivity|].
    apply andb_true_iff in Hscalar as [Hv Hrest].
    rewrite IH by assumption. unfold simplify_value.
    now destruct (is_list_or_dict v).
Qed.

End MoreMetadataFacts.

(** ** Ingestion *)

Section IngestionFacts.
Context {World VectorDB : Type} {B : Builtins}.
Variable F : Platform World VectorDB.

Lemma eq_str_true (value : PyValue) (text : string) :
  eq_str value text = true <-> value = PStr text.
Proof.
  destruct value; simpl; try (split; [discriminate | intros [=]]).
  rewrite String.eqb_eq. split; [now intros -> | now intros [= ->]].
Qed.

Lemma pick_loader_none (file_path file_type : PyValue) :
  pick_loader file_path file_type = None
  <-> forall t, In t loadable_types -> file_type <> PStr t.
Proof.
  unfold pick_loader, loadable_types. split.
  - intros Hnone t Ht Heq. subst file_type. simpl in Ht.
    destruct Ht as [<-|[<-|[<-|[<-|[<-|[<-|[]]]]]]]; discriminate Hnone.
  - intros Hnot.
    assert (Hno : forall t, In t loadable_types -> eq_str file_type t = false).
    { intros t Ht. destruct (eq_str file_type t) eqn:E; [|reflexivity].
      apply eq_str_true in E. now elim (Hnot t Ht). }
    unfold loadable_types in Hno.
    rewrite !Hno by (simpl; tauto). reflexivity.
Qed.

Lemma pick_loader_path (file_path file_type : PyValue) (loader : Loader) :
  pick_loader file_path file_type = Some loader ->
  loader_file_path loader = file_path
  /\ exists t, In t loadable_types /\ file_type = PStr t.
Proof.
  unfold pick_loader, loadable_types.
  repeat match goal with
         | |- context [eq_str file_type ?t] =>
             let E := fresh "E" in
             destruct (eq_str file_type t) eqn:E;
             [apply eq_str_true in E; intros [= <-]; split; [reflexivity|];
              exists t; simpl; tauto|]
         end.
  discriminate.
Qed.

(** X16: a file type outside the six that [load_file] knows leaves
    [self.loader] unbound: [load_file] raises [AttributeError] for
    [loader] without reading anything, and so does the constructor, which
    has by then only emptied the history: nothing is loaded, split or
    indexed. *)
Theorem unknown_type_stops_ingestion (file_path file_type : PyValue)
  (s : Session World) :
  (forall t, In t loadable_types -> file_type <> PStr t) ->
  load_file F file_path file_type s
  = (Raised (AttributeError "ChatWithFile" "loader"), s)
  /\ init F file_path file_type s
     = (Raised (AttributeError "ChatWithFile" "loader"),
        {| world := world s; display := display s; conversation_history := [] |}).
Proof.
  intros Hnot. apply (pick_loader_none file_path) in Hnot.
  unfold init, load_file. rewrite Hnot. split; reflexivity.
Qed.

(** X17: every file type the upload page records is one [load_file] has
    a loader for, and that loader is given the path handed to the
    constructor: for such a type [load_file] is the call of the loader's
    [load_and_split]. *)
Theorem uploaded_type_has_loader (file_name file_type : string) (file_path : PyValue) :
  file_type_of file_name = Some file_type ->
  exists loader,
    pick_loader file_path (PStr file_type) = Some loader
    /\ loader_file_path loader = file_path
    /\ forall s, load_file F file_path (PStr file_type) s
                 = remote (load_and_split F loader) s.
Proof.
  unfold file_type_of. intros Htype.
  assert (Hin : In file_type loadable_types).
  { unfold loadable_types.
    repeat match type of Htype with
           | (if ?c then _ else _) = _ => destruct c; [injection Htype as <-; simpl; tauto|]
           end.
    discriminate. }
  unfold loadable_types in Hin. simpl in Hin.
  destruct Hin as [<-|[<-|[<-|[<-|[<-|[<-|[]]]]]]];
    (eexists; split; [reflexivity|]; split; [reflexivity|]; intros s; reflexivity).
Qed.

(** The constructor, stage by stage. *)
Lemma init_run (file_path file_type : PyValue) (s : Session World) :
  init F file_path file_type s
  = let reset w := {| world := w; display := display s; conversation_history := [] |} in
    match pick_loader file_path file_type with
    | None => (Raised (AttributeError "ChatWithFile" "loader"), reset (world s))
    | Some loader =>
        match load_and_split F loader (world s) with
        | (Raised e, w1) => (Raised e, reset w1)
        | (Returned pages, w1) =>
            match split_documents F pages w1 with
            | (Raised e, w2) => (Raised e, reset w2)
            | (Returned chunks, w2) =>
                match chroma_from_documents F (simplify_docs chunks) w2 with
                | (Raised e, w3) => (Raised e, reset w3)
                | (Returned vectordb, w3) =>
                    (Returned (setup_conversation_retrieval_chain (providers F vectordb)
                                 (getenv F "OPENAI_API_KEY")
                                 (getenv F "ANTHROPIC_API_KEY")),
                     reset w3)
                end
            end
        end
    end.
Proof.
  destruct s as [w shown_so_far history].
  cbv beta iota zeta delta [init load_file split_into_chunks store_in_chroma
    history_reset bind modify remote ret raise world display conversation_history].
  destruct (pick_loader file_path file_type) as [loader|]; [|reflexivity].
  destruct (load_and_split F loader w) as [[pages|e] w1]; [|reflexivity].
  cbv beta iota.
  destruct (split_documents F pages w1) as [[chunks|e] w2]; [|reflexivity].
  cbv beta iota.
  now destruct (chroma_from_documents F (simplify_docs chunks) w2) as [[v|e] w3].
Qed.

(** X18: an instance exists exactly when the three stages succeeded in a
    row, each on what the stage before it produced: the loader chosen for
    the type gave the pages, the chunker split those pages, and the index
    was built from the chunks with their metadata simplified.  The
    instance is then the one set up for that index with the two keys of
    the environment, and its history is empty. *)
Theorem instance_built_in_stages (file_path file_type : PyValue)
  (s s' : Session World) (instance : ChatWithFile World) :
  init F file_path file_type s = (Returned instance, s')
  <-> exists loader pages w1 chunks w2 vectordb w3,
        pick_loader file_path file_type = Some loader
        /\ load_and_split F loader (world s) = (Returned pages, w1)
        /\ split_documents F pages w1 = (Returned chunks, w2)
        /\ chroma_from_documents F (simplify_docs chunks) w2 = (Returned vectordb, w3)
        /\ instance = setup_conversation_retrieval_chain (providers F vectordb)
                        (getenv F "OPENAI_API_KEY") (getenv F "ANTHROPIC_API_KEY")
        /\ s' = {| world := w3; display := display s; conversation_history := [] |}.
Proof.
  rewrite init_run. split.
  - destruct (pick_loader file_path file_type) as [loader|]; [|intros [=]].
    destruct (load_and_split F loader (world s)) as [[pages|e] w1] eqn:E1; [|intros [=]].
    destruct (split_documents F pages w1) as [[chunks|e] w2] eqn:E2; [|intros [=]].
    destruct (chroma_from_documents F (simplify_docs chunks) w2) as [[v|e] w3] eqn:E3;
      [|intros [=]].
    intros [= <- <-]. now exists loader, pages, w1, chunks, w2, v, w3.
  - intros (loader & pages & w1 & chunks & w2 & v & w3 & -> & E1 & E2 & E3 & -> & ->).
    now rewrite E1, E2, E3.
Qed.

End IngestionFacts.

(** ** The chat page and the script *)

Section PageFacts.
Context {World VectorDB : Type} {B : Builtins}.
Implicit Type F : Platform World VectorDB.
Implicit Type a : App World.

Lemma render_run (e : Element) a : render e a = (Returned tt, adding a [e]).
Proof. reflexivity. Qed.

Lemma adding_adding a (first second : list Element) :
  adding (adding a first) second = adding a (first ++ second).
Proof. unfold adding. cbn. now rewrite app_assoc. Qed.

Lemma session_get_run (key : string) a :
  on_desk (session_get key) a
  = (Returned (default PNone (session_state (desk a) !! key)), a).
Proof. now destruct a. Qed.

Lemma present_found F (p : string) a :
  file_present p (desk a) ->
  py_truthy (PStr p) = true
  /\ on_desk (os_path_exists_value F (PStr p)) a = (Returned true, a).
Proof.
  intros (_ & Hp & Hdisk). split.
  - simpl. now apply negb_true_iff, String.eqb_neq.
  - destruct a as [d inst s r]. unfold on_desk, os_path_exists_value, os_path_exists.
    cbn [desk chat_instance session rendered] in *.
    replace (bool_decide (p ∈ dirs d) || bool_decide (is_Some (files d !! p)))
      with true; [reflexivity|].
    symmetry. apply orb_true_iff.
    destruct Hdisk; [left | right]; now apply bool_decide_eq_true.
Qed.

Lemma absent_not_found F (p : string) a :
  p ∉ dirs (desk a) -> files (desk a) !! p = None ->
  on_desk (os_path_exists_value F (PStr p)) a = (Returned false, a).
Proof.
  destruct a as [d inst s r]. cbn [desk]. intros Hdir Hfile.
  unfold on_desk, os_path_exists_value, os_path_exists.
  cbn [desk chat_instance session rendered].
  rewrite (bool_decide_eq_false_2 _ Hdir), Hfile.
  rewrite bool_decide_eq_false_2 by (intros [? [=]]). reflexivity.
Qed.

Lemma render_all_run (elements : list Element) a :
  render_all elements a = (Returned tt, adding a elements).
Proof.
  revert a; induction elements as [|e rest IH]; intros a; simpl.
  - destruct a; unfold ret, adding; cbn. now rewrite app_nil_r.
  - erewrite bind_returned by apply render_run.
    now rewrite IH, adding_adding.
Qed.

(** The chat page without a usable file. *)
Lemma chat_page_missing F (user_input : string) (send : bool) a :
  file_missing (desk a) ->
  chat_interface F user_input send a
  = (Returned tt,
     adding a [ shown_by (st_title "Document QA - Chat with Document Data");
                shown_by (st_error "File missing. Please go back and upload a file.") ]).
Proof.
  intros Hmissing. unfold chat_interface.
  erewrite bind_returned by apply render_run.
  erewrite bind_returned by apply session_get_run.
  erewrite bind_returned by apply session_get_run.
  change (desk (adding a _)) with (desk a).
  destruct Hmissing as [Hfalsy | (p & Hpath & Hdir & Hfile)].
  - rewrite Hfalsy.
    erewrite bind_returned by reflexivity. cbv iota.
    now rewrite render_run, adding_adding.
  - rewrite Hpath. change (default PNone (Some (PStr p))) with (PStr p).
    destruct (py_truthy (PStr p)).
    + erewrite bind_returned
        by (erewrite bind_returned by (now apply absent_not_found); reflexivity).
      cbn [negb]. now rewrite render_run, adding_adding.
    + erewrite bind_returned by reflexivity. cbv iota.
      now rewrite render_run, adding_adding.
Qed.

(** The question, the answer and the history, for an instance. *)
Lemma ask_and_show_run (instance : ChatWithFile World) (this_run : bool)
  (user_input : string) (send : bool) a :
  ask_and_show instance this_run user_input send a
  = let input := st_text_input "Ask a question about the document data:"
                 :: (if String.eqb user_input "" then [] else [st_send "Send"]) in
    if negb (String.eqb user_input "") && send then
      match chat instance user_input (session a) with
      | (Returned top_result, s') =>
          (Returned tt,
           {| desk := desk a; chat_instance := chat_instance a; session := s';
              rendered :=
                rendered a
                  ++ input
                  ++ [ st_spinner "Thinking...";
                       st_markdown "**Top Answer:**";
                       st_markdown ("> " +:+ top_answer top_result);
                       st_markdown "**Chat History:**" ]
                  ++ map (history_line this_run) (conversation_history s') |})
      | (Raised e, s') =>
          (Raised e,
           {| desk := desk a; chat_instance := chat_instance a; session := s';
              rendered := rendered a ++ input ++ [st_spinner "Thinking..."] |})
      end
    else (Returned tt, adding a input).
Proof.
  unfold ask_and_show.
  erewrite bind_returned by apply render_run.
  destruct (String.eqb user_input ""); cbn [negb andb app]; [reflexivity|].
  erewrite bind_returned by apply render_run.
  rewrite adding_adding. cbn [app].
  destruct send; [|reflexivity].
  erewrite bind_returned by apply render_run.
  rewrite adding_adding. cbn [app].
  destruct a as [d inst s r].
  unfold bind at 1. unfold on_session at 1. unfold adding at 1.
  cbn [desk chat_instance session rendered].
  destruct (chat instance user_input s) as [[top_result|e] s']; [|reflexivity].
  erewrite bind_returned by apply render_run.
  erewrite bind_returned by apply render_run.
  erewrite bind_returned by apply render_run.
  erewrite bind_returned by reflexivity.
  rewrite render_all_run, !adding_adding. unfold adding.
  cbn [desk chat_instance session rendered app].
  rewrite <- ?app_assoc. cbn [app]. reflexivity.
Qed.

(** The chat page up to the instance, when the file is there. *)
Lemma chat_page_present F (user_input : string) (send : bool) a (p : string) :
  file_present p (desk a) ->
  chat_interface F user_input send a
  = (found <-
       match chat_instance a with
       | Some instance => ret (instance, false)
       | None =>
           instance <- on_session
                         (init F (PStr p)
                            (default PNone (session_state (desk a) !! "file_type"))) ;;
           store_instance instance ;;;
           ret (instance, true)
       end ;;
     ask_and_show (fst found) (snd found) user_input send)
      (adding a [shown_by (st_title "Document QA - Chat with Document Data")]).
Proof.
  intros Hpresent. pose proof Hpresent as (Hpath & _).
  destruct (present_found F p
              (adding a [shown_by (st_title "Document QA - Chat with Document Data")])
              Hpresent) as [Htruthy Hfound].
  unfold chat_interface.
  erewrite bind_returned by apply render_run.
  erewrite bind_returned by apply session_get_run.
  erewrite bind_returned by apply session_get_run.
  change (desk (adding a _)) with (desk a).
  rewrite Hpath. change (default PNone (Some (PStr p))) with (PStr p).
  rewrite Htruthy.
  erewrite bind_returned by (erewrite bind_returned by apply Hfound; reflexivity).
  cbn [negb].
  erewrite bind_returned by reflexivity.
  reflexivity.
Qed.

(** The chat page when the file is there and the instance exists: the
    instance is one of an earlier run. *)
Lemma chat_page_with_instance F (user_input : string) (send : bool) a (p : string)
  (instance : ChatWithFile World) :
  file_present p (desk a) ->
  chat_instance a = Some instance ->
  chat_interface F user_input send a
  = if negb (String.eqb user_input "") && send then
      match chat instance user_input (session a) with
      | (Returned top_result, s') =>
          (Returned tt,
           {| desk := desk a; chat_instance := Some instance; session := s';
              rendered :=
                rendered a
                  ++ chat_page_head user_input
                  ++ [ st_spinner "Thinking...";
                       st_markdown "**Top Answer:**";
                       st_markdown ("> " +:+ top_answer top_result);
                       st_markdown "**Chat History:**" ]
                  ++ map (history_line false) (conversation_history s') |})
      | (Raised e, s') =>
          (Raised e,
           {| desk := desk a; chat_instance := Some instance; session := s';
              rendered :=
                rendered a ++ chat_page_head user_input ++ [st_spinner "Thinking..."] |})
      end
    else (Returned tt, adding a (chat_page_head user_input)).
Proof.
  intros Hpresent Hinstance.
  rewrite (chat_page_present F user_input send a p Hpresent), Hinstance.
  erewrite bind_returned by reflexivity.
  cbn [fst snd]. rewrite ask_and_show_run. cbv zeta.
  unfold chat_page_head, adding. cbn [desk chat_instance session rendered].
  rewrite Hinstance.
  destruct (negb (String.eqb user_input "") && send).
  - destruct (chat instance user_input (session a)) as [[top_result|e] s'];
      now rewrite <- !app_assoc.
  - now rewrite <- !app_assoc.
Qed.

(** The first run of the chat page when the file is there: the instance
    is built, stored, and is one of this run. *)
Lemma chat_page_first_visit F (user_input : string) (send : bool) a (p : string) :
  file_present p (desk a) ->
  chat_instance a = None ->
  chat_interface F user_input send a
  = match init F (PStr p) (default PNone (session_state (desk a) !! "file_type"))
            (session a) with
    | (Returned instance, s1) =>
        ask_and_show instance true user_input send
          {| desk := desk a; chat_instance := Some instance; session := s1;
             rendered :=
               rendered a ++ [shown_by (st_title "Document QA - Chat with Document Data")] |}
    | (Raised e, s1) =>
        (Raised e,
         {| desk := desk a; chat_instance := None; session := s1;
            rendered :=
              rendered a ++ [shown_by (st_title "Document QA - Chat with Document Data")] |})
    end.
Proof.
  intros Hpresent Hnone.
  rewrite (chat_page_present F user_input send a p Hpresent), Hnone.
  unfold bind at 1. unfold bind at 1. unfold on_session at 1.
  unfold adding at 1. cbn [desk chat_instance session rendered].
  destruct (init F (PStr p) _ (session a)) as [[instance|e] s1].
  - unfold bind at 1. reflexivity.
  - cbn [adding desk chat_instance session rendered]. now rewrite Hnone.
Qed.

(** *** What a run of the chat page can change *)

Lemma step_bind {A C : Type} (m : M (App World) A) (k : A -> M (App World) C) :
  page_step m -> (forall x, page_step (k x)) -> page_step (bind m k).
Proof.
  intros Hm Hk a. unfold bind. destruct (Hm a) as (Hd & [els Hr] & Hi).
  destruct (m a) as [[x|e] a1]; cbn [snd] in *.
  - destruct (Hk x a1) as (Hd' & [els' Hr'] & Hi').
    split; [congruence|]. split.
    + exists (els ++ els'). now rewrite Hr', Hr, app_assoc.
    + intros instance Hsome. apply Hi', Hi, Hsome.
  - split; [assumption|]. split; [now exists els | assumption].
Qed.

Lemma step_ret {A : Type} (x : A) : page_step (World:=World) (ret x).
Proof.
  intros a. cbn. split; [reflexivity|]. split; [|tauto].
  exists []. now rewrite app_nil_r.
Qed.

Lemma step_render (e : Element) : page_step (World:=World) (render e).
Proof. intros a. cbn. split; [reflexivity|]. split; [now exists [e] | tauto]. Qed.

Lemma step_render_all (elements : list Element) :
  page_step (World:=World) (render_all elements).
Proof.
  induction elements as [|e rest IH]; simpl.
  - apply step_ret.
  - apply step_bind; [apply step_render | intros _; apply IH].
Qed.

Lemma step_read {A : Type} (m : M Desk A) :
  (forall d, snd (m d) = d) -> page_step (World:=World) (on_desk m).
Proof.
  intros Hread a. unfold on_desk. specialize (Hread (desk a)).
  destruct (m (desk a)) as [o d]. cbn in *. subst d.
  split; [reflexivity|]. split; [|tauto]. exists []. now rewrite app_nil_r.
Qed.

Lemma step_on_session {A : Type} (m : M (Session World) A) : page_step (on_session m).
Proof.
  intros a. unfold on_session. destruct (m (session a)) as [o s]. cbn.
  split; [reflexivity|]. split; [|tauto]. exists []. now rewrite app_nil_r.
Qed.

Lemma os_path_exists_value_reads F (value : PyValue) (d : Desk) :
  snd (os_path_exists_value F value d) = d.
Proof. now destruct value. Qed.

(** The instance is built and stored only when none is there. *)
Lemma step_instance {C : Type} (build : M (Session World) (ChatWithFile World))
  (k : ChatWithFile World * bool -> M (App World) C) :
  (forall found, page_step (k found)) ->
  page_step
    (stored <- (fun a => (Returned (chat_instance a), a)) ;;
     found <-
       match stored with
       | Some instance => ret (instance, false)
       | None =>
           instance <- on_session build ;;
           store_instance instance ;;;
           ret (instance, true)
       end ;;
     k found).
Proof.
  intros Hk [d [instance|] s r].
  - apply (Hk (instance, false)).
  - unfold bind, on_session, store_instance, modify, ret.
    cbn [desk chat_instance session rendered].
    destruct (build s) as [[instance|e] s1]; cbn [snd].
    + destruct (Hk (instance, true)
                  {| desk := d; chat_instance := Some instance;
                     session := s1; rendered := r |}) as (Hd & Hr & _).
      split; [exact Hd|]. split; [exact Hr|].
      intros other [=].
    + cbn. split; [reflexivity|]. split; [|intros ? [=]].
      exists []. now rewrite app_nil_r.
Qed.

Lemma ask_and_show_step (instance : ChatWithFile World) (this_run : bool)
  (user_input : string) (send : bool) :
  page_step (ask_and_show instance this_run user_input send).
Proof.
  unfold ask_and_show.
  apply step_bind; [apply step_render | intros _].
  destruct (negb (String.eqb user_input "")); [|apply step_ret].
  apply step_bind; [apply step_render | intros _].
  destruct send; [|apply step_ret].
  apply step_bind; [apply step_render | intros _].
  apply step_bind; [apply step_on_session | intros top_result].
  apply step_bind; [apply step_render | intros _].
  apply step_bind; [apply step_render | intros _].
  apply step_bind; [apply step_render | intros _].
  apply step_bind; [|intros history; apply step_render_all].
  intros a. cbn. split; [reflexivity|]. split; [|tauto].
  exists []. now rewrite app_nil_r.
Qed.

Lemma chat_interface_step F (user_input : string) (send : bool) :
  page_step (chat_interface F user_input send).
Proof.
  unfold chat_interface.
  apply step_bind; [apply step_render | intros _].
  apply step_bind; [now apply step_read | intros file_path].
  apply step_bind; [now apply step_read | intros file_type].
  apply step_bind.
  { destruct (py_truthy file_path); [|apply step_ret].
    apply step_bind; [|intros; apply step_ret].
    apply step_read, os_path_exists_value_reads. }
  intros [|]; [apply step_render|].
  apply (step_instance (init F file_path file_type)
           (fun found => ask_and_show (fst found) (snd found) user_input send)).
  intros found. apply ask_and_show_step.
Qed.

(** The script, by the page the session state names. *)
Lemma main_on_page F (uploaded_file : option UploadedFile) (user_input : string)
  (send : bool) a (page : PyValue) :
  session_state (desk a) !! "page" = Some page ->
  main F uploaded_file user_input send a
  = if key_eqb page (PInt 1) then on_desk (upload_and_handle_file uploaded_file) a
    else if key_eqb page (PInt 2) then chat_interface F user_input send a
    else (Returned tt, a).
Proof.
  intros Hpage. unfold main.
  erewrite bind_returned.
  2:{ destruct a as [d inst s r]. unfold on_desk. cbn [desk] in *.
      rewrite Hpage. reflexivity. }
  rewrite bool_decide_eq_true_2 by (now exists page).
  erewrite bind_returned by (destruct a; reflexivity).
  erewrite bind_returned by apply session_get_run.
  rewrite Hpage. change (default PNone (Some page)) with page.
  destruct (key_eqb page (PInt 1)); [reflexivity|].
  now destruct (key_eqb page (PInt 2)).
Qed.


(** X19: when the session state names no file, or one that is not on
    disk, the chat page shows its title and the error, and that is all:
    no instance is built, nothing is loaded or asked, and the session
    state and the files are as before. *)
Theorem missing_file_reported F (user_input : string) (send : bool) a :
  file_missing (desk a) ->
  exists a',
    chat_interface F user_input send a = (Returned tt, a')
    /\ rendered a'
       = rendered a
           ++ [ shown_by (st_title "Document QA - Chat with Document Data");
                shown_by (st_error "File missing. Please go back and upload a file.") ]
    /\ chat_instance a' = chat_instance a
    /\ session a' = session a
    /\ desk a' = desk a.
Proof.
  intros Hmissing. rewrite (chat_page_missing F user_input send a Hmissing).
  eexists. split; [reflexivity|]. now cbn.
Qed.

(** X20: once an instance is in the session state the chat page never
    builds another: with the file in place, a run does not depend on the
    platform at all (environment, loaders, chunker, index are not
    consulted), and the instance is still there afterwards. *)
Theorem chat_page_never_rebuilds_instance (F F' : Platform World VectorDB)
  (user_input : string) (send : bool) a (p : string) (instance : ChatWithFile World) :
  file_present p (desk a) ->
  chat_instance a = Some instance ->
  chat_interface F user_input send a = chat_interface F' user_input send a
  /\ chat_instance (snd (chat_interface F user_input send a)) = Some instance.
Proof.
  intros Hpresent Hinstance. split.
  - now rewrite (chat_page_with_instance F user_input send a p instance),
      (chat_page_with_instance F' user_input send a p instance).
  - now apply chat_interface_step.
Qed.

(** X21: the chat page asks nothing unless a question was typed and
    [Send] pressed.  With the file and the instance in place, a run with
    an empty input or without the press returns, leaves the world and the
    conversation history alone, and shows the title and the input field,
    and the button only when the input is not empty. *)
Theorem idle_chat_page_asks_nothing F (user_input : string) (send : bool) a
  (p : string) (instance : ChatWithFile World) :
  file_present p (desk a) ->
  chat_instance a = Some instance ->
  user_input = "" \/ send = false ->
  exists a',
    chat_interface F user_input send a = (Returned tt, a')
    /\ session a' = session a
    /\ rendered a'
       = rendered a
           ++ [ shown_by (st_title "Document QA - Chat with Document Data");
                st_text_input "Ask a question about the document data:" ]
           ++ (if String.eqb user_input "" then [] else [st_send "Send"]).
Proof.
  intros Hpresent Hinstance Hidle.
  rewrite (chat_page_with_instance F user_input send a p instance Hpresent Hinstance).
  assert (Hno : negb (String.eqb user_input "") && send = false).
  { destruct Hidle as [-> | ->]; [reflexivity | apply andb_false_r]. }
  rewrite Hno. eexists. split; [reflexivity|]. now cbn.
Qed.

(** X22: when [chat] of a stored instance returns, the page shows the
    answer it returned as a quotation and then the whole conversation,
    one line per turn in order, the earlier turns first and last the
    question just asked and the AI turn [chat] recorded.  The instance is
    one of an earlier run, so no turn is an instance of this run's
    [HumanMessage]: every line, that of the question too, is marked
    [*AI:*]. *)
Theorem answer_and_history_displayed F (user_input : string) a (p : string)
  (instance : ChatWithFile World) (top_result : TopResult) (s' : Session World) :
  file_present p (desk a) ->
  chat_instance a = Some instance ->
  user_input <> "" ->
  chat instance user_input (session a) = (Returned top_result, s') ->
  exists a' final_answer,
    chat_interface F user_input true a = (Returned tt, a')
    /\ session a' = s'
    /\ rendered a'
       = rendered a
           ++ [ shown_by (st_title "Document QA - Chat with Document Data");
                st_text_input "Ask a question about the document data:";
                st_send "Send";
                st_spinner "Thinking...";
                st_markdown "**Top Answer:**";
                st_markdown ("> " +:+ top_answer top_result);
                st_markdown "**Chat History:**" ]
           ++ map (history_line false) (conversation_history (session a))
           ++ [ st_markdown ("*AI:* " +:+ user_input);
                st_markdown ("*AI:* " +:+ final_answer) ]
    /\ Forall (fun message =>
                 exists content,
                   history_line false message = st_markdown ("*AI:* " +:+ content))
         (conversation_history (session a)).
Proof.
  intros Hpresent Hinstance Hinput Hchat.
  rewrite (chat_page_with_instance F user_input true a p instance Hpresent Hinstance).
  apply String.eqb_neq in Hinput. unfold chat_page_head. rewrite Hinput, Hchat.
  pose proof (chat_appends instance user_input (session a)) as Hturn.
  rewrite Hchat in Hturn. destruct Hturn as [final_answer Hhistory].
  eexists _, final_answer. split; [reflexivity|].
  cbn [session rendered negb andb app]. split; [reflexivity|].
  split; [rewrite Hhistory, map_app; reflexivity|].
  apply List.Forall_forall. intros [content|content] _; now exists content.
Qed.

(** X23: the page does not catch what [chat] raises: the exception ends
    the run after the spinner, neither an answer nor the history is
    shown, the instance stays in the session state, and the conversation
    history is as it was. *)
Theorem chat_failure_reaches_page F (user_input : string) a (p : string)
  (instance : ChatWithFile World) (e : Exn) (s' : Session World) :
  file_present p (desk a) ->
  chat_instance a = Some instance ->
  user_input <> "" ->
  chat instance user_input (session a) = (Raised e, s') ->
  exists a',
    chat_interface F user_input true a = (Raised e, a')
    /\ session a' = s'
    /\ conversation_history (session a') = conversation_history (session a)
    /\ chat_instance a' = Some instance
    /\ rendered a'
       = rendered a
           ++ [ shown_by (st_title "Document QA - Chat with Document Data");
                st_text_input "Ask a question about the document data:";
                st_send "Send";
                st_spinner "Thinking..." ].
Proof.
  intros Hpresent Hinstance Hinput Hchat.
  rewrite (chat_page_with_instance F user_input true a p instance Hpresent Hinstance).
  apply String.eqb_neq in Hinput. unfold chat_page_head. rewrite Hinput, Hchat.
  pose proof (chat_appends instance user_input (session a)) as Hturn.
  rewrite Hchat in Hturn.
  eexists. split; [reflexivity|]. cbn [session rendered chat_instance negb andb app].
  repeat split; assumption.
Qed.

(** X24: the first run of the chat page with the file in place builds
    the instance from the path and the type of the session state.  When
    the constructor returns, the instance is stored and the run goes on
    with it, as built in this run.  Its outcome, session state, files and
    conversation are those of a run that finds the instance stored, and
    so is the page when nothing is asked; when a question is asked the
    page differs in the one respect that the human turns of this run's
    instance are marked [*You:*].  When the constructor raises, the
    exception ends the run right after the title, and no instance is
    stored, so that the next run builds again. *)
Theorem first_visit_builds_instance F (user_input : string) (send : bool) a
  (p : string) :
  file_present p (desk a) ->
  chat_instance a = None ->
  let file_type := default PNone (session_state (desk a) !! "file_type") in
  match init F (PStr p) file_type (session a) with
  | (Returned instance, s1) =>
      let stored := {| desk := desk a; chat_instance := Some instance;
                       session := s1; rendered := rendered a |} in
      let first_run := chat_interface F user_input send a in
      let stored_run := chat_interface F user_input send stored in
      first_run
      = ask_and_show instance true user_input send
          (adding stored [shown_by (st_title "Document QA - Chat with Document Data")])
      /\ fst first_run = fst stored_run
      /\ desk (snd first_run) = desk (snd stored_run)
      /\ chat_instance (snd first_run) = Some instance
      /\ session (snd first_run) = session (snd stored_run)
      /\ (user_input = "" \/ send = false -> first_run = stored_run)
  | (Raised e, s1) =>
      chat_interface F user_input send a
      = (Raised e,
         {| desk := desk a; chat_instance := None; session := s1;
            rendered :=
              rendered a
                ++ [shown_by (st_title "Document QA - Chat with Document Data")] |})
  end.
Proof.
  intros Hpresent Hnone file_type.
  pose proof (chat_page_first_visit F user_input send a p Hpresent Hnone) as Hfirst.
  fold file_type in Hfirst.
  destruct (init F (PStr p) file_type (session a)) as [[instance|e] s1];
    [|exact Hfirst].
  intros stored first_run stored_run.
  assert (Hstored : stored_run
                    = ask_and_show instance false user_input send
                        (adding stored
                           [shown_by (st_title "Document QA - Chat with Document Data")])).
  { subst stored_run.
    rewrite (chat_page_present F user_input send stored p Hpresent).
    cbn [stored chat_instance]. unfold bind at 1. reflexivity. }
  subst first_run. rewrite Hfirst, Hstored. clear Hfirst Hstored.
  split; [reflexivity|].
  rewrite !ask_and_show_run. cbv zeta.
  cbn [adding stored desk chat_instance session rendered].
  destruct (negb (String.eqb user_input "") && send) eqn:Hask.
  - destruct (chat instance user_input s1) as [[top_result|e] s'];
      cbn [fst snd desk chat_instance session rendered];
      (repeat split; try reflexivity);
      intros [-> | ->];
      solve [discriminate Hask | now rewrite andb_false_r in Hask].
  - cbn [fst snd desk chat_instance session rendered]. repeat split; reflexivity.
Qed.

(** X25: whatever the inputs and the state, a run of the chat page
    writes no file and changes no key of the session state, only adds to
    what the page shows, and neither replaces nor drops an instance that
    is there. *)
Theorem chat_page_leaves_upload_state F (user_input : string) (send : bool) a :
  let a' := snd (chat_interface F user_input send a) in
  desk a' = desk a
  /\ (exists elements, rendered a' = rendered a ++ elements)
  /\ (forall instance, chat_instance a = Some instance ->
                       chat_instance a' = Some instance).
Proof. apply chat_interface_step. Qed.

(** X26: the chat page is final.  Once the session state names page 2,
    every later run of the script is a run of the chat page, whatever the
    widgets return and whether runs end in exceptions: the session state
    (so also the page, the path and the type of the document) and the
    files stay as they are, and so does an instance that is there. *)
Theorem chat_page_is_final F (inputs : list (option UploadedFile * string * bool)) a :
  session_state (desk a) !! "page" = Some (PInt 2) ->
  desk (runs F inputs a) = desk a
  /\ (forall instance, chat_instance a = Some instance ->
                       chat_instance (runs F inputs a) = Some instance).
Proof.
  revert a; induction inputs as [|[[uploaded_file user_input] send] rest IH];
    intros a Hpage; [now split|].
  cbn [runs].
  rewrite (main_on_page F uploaded_file user_input send a (PInt 2) Hpage).
  change (key_eqb (PInt 2) (PInt 1)) with false.
  change (key_eqb (PInt 2) (PInt 2)) with true. cbv iota.
  destruct (chat_interface_step F user_input send a) as (Hdesk & _ & Hinstance).
  destruct (IH (snd (chat_interface F user_input send a))) as [IHdesk IHinstance];
    [now rewrite Hdesk|].
  split; [congruence|].
  intros instance Hsome. apply IHinstance, Hinstance, Hsome.
Qed.


End PageFacts.

(** ** The synthesis prompt after the fusion *)

(** X28: the second sort, in [create_synthesis_prompt], never reorders
    what the fusion returned: the results are displayed and numbered in
    the prompt in the very order of the fusion, between the sentence with
    the question and the closing sentence. *)
Theorem synthesis_prompt_in_fusion_order {World : Type} (question : string)
  (all_results : list QAResult) (reranked : list Fused) (s : Session World) :
  reciprocal_rank_fusion all_results 60 = Returned reranked ->
  create_synthesis_prompt question (scored_of reranked) s
  = (Returned
       ((("Based on the user's original question: '" +:+ question +:+
         "', here are the answers to the original and related questions, ordered by their relevance (with RRF scores). Please synthesize a comprehensive answer focusing on answering the original question using all the information provided below:" +:+
          newline +:+ newline)
         +:+ answer_lines 0 (scored_of reranked))
        +:+ "Given the above answers, especially considering those with higher scores, please provide the best possible composite answer to the user's original question."),
     {| world := world s;
        display := display s
                     ++ [st_write [ShowText "Sorted Results"; ShowScored (scored_of reranked)]];
        conversation_history := conversation_history s |}).
Proof.
  intros Hfusion. unfold reciprocal_rank_fusion in Hfusion.
  destruct (fuse_all all_results []) as [fused|e]; [|discriminate].
  injection Hfusion as <-.
  unfold create_synthesis_prompt.
  rewrite (sorted_reverse_sorted s_score)
    by apply scored_of_sorted, sorted_reverse_descending.
  reflexivity.
Qed.

(** ** A failure of the model during the expansion *)

Section ModelFailure.
Context {World : Type} {B : Builtins}.

(** X29: the [try] of the query expansion covers the parsing only.  An
    exception of the model call, be it a [ValueError], is not turned into
    an empty list: it leaves [generate_related_queries] and [chat], no
    query is put to the chain, and the history is left alone. *)
Theorem model_failure_not_caught (self : ChatWithFile World) (model : LLM World)
  (question : string) (s : Session World) (e : Exn) (w : World) :
  llm self = Some model ->
  invoke model (related_queries_prompt question) (world s) = (Raised e, w) ->
  let s' := {| world := w; display := display s;
               conversation_history := conversation_history s |} in
  generate_related_queries self question s = (Raised e, s')
  /\ chat self question s = (Raised e, s').
Proof.
  intros Hllm Hinvoke s'.
  assert (Hgenerate : generate_related_queries self question s = (Raised e, s')).
  { unfold generate_related_queries. rewrite Hllm.
    apply bind_raised. unfold llm_invoke, remote. now rewrite Hinvoke. }
  split; [exact Hgenerate|].
  unfold chat, gather. apply bind_raised. apply bind_raised. exact Hgenerate.
Qed.

End ModelFailure.

(** ** The further properties at scripted inputs *)

Lemma fusion_counts_every_result_witness :
  exists reranked,
    reciprocal_rank_fusion repeated_results 60 = Returned reranked
    /\ total_score reranked = 3
    /\ (length reranked <= 3)%nat.
Proof.
  assert (H : Forall (fun r => hashable (query r) = true) repeated_results)
    by (repeat constructor).
  destruct (fusion_counts_every_result repeated_results 60 H)
    as (reranked & Hrun & Htotal & _ & Hlen & _).
  exists reranked. auto.
Defined.

Lemma fusion_groups_by_query_witness :
  exists reranked,
    reciprocal_rank_fusion repeated_results 60 = Returned reranked
    /\ NoDup (map (fun e => query (doc e)) reranked).
Proof.
  assert (H : Forall (fun r => is_str (query r) = true) repeated_results)
    by (repeat constructor).
  destruct (fusion_groups_by_query repeated_results 60 H)
    as (reranked & Hrun & _ & Hnodup & _).
  exists reranked. auto.
Defined.

Lemma results_answer_recorded_witness :
  exists r s2,
    chat (B:=scripted) plain_session capital_question fresh = (Returned r, s2)
    /\ conversation_history s2
       = [HumanMessage capital_question; AIMessage (top_answer r)].
Proof.
  assert (Hgather : exists first rest s1,
             gather (B:=scripted) plain_session capital_question fresh
             = (Returned (first :: rest), s1))
    by (eexists _, _, _; vm_compute; reflexivity).
  assert (Hchat : exists r s2,
             chat (B:=scripted) plain_session capital_question fresh = (Returned r, s2))
    by (eexists _, _; vm_compute; reflexivity).
  destruct Hgather as (first & rest & s1 & Hgather).
  destruct Hchat as (r & s2 & Hchat).
  exists r, s2. split; [exact Hchat|].
  exact (proj1 (results_answer_recorded (B:=scripted) plain_session capital_question
                  fresh s1 s2 first rest r Hgather Hchat)).
Defined.

Lemma results_follow_queries_witness :
  exists results s',
    retrieve plain_session [PStr capital_question; PStr "Who?"] [] fresh
    = (Returned results, s')
    /\ (length results <= 2)%nat.
Proof.
  assert (Hrun : exists results s',
             retrieve plain_session [PStr capital_question; PStr "Who?"] [] fresh
             = (Returned results, s'))
    by (eexists _, _; vm_compute; reflexivity).
  destruct Hrun as (results & s' & Hrun).
  exists results, s'. split; [exact Hrun|].
  exact (proj1 (proj2 (results_follow_queries plain_session _ results fresh s' Hrun))).
Defined.

Lemma failed_expansion_asks_question_only_witness :
  gather (B:=scripted) plain_session capital_question fresh
  = retrieve plain_session [PStr capital_question] []
      {| world := 1%nat; display := []; conversation_history := [] |}.
Proof.
  assert (H1 : llm plain_session = Some (scripted_llm (scripted_reply "none this time.")))
    by reflexivity.
  assert (H2 : invoke (scripted_llm (scripted_reply "none this time."))
                 (related_queries_prompt capital_question) (world fresh)
               = (Returned (scripted_reply "none this time."
                              (related_queries_prompt capital_question)), 1%nat))
    by reflexivity.
  assert (H3 : json_loads (Builtins:=scripted)
                 (json_part (reply_text (scripted_reply "none this time."
                                           (related_queries_prompt capital_question))))
               = Raised (JSONDecodeError "Expecting value"))
    by (vm_compute; reflexivity).
  exact (proj1 (failed_expansion_asks_question_only (B:=scripted) plain_session _
                  capital_question fresh _ _ _ H1 H2 H3 eq_refl)).
Defined.

Lemma decoder_error_propagates_witness :
  chat (B:=giving_up) plain_session capital_question fresh
  = (Raised (RecursionError "maximum recursion depth exceeded"),
     {| world := 1%nat; display := []; conversation_history := [] |}).
Proof.
  assert (H1 : llm plain_session = Some (scripted_llm (scripted_reply "none this time.")))
    by reflexivity.
  assert (H2 : invoke (scripted_llm (scripted_reply "none this time."))
                 (related_queries_prompt capital_question) (world fresh)
               = (Returned (scripted_reply "none this time."
                              (related_queries_prompt capital_question)), 1%nat))
    by reflexivity.
  assert (H3 : json_loads (Builtins:=giving_up)
                 (json_part (reply_text (scripted_reply "none this time."
                                           (related_queries_prompt capital_question))))
               = Raised (RecursionError "maximum recursion depth exceeded"))
    by reflexivity.
  exact (proj1 (proj2 (decoder_error_propagates (B:=giving_up) plain_session _
                         capital_question fresh _ _ _ H1 H2 H3 eq_refl))).
Defined.

Lemma first_bad_element_decides_witness :
  chat (B:=stray) stray_session capital_question fresh
  = (Raised (KeyError "query"),
     {| world := 1%nat; display := []; conversation_history := [] |}).
Proof.
  assert (H1 : generate_related_queries (B:=stray) stray_session capital_question fresh
               = (Returned (PList ([PDict [("query", PStr "France capital city")]]
                                     ++ PDict [("q", PStr "Paris")] :: [])),
                  {| world := 1%nat; display := []; conversation_history := [] |}))
    by (vm_compute; reflexivity).
  assert (H2 : Forall has_query [PDict [("query", PStr "France capital city")]]).
  { constructor; [|constructor]. now eexists _, _. }
  assert (H3 : py_getitem (PDict [("q", PStr "Paris")]) "query" = Raised (KeyError "query"))
    by reflexivity.
  exact (proj1 (first_bad_element_decides (B:=stray) stray_session capital_question
                  fresh _ _ _ _ _ H1 H2 H3)).
Defined.





Lemma simplify_metadata_idempotent_witness :
  simplify_metadata (B:=scripted) (simplify_metadata (B:=scripted) page_doc)
  = simplify_metadata (B:=scripted) page_doc.
Proof.
  apply (simplify_metadata_idempotent (B:=scripted) page_doc).
  intros entries [= <-]. apply (bool_decide_unpack _). vm_compute. exact I.
Defined.

Lemma simplify_docs_keeps_chunks_witness :
  length (simplify_docs (B:=scripted) [page_doc; page_doc]) = 2%nat.
Proof.
  apply (simplify_docs_keeps_chunks (B:=scripted) [page_doc; page_doc]).
  repeat constructor; intros entries [= <-]; apply (bool_decide_unpack _);
    vm_compute; exact I.
Defined.

Lemma unknown_type_stops_ingestion_witness :
  init (B:=scripted) scripted_platform (PStr "temp/photo.png") (PStr "png") fresh
  = (Raised (AttributeError "ChatWithFile" "loader"), fresh).
Proof.
  apply (unknown_type_stops_ingestion (B:=scripted) scripted_platform (PStr "temp/photo.png")
           (PStr "png") fresh).
  intros t Ht [= <-]. simpl in Ht. intuition discriminate.
Defined.

Lemma uploaded_type_has_loader_witness :
  exists loader,
    pick_loader (PStr "temp/report.pdf") (PStr "pdf") = Some loader
    /\ loader_file_path loader = PStr "temp/report.pdf".
Proof.
  assert (H : file_type_of (name pdf_file) = Some "pdf") by reflexivity.
  destruct (uploaded_type_has_loader scripted_platform (name pdf_file) "pdf"
              (PStr "temp/report.pdf") H) as (loader & Hpick & Hpath & _).
  exists loader. auto.
Defined.

Lemma missing_file_reported_witness :
  exists a',
    chat_interface (B:=scripted) scripted_platform capital_question true new_app
    = (Returned tt, a')
    /\ chat_instance a' = None
    /\ session a' = fresh.
Proof.
  assert (H : file_missing (desk new_app)) by (left; reflexivity).
  destruct (missing_file_reported (B:=scripted) scripted_platform capital_question true
              new_app H) as (a' & Hrun & _ & Hinstance & Hsession & _).
  exists a'. auto.
Defined.

Lemma uploaded_file_present : file_present "temp/report.pdf" uploaded_desk.
Proof.
  split; [reflexivity|]. split; [discriminate|].
  right. now exists [].
Defined.

Lemma chat_page_never_rebuilds_instance_witness :
  chat_interface (B:=scripted) scripted_platform capital_question true later_visit
  = chat_interface (B:=scripted) offline_platform capital_question true later_visit.
Proof.
  exact (proj1 (chat_page_never_rebuilds_instance (B:=scripted) scripted_platform
                  offline_platform capital_question true later_visit
                  "temp/report.pdf" plain_session uploaded_file_present eq_refl)).
Defined.

Lemma idle_chat_page_asks_nothing_witness :
  exists a',
    chat_interface (B:=scripted) scripted_platform capital_question false later_visit
    = (Returned tt, a')
    /\ session a' = fresh.
Proof.
  destruct (idle_chat_page_asks_nothing (B:=scripted) scripted_platform capital_question
              false later_visit "temp/report.pdf" plain_session
              uploaded_file_present eq_refl (or_intror eq_refl))
    as (a' & Hrun & Hsession & _).
  exists a'. auto.
Defined.

Lemma answer_and_history_displayed_witness :
  exists a' final_answer,
    chat_interface (B:=scripted) scripted_platform capital_question true later_visit
    = (Returned tt, a')
    /\ In (st_markdown ("*AI:* " +:+ capital_question)) (rendered a')
    /\ last (rendered a') = Some (st_markdown ("*AI:* " +:+ final_answer)).
Proof.
  assert (Hchat : chat (B:=scripted) plain_session capital_question (session later_visit)
                  = (Returned {| top_answer := "Paris." |},
                     snd (chat (B:=scripted) plain_session capital_question
                            (session later_visit))))
    by (vm_compute; reflexivity).
  assert (Hinput : capital_question <> "") by discriminate.
  destruct (answer_and_history_displayed (B:=scripted) scripted_platform capital_question
              later_visit "temp/report.pdf" plain_session _ _
              uploaded_file_present eq_refl Hinput Hchat)
    as (a' & final_answer & Hrun & _ & Hrendered & _).
  exists a', final_answer. split; [exact Hrun|].
  rewrite Hrendered. split.
  - apply in_or_app. right. apply in_or_app. right. apply in_or_app. right.
    left. reflexivity.
  - rewrite !last_app. reflexivity.
Defined.

Lemma chat_failure_reaches_page_witness :
  exists a',
    chat_interface (B:=scripted) scripted_platform capital_question true string_visit
    = (Raised (TypeError "string indices must be integers"), a')
    /\ conversation_history (session a') = [].
Proof.
  assert (Hchat : chat (B:=scripted) string_session capital_question (session string_visit)
                  = (Raised (TypeError "string indices must be integers"),
                     {| world := 1%nat; display := []; conversation_history := [] |}))
    by (vm_compute; reflexivity).
  assert (Hinput : capital_question <> "") by discriminate.
  destruct (chat_failure_reaches_page (B:=scripted) scripted_platform capital_question
              string_visit "temp/report.pdf" string_session _ _
              uploaded_file_present eq_refl Hinput Hchat)
    as (a' & Hrun & _ & Hhistory & _).
  exists a'. auto.
Defined.

Lemma first_visit_builds_instance_witness :
  chat_interface (B:=scripted) scripted_platform "" false first_visit
  = chat_interface (B:=scripted) scripted_platform "" false
      {| desk := uploaded_desk;
         chat_instance := Some plain_session;
         session := {| world := 3%nat; display := []; conversation_history := [] |};
         rendered := [] |}.
Proof.
  exact (proj2 (proj2 (proj2 (proj2 (proj2
           (first_visit_builds_instance (B:=scripted) scripted_platform "" false
              first_visit "temp/report.pdf" uploaded_file_present eq_refl)))))
           (or_introl eq_refl)).
Defined.

Lemma chat_page_is_final_witness :
  desk (runs (B:=scripted) scripted_platform
          [(None, capital_question, true); (Some csv_file, "", false)] later_visit)
  = uploaded_desk.
Proof.
  assert (H : session_state (desk later_visit) !! "page" = Some (PInt 2)) by reflexivity.
  exact (proj1 (chat_page_is_final (B:=scripted) scripted_platform
                  [(None, capital_question, true); (Some csv_file, "", false)]
                  later_visit H)).
Defined.


Lemma synthesis_prompt_in_fusion_order_witness :
  exists reranked,
    reciprocal_rank_fusion repeated_results 60 = Returned reranked
    /\ fst (create_synthesis_prompt capital_question (scored_of reranked) fresh)
       = Returned
           ((("Based on the user's original question: '" +:+ capital_question +:+
              "', here are the answers to the original and related questions, ordered by their relevance (with RRF scores). Please synthesize a comprehensive answer focusing on answering the original question using all the information provided below:" +:+
              newline +:+ newline)
             +:+ answer_lines 0 (scored_of reranked))
            +:+ "Given the above answers, especially considering those with higher scores, please provide the best possible composite answer to the user's original question.").
Proof.
  assert (Hrun : exists reranked, reciprocal_rank_fusion repeated_results 60 = Returned reranked)
    by (eexists; vm_compute; reflexivity).
  destruct Hrun as (reranked & Hrun).
  exists reranked. split; [exact Hrun|].
  now rewrite (synthesis_prompt_in_fusion_order capital_question repeated_results
                 reranked fresh Hrun).
Defined.

Lemma model_failure_not_caught_witness :
  chat (B:=scripted) failing_session capital_question fresh
  = (Raised (ValueError "rate limit reached"),
     {| world := 1%nat; display := []; conversation_history := [] |}).
Proof.
  assert (H1 : llm failing_session = Some failing_llm) by reflexivity.
  assert (H2 : invoke failing_llm (related_queries_prompt capital_question) (world fresh)
               = (Raised (ValueError "rate limit reached"), 1%nat)) by reflexivity.
  exact (proj2 (model_failure_not_caught (B:=scripted) failing_session failing_llm
                  capital_question fresh _ _ H1 H2)).
Defined.
